(** * Student Management System (console): model and verified properties

    A shallow embedding of [student_mgmt.py].  The program keeps a global
    list [students] of dictionaries, mirrors it to [data.json] and is driven
    by lines typed at the terminal.  The model threads a [world] (the
    collection, the data file, the pending input lines and what was printed)
    through a small state-and-exception monad.

    Modelling conventions
    - Python values are the values [json.load] can produce, together with the
      strings read by [input]: [None], booleans, integers, strings, lists and
      string-keyed dictionaries.  Non-integer JSON numbers are not
      represented.
    - A dictionary is an association list in insertion order with first-match
      lookup; assignment to an existing key keeps its position, a new key goes
      last.
    - The element of [students] returned by [search_by_roll] is the very object
      stored in the list, so it is represented by its position; writes through
      it update the list in place.
    - File content is a string; whether it decodes as UTF-8 is for the
      library to say.  Library functions whose code is not part of the
      program ([str.strip], [str.upper], [str.lower], [json.dump],
      [json.load]) are the fields of the class [PyLib], together with the
      exceptions of [json.dump] and [json.load] that the program does not
      catch; a reference instance for plain ASCII data is given in [RefLib]
      to run the model.
    - [save_data] catches [OSError] only and [load_data] catches
      [JSONDecodeError] and [OSError] only: a string that cannot be encoded,
      a file that is not UTF-8, an integer of too many digits or a nesting
      that is too deep raise through them, and through [main].
    - Printed text is recorded as a sequence of events, one constructor per
      message of the program.
    - [run] dispatches on the operation chosen, and [startup] is the load
      that [main] performs first.  The menu loop of [main] runs over a
      [session]: the world of the operations, and the texts that [main],
      [print_menu] and [pause] print themselves, each with its place on the
      screen.  The loop is given a number of turns; it needs one per pending
      line plus one.  The input is a list of lines, so [KeyboardInterrupt]
      does not occur. *)

From Stdlib Require Import ZArith String Ascii DecimalString.
From stdpp Require Import base list strings.

Local Open Scope string_scope.
Local Open Scope list_scope.

(** ** Values *)

#[local] Set Warnings "-register-all".

Inductive pyval : Type :=
| PNone
| PBool (b : bool)
| PInt (z : Z)
| PStr (s : string)
| PList (items : list pyval)
| PDict (d : list (string * pyval)).

Abbreviation pydict := (list (string * pyval)).

(** [d.get(k)] / [k in d] *)
Fixpoint dict_get (k : string) (d : pydict) : option pyval :=
  match d with
  | [] => None
  | (k', v) :: rest => if String.eqb k' k then Some v else dict_get k rest
  end.

(** [d[k] = v] *)
Fixpoint dict_set (k : string) (v : pyval) (d : pydict) : pydict :=
  match d with
  | [] => [(k, v)]
  | (k', v') :: rest =>
      if String.eqb k' k then (k', v) :: rest else (k', v') :: dict_set k v rest
  end.

(** Python's [==] on the modelled values.  [True == 1] and [False == 0];
    lists compare element-wise; dictionaries compare as maps (same number of
    keys, every key of the left bound to an equal value on the right). *)
Fixpoint py_eq (a b : pyval) {struct a} : bool :=
  match a, b with
  | PNone, PNone => true
  | PBool x, PBool y => Bool.eqb x y
  | PBool x, PInt y => Z.eqb (Z.b2z x) y
  | PInt x, PBool y => Z.eqb x (Z.b2z y)
  | PInt x, PInt y => Z.eqb x y
  | PStr x, PStr y => String.eqb x y
  | PList xs, PList ys =>
      (fix all2 (xs ys : list pyval) {struct xs} : bool :=
         match xs, ys with
         | [], [] => true
         | x :: xs', y :: ys' => py_eq x y && all2 xs' ys'
         | _, _ => false
         end) xs ys
  | PDict d1, PDict d2 =>
      Nat.eqb (length d1) (length d2) &&
      (fix sub (d : pydict) {struct d} : bool :=
         match d with
         | [] => true
         | (k, v) :: rest =>
             match dict_get k d2 with
             | Some v' => py_eq v v'
             | None => false
             end && sub rest
         end) d1
  | _, _ => false
  end.

(** Truth value of an object in a condition ([if x:]). *)
Definition py_truthy (v : pyval) : bool :=
  match v with
  | PNone => false
  | PBool b => b
  | PInt z => negb (Z.eqb z 0)
  | PStr s => negb (String.eqb s "")
  | PList l => negb (Nat.eqb (length l) 0)
  | PDict d => negb (Nat.eqb (length d) 0)
  end.

(** Truth value of a string ([if value:]). *)
Definition nonempty (s : string) : bool := negb (String.eqb s "").

(** The dictionary literal built by [add_student]. *)
Definition student_fields (roll name grade age : string) : pydict :=
  [("roll_no", PStr roll); ("name", PStr name);
   ("grade", PStr grade); ("age", PStr age)].

Definition mk_student (roll name grade age : string) : pyval :=
  PDict (student_fields roll name grade age).

(** ** Exceptions and results *)

Inductive exn : Type :=
| EOFError
| KeyError (k : string)
| TypeError
| AttributeError
| ValueError
| StaleReference    (* a position outside the collection; never produced by
                       [search_by_roll], see [search_from_in_range] *)
| UnicodeEncodeError
| UnicodeDecodeError
| RecursionError.

Inductive result (A : Type) : Type :=
| Ok (a : A)
| Raise (e : exn).
Arguments Ok {A} a.
Arguments Raise {A} e.

(** [v[k]] for a string key [k]: only dictionaries accept it. *)
Definition py_getitem (v : pyval) (k : string) : result pyval :=
  match v with
  | PDict d =>
      match dict_get k d with
      | Some x => Ok x
      | None => Raise (KeyError k)
      end
  | _ => Raise TypeError
  end.

(** [v[k] = x] for a string key [k]. *)
Definition py_setitem (v : pyval) (k : string) (x : pyval) : result pyval :=
  match v with
  | PDict d => Ok (PDict (dict_set k x d))
  | _ => Raise TypeError
  end.

(** [v.get(k, default)]: only dictionaries have the method. *)
Definition py_get (v : pyval) (k : string) (default : pyval) : result pyval :=
  match v with
  | PDict d =>
      match dict_get k d with
      | Some x => Ok x
      | None => Ok default
      end
  | _ => Raise AttributeError
  end.

(** ** The world *)

(** [data.json]: absent, or present with its text; [readable = false] is a
    file whose opening or reading raises [OSError]. *)
Inductive file_state : Type :=
| Missing
| Present (readable : bool) (text : string).

(** How the file system answers the next [open(DATA_FILE, "w")] and write. *)
Inductive write_fault : Type :=
| NoFault                    (* no [OSError] *)
| OpenFails                  (* [OSError] at [open]: the file is untouched *)
| WriteFails (written : nat). (* [OSError] leaves the [with] block, from a
                                 write or from the close at its end, after
                                 the file was truncated and at most
                                 [written] characters reached it *)

Record disk : Type := Disk { data_file : file_state; fault : write_fault }.

(** Fixed texts printed by the program. *)
Inductive message : Type :=
| MsgUnexpectedContent  (* data.json had unexpected content. Starting with an empty list. *)
| MsgCouldNotRead       (* Could not read data.json (maybe it's empty or corrupted). Starting fresh. *)
| MsgCouldNotSave       (* Could not save to data.json. Changes only in memory this time. *)
| MsgFieldEmpty         (* This field cannot be empty. Please try again. *)
| MsgNoRecords          (* No records found. *)
| MsgAddHeader          (* Add Student *)
| MsgDuplicate          (* A student with that roll number already exists. *)
| MsgInvalidGradeAdd    (* Invalid grade. Try again (e.g., A/B/C...). *)
| MsgAdded              (* Student added successfully! *)
| MsgViewHeader         (* All Students *)
| MsgSearchHeader       (* Search Student by Roll No *)
| MsgFound              (* Found: *)
| MsgNotFound           (* No student found with that roll number. *)
| MsgUpdateHeader       (* Update Student *)
| MsgCurrentValues      (* Current values (press Enter to keep the same): *)
| MsgInvalidGradeUpdate (* Invalid grade. Update canceled. *)
| MsgUpdated            (* Student updated successfully! *)
| MsgDeleteHeader       (* Delete Student *)
| MsgDeleted            (* Student deleted. *)
| MsgDeleteCanceled.    (* Deletion canceled. *)

(** Prompts shown by [input]. *)
Inductive prompt : Type :=
| AskRoll               (* Enter Roll No *)
| AskName               (* Enter Name *)
| AskGrade              (* Enter Grade (e.g., A/B/C...) *)
| AskAge                (* Enter Age *)
| AskRollSearch         (* Enter Roll No to search *)
| AskRollUpdate         (* Enter Roll No to update *)
| AskRollDelete         (* Enter Roll No to delete *)
| AskNewName (current : pyval)    (* Name [current] *)
| AskNewGrade (current : pyval)   (* Grade [current] *)
| AskNewAge (current : pyval)     (* Age [current] *)
| AskConfirm (name roll : pyval). (* Are you sure you want to delete name (Roll roll)? (y/N) *)

Inductive event : Type :=
| Say (m : message)
| Ask (p : prompt)
| BlankLine
| TableHeader
| TableRule
| TableRow (roll name grade age : pyval)
| TableTotal (n : nat).

Record world : Type := World {
  students : list pyval;   (* the global [students] *)
  fs : disk;               (* [DATA_FILE] *)
  stdin : list string;     (* lines still to be read by [input] *)
  stdout : list event      (* what was printed so far *)
}.

Definition with_students (l : list pyval) (w : world) : world :=
  World l (fs w) (stdin w) (stdout w).
Definition with_fs (dk : disk) (w : world) : world :=
  World (students w) dk (stdin w) (stdout w).
Definition with_stdin (l : list string) (w : world) : world :=
  World (students w) (fs w) l (stdout w).
Definition emit (e : event) (w : world) : world :=
  World (students w) (fs w) (stdin w) (stdout w ++ [e]).

(** ** The monad: state, plus exceptions that keep the state reached *)

Definition M (A : Type) : Type := world -> result A * world.

Definition ret {A} (a : A) : M A := fun w => (Ok a, w).

Definition bind {A B} (m : M A) (k : A -> M B) : M B :=
  fun w =>
    match m w with
    | (Ok a, w') => k a w'
    | (Raise e, w') => (Raise e, w')
    end.

Definition raise {A} (e : exn) : M A := fun w => (Raise e, w).

Declare Scope py_scope.
Delimit Scope py_scope with py.
Notation "x <- m ;; k" := (bind m (fun x => k))
  (at level 100, m at next level, right associativity) : py_scope.
Notation "m ;;; k" := (bind m (fun _ => k))
  (at level 100, right associativity) : py_scope.
Local Open Scope py_scope.

Definition lift {A} (r : result A) : M A := fun w => (r, w).
Definition get_students : M (list pyval) := fun w => (Ok (students w), w).
Definition put_students (l : list pyval) : M unit := fun w => (Ok tt, with_students l w).
Definition say (m : message) : M unit := fun w => (Ok tt, emit (Say m) w).
Definition out (e : event) : M unit := fun w => (Ok tt, emit e w).

(** ** Library functions outside the program *)

(** The ways in which [json.dump] to the data file, opened as UTF-8 text,
    fails without an [OSError]: a string that holds a lone surrogate cannot
    be encoded, and a value nested too deeply exhausts the recursion limit.
    [save_data] catches neither. *)
Inductive dump_failure : Type :=
| NotEncodable     (* UnicodeEncodeError *)
| DumpTooDeep.     (* RecursionError *)

Definition dump_exn (f : dump_failure) : exn :=
  match f with
  | NotEncodable => UnicodeEncodeError
  | DumpTooDeep => RecursionError
  end.

(** The ways in which [json.load] on the data file fails with an exception
    that is neither [JSONDecodeError] nor [OSError]: the content is not
    UTF-8, an integer has more digits than the interpreter converts, or the
    nesting exhausts the recursion limit.  [load_data] catches none of
    them. *)
Inductive load_failure : Type :=
| NotDecodable     (* UnicodeDecodeError *)
| IntegerTooLong   (* ValueError *)
| LoadTooDeep.     (* RecursionError *)

Definition load_exn (f : load_failure) : exn :=
  match f with
  | NotDecodable => UnicodeDecodeError
  | IntegerTooLong => ValueError
  | LoadTooDeep => RecursionError
  end.

Class PyLib : Type := {
  strip : string -> string;             (* [str.strip()] *)
  upper : string -> string;             (* [str.upper()] *)
  lower : string -> string;             (* [str.lower()] *)
  json_dumps : pyval -> string;         (* the document that
                                           [json.dump(v, f, indent=2, ensure_ascii=False)]
                                           writes *)
  json_loads : string -> option pyval;  (* [json.load(f)] on a file with this
                                           content; [None] when it raises *)
  dump_error : pyval -> option (dump_failure * nat);
                                        (* whether [json.dump(v, f, ...)] raises
                                           on the way, and after how many
                                           characters of the document reached
                                           the file *)
  load_error : string -> option load_failure
                                        (* when [json.load(f)] raises: [None] is
                                           [JSONDecodeError], otherwise the
                                           exception that is not one *)
}.

(** ** The program *)

Section Program.
Context `{PyLib}.

(** [input(prompt)]: shows the prompt and reads one line; [EOFError] when the
    input is exhausted. *)
Definition input (p : prompt) : M string :=
  fun w =>
    match stdin w with
    | [] => (Raise EOFError, emit (Ask p) w)
    | line :: rest => (Ok line, with_stdin rest (emit (Ask p) w))
    end.

(** [load_data()] *)
Definition load_data : M (list pyval) :=
  fun w =>
    match data_file (fs w) with
    | Missing => (Ok [], w)
    | Present false _ => (Ok [], emit (Say MsgCouldNotRead) w)
    | Present true text =>
        match json_loads text with
        | Some (PList data) => (Ok data, w)
        | Some _ => (Ok [], emit (Say MsgUnexpectedContent) w)
        | None =>
            match load_error text with
            | None => (Ok [], emit (Say MsgCouldNotRead) w)
            | Some f => (Raise (load_exn f), w)   (* not caught *)
            end
        end
    end.

(** What a write of [text] leaves in the file. *)
Definition written (old : file_state) (text : string) : file_state :=
  match old with
  | Missing => Present true text
  | Present r _ => Present r text
  end.

(** How the [try] block of [save_data] ends. *)
Inductive write_end : Type :=
| Written              (* the document is in the file *)
| Refused              (* [OSError], which [save_data] catches *)
| Escaped (e : exn).   (* another exception, which it does not catch *)

(** The body of the [try] in [save_data]: [open(DATA_FILE, "w")] followed by
    [json.dump(students, f, indent=2, ensure_ascii=False)].  Returns the disk
    it leaves and how it ended.  When the file system raises no [OSError],
    the write still stops at a string that cannot be encoded or at the
    recursion limit: the file, truncated when it was opened, then holds the
    part of the document written so far.  An [OSError] that leaves the [with]
    block replaces an exception of [json.dump] on its way out, and the file
    holds no more than [json.dump] wrote. *)
Definition store (l : list pyval) (dk : disk) : disk * write_end :=
  match fault dk with
  | NoFault =>
      match dump_error (PList l) with
      | None =>
          (Disk (written (data_file dk) (json_dumps (PList l))) (fault dk), Written)
      | Some (f, n) =>
          (Disk (written (data_file dk)
                   (String.substring 0 n (json_dumps (PList l)))) (fault dk),
           Escaped (dump_exn f))
      end
  | OpenFails => (dk, Refused)
  | WriteFails n =>
      let reached :=
        match dump_error (PList l) with
        | None => n
        | Some (_, m) => Nat.min n m
        end in
      (Disk (written (data_file dk)
               (String.substring 0 reached (json_dumps (PList l)))) (fault dk),
       Refused)
  end.

(** [save_data()] *)
Definition save_data : M unit :=
  fun w =>
    let '(dk, how) := store (students w) (fs w) in
    let w' := with_fs dk w in
    match how with
    | Written => (Ok tt, w')
    | Refused => (Ok tt, emit (Say MsgCouldNotSave) w')
    | Escaped e => (Raise e, w')
    end.

(** [prompt_nonempty(label)]: the [while True] loop reads one line per
    iteration, so it is written by recursion on the pending lines. *)
Fixpoint prompt_nonempty_loop (label : prompt) (lines : list string) (w : world)
  : result string * world :=
  match lines with
  | [] => (Raise EOFError, emit (Ask label) w)
  | line :: rest =>
      let w1 := with_stdin rest (emit (Ask label) w) in
      let value := strip line in
      if nonempty value then (Ok value, w1)
      else prompt_nonempty_loop label rest (emit (Say MsgFieldEmpty) w1)
  end.

Definition prompt_nonempty (label : prompt) : M string :=
  fun w => prompt_nonempty_loop label (stdin w) w.

(** [prompt_optional(label)] *)
Definition prompt_optional (label : prompt) : M string :=
  line <- input label ;; ret (strip line).

(** [validate_grade(g)] *)
Definition validate_grade (g : string) : bool :=
  if negb (nonempty g) then false else true.

(** [search_by_roll(roll_no)]: position of the first element [s] with
    [s["roll_no"] == roll_no]. *)
Fixpoint search_from (roll_no : string) (i : nat) (l : list pyval)
  : result (option nat) :=
  match l with
  | [] => Ok None
  | s :: rest =>
      match py_getitem s "roll_no" with
      | Raise e => Raise e
      | Ok v =>
          if py_eq v (PStr roll_no) then Ok (Some i)
          else search_from roll_no (S i) rest
      end
  end.

Definition search_by_roll (roll_no : string) : M (option nat) :=
  fun w => (search_from roll_no 0 (students w), w).

(** The object behind a reference. *)
Definition deref (i : nat) : M pyval :=
  fun w =>
    match students w !! i with
    | Some v => (Ok v, w)
    | None => (Raise StaleReference, w)
    end.

(** [s[k]], [s.get(k, '')] and [s[k] = x] through a reference [s]. *)
Definition getitem (i : nat) (k : string) : M pyval :=
  v <- deref i ;; lift (py_getitem v k).

Definition get_or_empty (i : nat) (k : string) : M pyval :=
  v <- deref i ;; lift (py_get v k (PStr "")).

Definition setitem (i : nat) (k : string) (x : pyval) : M unit :=
  v <- deref i ;;
  v' <- lift (py_setitem v k x) ;;
  l <- get_students ;;
  put_students (<[i := v']> l).

(** Truth value of what [search_by_roll] returned ([if s:] / [if not s:]). *)
Definition is_true (s : option nat) : M bool :=
  match s with
  | None => ret false
  | Some i => v <- deref i ;; ret (py_truthy v)
  end.

(** Values accepted by a format specification such as [:<10]. *)
Definition formattable (v : pyval) : bool :=
  match v with
  | PStr _ | PInt _ | PBool _ => true
  | PNone | PList _ | PDict _ => false
  end.

Definition format_cell (v : pyval) : M pyval :=
  if formattable v then ret v else raise TypeError.

(** One row of [print_table]. *)
Definition print_row (s : pyval) : M unit :=
  r <- lift (py_get s "roll_no" (PStr "")) ;;
  r <- format_cell r ;;
  n <- lift (py_get s "name" (PStr "")) ;;
  n <- format_cell n ;;
  g <- lift (py_get s "grade" (PStr "")) ;;
  g <- format_cell g ;;
  a <- lift (py_get s "age" (PStr "")) ;;
  a <- format_cell a ;;
  out (TableRow r n g a).

Fixpoint print_rows (records : list pyval) : M unit :=
  match records with
  | [] => ret tt
  | s :: rest => print_row s ;;; print_rows rest
  end.

(** [print_table(records)] *)
Definition print_table (records : list pyval) : M unit :=
  if negb (py_truthy (PList records)) then say MsgNoRecords
  else
    out BlankLine ;;;
    out TableHeader ;;;
    out TableRule ;;;
    print_rows records ;;;
    out (TableTotal (length records)).

(** [students.append(r)] *)
Definition append (r : pyval) : M unit :=
  l <- get_students ;; put_students (l ++ [r]).

(** [add_student()] *)
Definition add_student : M unit :=
  say MsgAddHeader ;;;
  roll <- prompt_nonempty AskRoll ;;
  s <- search_by_roll roll ;;
  dup <- is_true s ;;
  if dup then say MsgDuplicate
  else
    name <- prompt_nonempty AskName ;;
    grade <- prompt_nonempty AskGrade ;;
    if negb (validate_grade grade) then say MsgInvalidGradeAdd
    else
      age <- prompt_optional AskAge ;;
      append (mk_student roll name (upper grade) age) ;;;
      save_data ;;;
      say MsgAdded.

(** [view_students()] *)
Definition view_students : M unit :=
  say MsgViewHeader ;;;
  l <- get_students ;;
  print_table l.

(** [search_student()] *)
Definition search_student : M unit :=
  say MsgSearchHeader ;;;
  roll <- prompt_nonempty AskRollSearch ;;
  s <- search_by_roll roll ;;
  found <- is_true s ;;
  match s, found with
  | Some i, true =>
      say MsgFound ;;;
      v <- deref i ;;
      print_table [v]
  | _, _ => say MsgNotFound
  end.

(** [update_student()] *)
Definition update_student : M unit :=
  say MsgUpdateHeader ;;;
  roll <- prompt_nonempty AskRollUpdate ;;
  s <- search_by_roll roll ;;
  found <- is_true s ;;
  match s, found with
  | Some i, true =>
      say MsgCurrentValues ;;;
      cur_name <- getitem i "name" ;;
      line <- input (AskNewName cur_name) ;;
      let new_name := strip line in
      cur_grade <- getitem i "grade" ;;
      line <- input (AskNewGrade cur_grade) ;;
      let new_grade := strip line in
      cur_age <- get_or_empty i "age" ;;
      line <- input (AskNewAge cur_age) ;;
      let new_age := strip line in
      (if nonempty new_name then setitem i "name" (PStr new_name) else ret tt) ;;;
      let finish :=
        (if nonempty new_age || String.eqb new_age ""   (* allow clearing *)
         then setitem i "age" (PStr new_age) else ret tt) ;;;
        save_data ;;;
        say MsgUpdated in
      if nonempty new_grade then
        if negb (validate_grade new_grade) then say MsgInvalidGradeUpdate
        else setitem i "grade" (PStr (upper new_grade)) ;;; finish
      else finish
  | _, _ => say MsgNotFound
  end.

(** [students.remove(s)] for the object [s] at position [i]: deletes the first
    element that is [s] itself or compares equal to it. *)
Fixpoint list_remove (i : nat) (s : pyval) (l : list pyval) : result (list pyval) :=
  match l with
  | [] => Raise ValueError
  | x :: rest =>
      if Nat.eqb i 0 || py_eq x s then Ok rest
      else
        match list_remove (Nat.pred i) s rest with
        | Ok rest' => Ok (x :: rest')
        | Raise e => Raise e
        end
  end.

Definition remove (i : nat) : M unit :=
  s <- deref i ;;
  l <- get_students ;;
  l' <- lift (list_remove i s l) ;;
  put_students l'.

(** [delete_student()] *)
Definition delete_student : M unit :=
  say MsgDeleteHeader ;;;
  roll <- prompt_nonempty AskRollDelete ;;
  s <- search_by_roll roll ;;
  found <- is_true s ;;
  match s, found with
  | Some i, true =>
      n <- getitem i "name" ;;
      r <- getitem i "roll_no" ;;
      line <- input (AskConfirm n r) ;;
      let confirm := lower (strip line) in
      if String.eqb confirm "y" then
        remove i ;;;
        save_data ;;;
        say MsgDeleted
      else say MsgDeleteCanceled
  | _, _ => say MsgNotFound
  end.

(** First statement of [main()]: [students = load_data()]. *)
Definition startup : M unit :=
  l <- load_data ;; put_students l.

End Program.

(** ** Vocabulary of the specification *)

(** The roll number carried by an element, if it is an object with the key. *)
Definition roll_of (s : pyval) : option pyval :=
  match s with
  | PDict d => dict_get "roll_no" d
  | _ => None
  end.

(** Field [k] of an element. *)
Definition field (k : string) (s : pyval) : option pyval :=
  match s with
  | PDict d => dict_get k d
  | _ => None
  end.

Definition rolls (l : list pyval) : list pyval := omap roll_of l.

(** No two records share the same roll number. *)
Definition unique_rolls (l : list pyval) : Prop := NoDup (rolls l).

(** Every element is an object carrying a "roll_no" key. *)
Definition keyed (l : list pyval) : Prop := Forall (fun s => is_Some (roll_of s)) l.

(** A student record: an object with a string roll number, a name and a
    grade (the age is optional in the code: it is read with [get]). *)
Definition is_record (s : pyval) : bool :=
  match roll_of s, field "name" s, field "grade" s with
  | Some (PStr _), Some _, Some _ => true
  | _, _, _ => false
  end.

Definition records (l : list pyval) : Prop := Forall (fun s => is_record s = true) l.

(** An element the search passes over: it has a roll number, another one. *)
Definition other_roll (roll : string) (s : pyval) : Prop :=
  exists v, roll_of s = Some v /\ v <> PStr roll.

(** The collection [l] holds the record [d] under the roll number, between
    [l1] and [l2]; it is the first element with that roll number, and it has
    a name and a grade. *)
Definition first_record (roll : string) (l l1 : list pyval) (d : pydict)
    (l2 : list pyval) : Prop :=
  l = l1 ++ PDict d :: l2 /\ Forall (other_roll roll) l1 /\
  dict_get "roll_no" d = Some (PStr roll) /\
  is_Some (dict_get "name" d) /\ is_Some (dict_get "grade" d).

(** The roll number does not occur in the collection. *)
Definition fresh (roll : string) (l : list pyval) : Prop :=
  keyed l /\ PStr roll ∉ rolls l.

(** The exception raised by [s["roll_no"]] when [s] is not a dictionary or
    has no such key. *)
Definition roll_error (s : pyval) : exn :=
  match s with
  | PDict _ => KeyError "roll_no"
  | _ => TypeError
  end.

(** Length of the roll number of an element, when it is a string. *)
Definition roll_length (s : pyval) : nat :=
  match roll_of s with
  | Some (PStr r) => String.length r
  | _ => 0
  end.

(** A roll number that no element of [l] carries: it is longer than all of
    them. *)
Definition unused_roll (l : list pyval) : string :=
  string_of_list_ascii (replicate (S (foldr Nat.max 0 (roll_length <$> l))) "x"%char).

(** The records written by [add_student]. *)
Definition is_student (s : pyval) : Prop :=
  exists r n g a, s = mk_student r n g a.

(** The collection and the disk are the same in both worlds. *)
Definition same_store (w w' : world) : Prop :=
  students w' = students w /\ fs w' = fs w.

(** The collection keeps the roll number (or its absence) of every element,
    position by position. *)
Definition rolls_kept (w w' : world) : Prop :=
  roll_of <$> students w' = roll_of <$> students w.

(** The roll numbers after are among the roll numbers before, in order. *)
Definition rolls_shrink (w w' : world) : Prop :=
  rolls (students w') `sublist_of` rolls (students w).

(** Every step of [m] relates the world before to the world after by [R]. *)
Definition respects (R : world -> world -> Prop) {A} (m : M A) : Prop :=
  forall w, R w (snd (m w)).

(** The result of an operation that ends with [save_data] and a closing
    message, by the way the write ended. *)
Definition ended (how : write_end) : result unit :=
  match how with
  | Written | Refused => Ok tt
  | Escaped e => Raise e
  end.

(** What [save_data] followed by the closing message [m] prints. *)
Definition after_save (how : write_end) (m : message) : list event :=
  match how with
  | Written => [Say m]
  | Refused => [Say MsgCouldNotSave; Say m]
  | Escaped _ => []
  end.

(** The operations of the menu. *)
Inductive operation : Type := OpAdd | OpView | OpSearch | OpUpdate | OpDelete.

Section Vocabulary.
Context `{PyLib}.

(** The user answers a [prompt_nonempty] reading from [lines]: after any
    number of blank lines comes a line whose stripped text [v] is not empty;
    [rest] is what remains to be read. *)
Definition typed (v : string) (lines rest : list string) : Prop :=
  exists blanks line,
    lines = blanks ++ line :: rest /\
    Forall (fun l => strip l = "") blanks /\
    strip line = v /\ v <> "".

(** The record [d] after an update with the stripped answers. *)
Definition updated (d : pydict) (new_name new_grade new_age : string) : pydict :=
  let d1 := if nonempty new_name then dict_set "name" (PStr new_name) d else d in
  let d2 := if nonempty new_grade
            then dict_set "grade" (PStr (upper new_grade)) d1 else d1 in
  dict_set "age" (PStr new_age) d2.

Definition run (op : operation) : M unit :=
  match op with
  | OpAdd => add_student
  | OpView => view_students
  | OpSearch => search_student
  | OpUpdate => update_student
  | OpDelete => delete_student
  end.

End Vocabulary.

(** ** A reference instance of the library, for plain ASCII data

    [RefLib] implements the library functions on ASCII text so that the model
    can be run on concrete inputs.  The JSON reader covers [null], [true],
    [false], integers, strings (with the escapes of ASCII characters), arrays
    and objects; the writer produces the layout of [indent=2]. *)

Module RefLib.

Local Open Scope nat_scope.

Definition is_space (c : ascii) : bool :=
  let n := nat_of_ascii c in
  ((9 <=? n) && (n <=? 13)) || ((28 <=? n) && (n <=? 32)).

Fixpoint lstrip (cs : list ascii) : list ascii :=
  match cs with
  | c :: rest => if is_space c then lstrip rest else cs
  | [] => []
  end.

Definition strip (s : string) : string :=
  string_of_list_ascii
    (rev (lstrip (rev (lstrip (list_ascii_of_string s))))).

Definition map_string (f : ascii -> ascii) (s : string) : string :=
  string_of_list_ascii (map f (list_ascii_of_string s)).

Definition upper_char (c : ascii) : ascii :=
  let n := nat_of_ascii c in
  if (97 <=? n) && (n <=? 122) then ascii_of_nat (n - 32) else c.

Definition lower_char (c : ascii) : ascii :=
  let n := nat_of_ascii c in
  if (65 <=? n) && (n <=? 90) then ascii_of_nat (n + 32) else c.

Definition upper : string -> string := map_string upper_char.
Definition lower : string -> string := map_string lower_char.

(** *** Writer *)

Definition nl : string := String (ascii_of_nat 10) "".

Fixpoint spaces (level : nat) : string :=
  match level with
  | O => ""
  | S n => "  " +:+ spaces n
  end.

Definition hex_digit (n : nat) : ascii :=
  if n <? 10 then ascii_of_nat (48 + n) else ascii_of_nat (87 + n).

Definition escape_char (c : ascii) : string :=
  let n := nat_of_ascii c in
  if n =? 34 then String "\" (String c "")
  else if n =? 92 then String c (String c "")
  else if n =? 10 then "\n"
  else if n =? 13 then "\r"
  else if n =? 9 then "\t"
  else if n =? 8 then "\b"
  else if n =? 12 then "\f"
  else if n <? 32 then
    "\u00" +:+ String (hex_digit (n / 16)) (String (hex_digit (n mod 16)) "")
  else String c "".

Fixpoint escape (s : string) : string :=
  match s with
  | EmptyString => ""
  | String c rest => escape_char c +:+ escape rest
  end.

Definition quote (s : string) : string :=
  String (ascii_of_nat 34) (escape s +:+ String (ascii_of_nat 34) "").

Definition digit_string (z : Z) : string :=
  DecimalString.NilZero.string_of_int (Z.to_int z).

Fixpoint dumps_at (level : nat) (v : pyval) : string :=
  match v with
  | PNone => "null"
  | PBool true => "true"
  | PBool false => "false"
  | PInt z => digit_string z
  | PStr s => quote s
  | PList [] => "[]"
  | PList (x :: xs) =>
      "[" +:+ nl +:+ spaces (S level) +:+ dumps_at (S level) x
      +:+ (fix more (l : list pyval) : string :=
            match l with
            | [] => ""
            | y :: l' =>
                "," +:+ nl +:+ spaces (S level) +:+ dumps_at (S level) y +:+ more l'
            end) xs
      +:+ nl +:+ spaces level +:+ "]"
  | PDict [] => "{}"
  | PDict ((k, x) :: d) =>
      "{" +:+ nl +:+ spaces (S level) +:+ quote k +:+ ": " +:+ dumps_at (S level) x
      +:+ (fix more (l : pydict) : string :=
            match l with
            | [] => ""
            | (k', y) :: l' =>
                "," +:+ nl +:+ spaces (S level) +:+ quote k' +:+ ": "
                +:+ dumps_at (S level) y +:+ more l'
            end) d
      +:+ nl +:+ spaces level +:+ "}"
  end.

Definition json_dumps (v : pyval) : string := dumps_at 0 v.

(** The text of the elements after the first one of an array at level 0. *)
Fixpoint more_text (l : list pyval) : string :=
  match l with
  | [] => ""
  | y :: l' => "," +:+ nl +:+ spaces 1 +:+ dumps_at 1 y +:+ more_text l'
  end.

(** *** Reader *)

Definition code (c : ascii) : nat := nat_of_ascii c.

Definition is_ws (c : ascii) : bool :=
  (code c =? 32) || (code c =? 9) || (code c =? 10) || (code c =? 13).

Fixpoint skip_ws (cs : list ascii) : list ascii :=
  match cs with
  | c :: rest => if is_ws c then skip_ws rest else cs
  | [] => []
  end.

Definition is_digit (c : ascii) : bool := (48 <=? code c) && (code c <=? 57).

Definition hex_value (c : ascii) : option nat :=
  let n := code c in
  if (48 <=? n) && (n <=? 57) then Some (n - 48)
  else if (97 <=? n) && (n <=? 102) then Some (n - 87)
  else if (65 <=? n) && (n <=? 70) then Some (n - 55)
  else None.

Definition unescape (c : ascii) : option ascii :=
  let n := code c in
  if (n =? 34) || (n =? 92) || (n =? 47) then Some c
  else if n =? 98 then Some (ascii_of_nat 8)
  else if n =? 102 then Some (ascii_of_nat 12)
  else if n =? 110 then Some (ascii_of_nat 10)
  else if n =? 114 then Some (ascii_of_nat 13)
  else if n =? 116 then Some (ascii_of_nat 9)
  else None.

(** The characters after an opening quote, up to the closing one. *)
Fixpoint read_string (cs acc : list ascii) : option (string * list ascii) :=
  match cs with
  | [] => None
  | c :: rest =>
      if code c =? 34 then Some (string_of_list_ascii (rev acc), rest)
      else if code c =? 92 then
        match rest with
        | [] => None
        | e :: rest' =>
            if code e =? 117 then
              match rest' with
              | h1 :: h2 :: h3 :: h4 :: rest'' =>
                  match hex_value h1, hex_value h2, hex_value h3, hex_value h4 with
                  | Some a, Some b, Some c', Some d =>
                      let n := ((a * 16 + b) * 16 + c') * 16 + d in
                      if n <? 128 then read_string rest'' (ascii_of_nat n :: acc)
                      else None
                  | _, _, _, _ => None
                  end
              | _ => None
              end
            else
              match unescape e with
              | Some x => read_string rest' (x :: acc)
              | None => None
              end
        end
      else if code c <? 32 then None
      else read_string rest (c :: acc)
  end.

Fixpoint read_digits (cs : list ascii) (acc : Z) : Z * list ascii :=
  match cs with
  | c :: rest =>
      if is_digit c then read_digits rest (acc * 10 + Z.of_nat (code c - 48))%Z
      else (acc, cs)
  | [] => (acc, [])
  end.

(** An integer literal; a fraction or an exponent after it is not read. *)
Definition read_int (cs : list ascii) : option (Z * list ascii) :=
  let '(neg, ds) :=
    match cs with
    | c :: rest => if code c =? 45 then (true, rest) else (false, cs)
    | [] => (false, [])
    end in
  match ds with
  | d :: rest =>
      if is_digit d then
        let '(n, rest') :=
          if code d =? 48 then (0%Z, rest) else read_digits ds 0%Z in
        match rest' with
        | c :: _ =>
            if (code c =? 46) || (code c =? 101) || (code c =? 69) then None
            else Some (if neg then (- n)%Z else n, rest')
        | [] => Some (if neg then (- n)%Z else n, rest')
        end
      else None
  | [] => None
  end.

Definition starts_with (p : string) (cs : list ascii) : option (list ascii) :=
  let n := String.length p in
  if bool_decide (take n cs = list_ascii_of_string p) then Some (drop n cs) else None.

Fixpoint read_value (fuel : nat) (cs : list ascii) : option (pyval * list ascii) :=
  match fuel with
  | O => None
  | S fuel' =>
      match cs with
      | [] => None
      | c :: rest =>
          if code c =? 34 then
            match read_string rest [] with
            | Some (s, rest') => Some (PStr s, rest')
            | None => None
            end
          else if code c =? 91 then
            match skip_ws rest with
            | c' :: rest' =>
                if code c' =? 93 then Some (PList [], rest')
                else read_items fuel' (c' :: rest') []
            | [] => None
            end
          else if code c =? 123 then
            match skip_ws rest with
            | c' :: rest' =>
                if code c' =? 125 then Some (PDict [], rest')
                else read_members fuel' (c' :: rest') []
            | [] => None
            end
          else
            match starts_with "null" cs, starts_with "true" cs, starts_with "false" cs with
            | Some rest', _, _ => Some (PNone, rest')
            | _, Some rest', _ => Some (PBool true, rest')
            | _, _, Some rest' => Some (PBool false, rest')
            | _, _, _ =>
                match read_int cs with
                | Some (z, rest') => Some (PInt z, rest')
                | None => None
                end
            end
      end
  end
with read_items (fuel : nat) (cs : list ascii) (acc : list pyval)
  : option (pyval * list ascii) :=
  match fuel with
  | O => None
  | S fuel' =>
      match read_value fuel' cs with
      | Some (v, rest) =>
          match skip_ws rest with
          | c :: rest' =>
              if code c =? 44 then read_items fuel' (skip_ws rest') (acc ++ [v])
              else if code c =? 93 then Some (PList (acc ++ [v]), rest')
              else None
          | [] => None
          end
      | None => None
      end
  end
with read_members (fuel : nat) (cs : list ascii) (acc : pydict)
  : option (pyval * list ascii) :=
  match fuel with
  | O => None
  | S fuel' =>
      match cs with
      | q :: rest =>
          if code q =? 34 then
            match read_string rest [] with
            | Some (k, rest1) =>
                match skip_ws rest1 with
                | c :: rest2 =>
                    if code c =? 58 then
                      match read_value fuel' (skip_ws rest2) with
                      | Some (v, rest3) =>
                          match skip_ws rest3 with
                          | c' :: rest4 =>
                              if code c' =? 44 then
                                read_members fuel' (skip_ws rest4) (dict_set k v acc)
                              else if code c' =? 125 then
                                Some (PDict (dict_set k v acc), rest4)
                              else None
                          | [] => None
                          end
                      | None => None
                      end
                    else None
                | [] => None
                end
            | None => None
            end
          else None
      | [] => None
      end
  end.

(** The whole text must be one value, with optional white space around it. *)
Definition read_document (text : string) : option pyval :=
  let cs := list_ascii_of_string text in
  match read_value (2 * length cs + 2) (skip_ws cs) with
  | Some (v, rest) =>
      match skip_ws rest with
      | [] => Some v
      | _ :: _ => None
      end
  | None => None
  end.

(** The byte 255 occurs in no UTF-8 text.  In a file it makes the content
    undecodable; in a string of the program it stands for the lone surrogate
    that [input] returns for such a byte, which cannot be encoded. *)
Definition is_ff (c : ascii) : bool := code c =? 255.

Definition decodable (text : string) : bool :=
  negb (existsb is_ff (list_ascii_of_string text)).

Definition json_loads (text : string) : option pyval :=
  if decodable text then read_document text else None.

Definition load_error (text : string) : option load_failure :=
  if decodable text then None else Some NotDecodable.

(** Where the write of a document stops: [json.dump] hands a string that is
    a key or a value of an object to the file in one piece, so the text
    before its opening quote is what reaches the file.  [pos] counts the
    characters passed, [start] is the opening quote of the string being
    passed, if any. *)
Fixpoint stops_at (cs : list ascii) (pos : nat) (start : option nat) : option nat :=
  match cs with
  | [] => None
  | c :: rest =>
      if is_ff c then Some (default pos start)
      else
        match start with
        | Some q =>
            if code c =? 92 then
              match rest with
              | [] => None
              | _ :: rest' => stops_at rest' (2 + pos) start
              end
            else if code c =? 34 then stops_at rest (S pos) None
            else stops_at rest (S pos) start
        | None =>
            if code c =? 34 then stops_at rest (S pos) (Some pos)
            else stops_at rest (S pos) None
        end
  end.

Definition dump_error (v : pyval) : option (dump_failure * nat) :=
  match stops_at (list_ascii_of_string (json_dumps v)) 0 None with
  | Some n => Some (NotEncodable, n)
  | None => None
  end.

Definition lib : PyLib :=
  Build_PyLib strip upper lower json_dumps json_loads dump_error load_error.

End RefLib.

(** Data for the concrete runs. *)
Definition alice : pyval := mk_student "101" "Alice" "A" "15".
Definition bob : pyval := mk_student "102" "Bob" "B" "16".
Definition no_file : disk := Disk Missing NoFault.
Definition file_with (text : string) : disk := Disk (Present true text) NoFault.

(** A text that is not UTF-8: the single byte 255. *)
Definition stray_byte : string := String "255"%char EmptyString.

(** ** The menu loop *)

(** Texts that [main], [print_menu] and [pause] print themselves. *)
Inductive main_text : Type :=
| MenuText          (* the menu of print_menu *)
| AskChoice         (* Choose an option (1-6): *)
| AskPause          (* Press Enter to continue... *)
| SayGoodbye        (* Goodbye!! Your data has been saved to data.json. *)
| SayInvalidChoice  (* Please choose a valid option (1-6). *)
| SayInputEnded.    (* Input ended. Saving and exiting... *)

(** A run of [main]: the world of the operations, and the texts of the menu
    loop, each with the number of events the operations had printed before
    it (its place on the screen). *)
Record session : Type := Session {
  state : world;
  marks : list (nat * main_text)
}.

Definition Main (A : Type) : Type := session -> result A * session.

Definition main_ret {A} (a : A) : Main A := fun s => (Ok a, s).

Definition main_bind {A B} (m : Main A) (k : A -> Main B) : Main B :=
  fun s =>
    match m s with
    | (Ok a, s') => k a s'
    | (Raise e, s') => (Raise e, s')
    end.

Declare Scope main_scope.
Delimit Scope main_scope with main.
Notation "x <- m ;; k" := (main_bind m (fun x => k))
  (at level 100, m at next level, right associativity) : main_scope.
Notation "m ;;; k" := (main_bind m (fun _ => k))
  (at level 100, right associativity) : main_scope.

(** [print(text)] in the menu loop. *)
Definition note (t : main_text) : Main unit :=
  fun s =>
    (Ok tt, Session (state s) (marks s ++ [(length (stdout (state s)), t)])).

(** [input(text)] in the menu loop. *)
Definition ask (t : main_text) : Main string :=
  fun s =>
    let s' := Session (state s) (marks s ++ [(length (stdout (state s)), t)]) in
    match stdin (state s) with
    | [] => (Raise EOFError, s')
    | line :: rest => (Ok line, Session (with_stdin rest (state s)) (marks s'))
    end.

(** A call of a function of the program. *)
Definition call {A} (m : M A) : Main A :=
  fun s => let '(r, w) := m (state s) in (r, Session w (marks s)).

Section Menu.
Context `{PyLib}.
Local Open Scope main_scope.

(** [pause()] *)
Definition pause : Main unit :=
  _ <- ask AskPause ;; main_ret tt.

(** [print_menu()] *)
Definition print_menu : Main unit := note MenuText.

(** The body of the [try] in the loop of [main]; [true] is [break]. *)
Definition menu_body : Main bool :=
  print_menu ;;;
  line <- ask AskChoice ;;
  let choice := strip line in
  if String.eqb choice "1" then call add_student ;;; pause ;;; main_ret false
  else if String.eqb choice "2" then call view_students ;;; pause ;;; main_ret false
  else if String.eqb choice "3" then call search_student ;;; pause ;;; main_ret false
  else if String.eqb choice "4" then call update_student ;;; pause ;;; main_ret false
  else if String.eqb choice "5" then call delete_student ;;; pause ;;; main_ret false
  else if String.eqb choice "6" then
    note SayGoodbye ;;; call save_data ;;; main_ret true
  else note SayInvalidChoice ;;; main_ret false.

(** One turn of the loop: the body, and the handler of [EOFError].  Any other
    exception leaves [main]. *)
Definition menu_turn : Main bool :=
  fun s =>
    match menu_body s with
    | (Raise EOFError, s') =>
        (note SayInputEnded ;;; call save_data ;;; main_ret true) s'
    | other => other
    end.

(** The [while True] loop, for at most [fuel] turns; [None] when the turns are
    used up. *)
Fixpoint main_loop (fuel : nat) (s : session) : option (result unit * session) :=
  match fuel with
  | O => None
  | S fuel' =>
      match menu_turn s with
      | (Ok true, s') => Some (Ok tt, s')
      | (Ok false, s') => main_loop fuel' s'
      | (Raise e, s') => Some (Raise e, s')
      end
  end.

(** [main()] *)
Definition main (fuel : nat) (s : session) : option (result unit * session) :=
  match call startup s with
  | (Ok _, s') => main_loop fuel s'
  | (Raise e, s') => Some (Raise e, s')
  end.

End Menu.

(** ** More vocabulary *)

(** The value shown in column [k] of the table for element [s]. *)
Definition cell (k : string) (s : pyval) : pyval :=
  match s with
  | PDict d => default (PStr "") (dict_get k d)
  | _ => PStr ""
  end.

(** An element that [print_table] can show: an object whose four columns
    hold strings, integers or booleans. *)
Definition printable (s : pyval) : bool :=
  match s with
  | PDict _ =>
      formattable (cell "roll_no" s) && formattable (cell "name" s) &&
      formattable (cell "grade" s) && formattable (cell "age" s)
  | _ => false
  end.

Definition row_of (s : pyval) : event :=
  TableRow (cell "roll_no" s) (cell "name" s) (cell "grade" s) (cell "age" s).

(** What [print_table] prints for a list of printable elements. *)
Definition table (records : list pyval) : list event :=
  match records with
  | [] => [Say MsgNoRecords]
  | _ => [BlankLine; TableHeader; TableRule] ++ (row_of <$> records)
         ++ [TableTotal (length records)]
  end.

(** A collection every operation can work on: records that can be shown. *)
Definition sound (l : list pyval) : Prop :=
  Forall (fun s => is_record s && printable s = true) l.

(** Events other than the two reports of an invalid grade. *)
Definition calm (e : event) : Prop :=
  e <> Say MsgInvalidGradeAdd /\ e <> Say MsgInvalidGradeUpdate.

Section Guarantees.
Context `{PyLib}.

(** The data file holds the collection as it is in memory. *)
Definition synced (w : world) : Prop :=
  exists r, data_file (fs w) = Present r (json_dumps (PList (students w))).

(** What every operation guarantees, from the world [w] it starts in to its
    result [r] and the world [w'] it leaves: it reads forward, leaves the
    answers of the file system alone, appends to the screen and never reports
    an invalid grade; it leaves the collection and the disk as they were, or
    ends with the write of the collection it leaves, which decides its
    result; and on a sound collection it returns normally, stops at the end
    of the input, or raises what the write raised. *)
Definition well_behaved (w : world) (r : result unit) (w' : world) : Prop :=
  length (stdin w') <= length (stdin w) /\
  fault (fs w') = fault (fs w) /\
  (exists new, stdout w' = stdout w ++ new /\ Forall calm new) /\
  (same_store w w' \/
   (fs w' = fst (store (students w') (fs w)) /\
    r = ended (snd (store (students w') (fs w))))) /\
  (sound (students w) ->
   sound (students w') /\
   (r = Ok tt \/ (r = Raise EOFError /\ stdin w' = []) \/
    exists e, r = Raise e /\ snd (store (students w') (fs w)) = Escaped e)).

(** An exception that the write of some collection raises. *)
Definition write_failure (e : exn) : Prop :=
  exists l f n, dump_error (PList l) = Some (f, n) /\ e = dump_exn f.

(** An exception that reading the data file raises and [load_data] does not
    catch. *)
Definition read_failure (dk : disk) (e : exn) : Prop :=
  exists text f,
    data_file dk = Present true text /\ json_loads text = None /\
    load_error text = Some f /\ e = load_exn f.

(** What a turn of the menu loop guarantees for a property [Inv] of the
    world that the operations keep: the turn ends the loop right after a
    save that returned, or goes on having read at least one line, or lets
    through an exception other than [EOFError], which comes from a collection
    that is not sound or from the write. *)
Definition turn_spec (Inv : world -> Prop)
    (s : session) (r : result bool) (s' : session) : Prop :=
  Inv (state s') /\
  match r with
  | Ok true => exists w0, Inv w0 /\ save_data w0 = (Ok tt, state s')
  | Ok false => length (stdin (state s')) < length (stdin (state s))
  | Raise e =>
      e <> EOFError /\ (~ sound (students (state s)) \/ write_failure e)
  end.

(** The handler [except EOFError] of the menu loop, applied to the outcome of
    the body. *)
Definition handled (x : result bool * session) : result bool * session :=
  match x with
  | (Raise EOFError, s') =>
      main_bind (note SayInputEnded)
        (fun _ => main_bind (call save_data) (fun _ => main_ret true)) s'
  | other => other
  end.

End Guarantees.

(** What [prompt_nonempty] shows while the lines [blanks] are answered: the
    prompt and the complaint, once per line. *)
Definition retries (label : prompt) (blanks : list string) : list event :=
  blanks ≫= (fun _ => [Ask label; Say MsgFieldEmpty]).

(** The exception raised by a row of [print_table] for an element that is
    not printable: [s.get] is missing on a non-dictionary, and a cell that is
    [None], a list or a dictionary rejects the format specification. *)
Definition row_error (s : pyval) : exn :=
  match s with
  | PDict _ => TypeError
  | _ => AttributeError
  end.

(** The menu entry of an operation, as [main] compares it. *)
Definition choice (op : operation) : string :=
  match op with
  | OpAdd => "1"
  | OpView => "2"
  | OpSearch => "3"
  | OpUpdate => "4"
  | OpDelete => "5"
  end.

(** A second record under roll number 101. *)
Definition twin : pyval := mk_student "101" "Alicia" "C" "17".

(** ** Dictionaries and equality *)

Lemma dict_get_set_eq k v d : dict_get k (dict_set k v d) = Some v.
Proof.
  induction d as [|[k' v'] d IH]; simpl.
  - by rewrite String.eqb_refl.
  - destruct (String.eqb k' k) eqn:E; simpl; rewrite E; auto.
Qed.

Lemma dict_get_set_ne k k' v d :
  k <> k' -> dict_get k' (dict_set k v d) = dict_get k' d.
Proof.
  intros Hne. induction d as [|[k0 v0] d IH]; simpl.
  - destruct (String.eqb k k') eqn:E; auto.
    apply String.eqb_eq in E. contradiction.
  - destruct (String.eqb k0 k) eqn:E; simpl.
    + apply String.eqb_eq in E. subst k0.
      destruct (String.eqb k k') eqn:E'; auto.
      apply String.eqb_eq in E'. contradiction.
    + destruct (String.eqb k0 k'); auto.
Qed.

Lemma dict_get_nonempty k d v : dict_get k d = Some v -> py_truthy (PDict d) = true.
Proof. destruct d; simpl; [discriminate | auto]. Qed.

(** Only the string itself compares equal to a string. *)
Lemma py_eq_str v r : py_eq v (PStr r) = true <-> v = PStr r.
Proof.
  destruct v as [|b|z|s|items|d]; simpl;
    try (split; intros Hx; discriminate Hx).
  rewrite String.eqb_eq. split; congruence.
Qed.

Lemma py_eq_str_false v r : py_eq v (PStr r) = false <-> v <> PStr r.
Proof.
  rewrite <- py_eq_str. destruct (py_eq v (PStr r)); split; congruence.
Qed.

(** Equal dictionaries agree, up to [py_eq], on every key of the left one. *)
Lemma py_eq_dict_get d1 d2 k v :
  py_eq (PDict d1) (PDict d2) = true ->
  dict_get k d1 = Some v ->
  exists v', dict_get k d2 = Some v' /\ py_eq v v' = true.
Proof.
  simpl. intros Heq. apply andb_prop in Heq as [_ Hsub]. revert Hsub.
  induction d1 as [|[k0 v0] d1 IH]; simpl; [discriminate|].
  intros Hsub Hget. apply andb_prop in Hsub as [Hhd Htl].
  destruct (String.eqb k0 k) eqn:E.
  - apply String.eqb_eq in E. subst k0. injection Hget as ->.
    destruct (dict_get k d2) as [v'|]; [eauto | discriminate].
  - auto.
Qed.

Lemma py_eq_dict_only s d : py_eq s (PDict d) = true -> exists d', s = PDict d'.
Proof. destruct s; simpl; try discriminate; eauto. Qed.

(** ** Searching *)

Lemma getitem_roll_of s v : py_getitem s "roll_no" = Ok v <-> roll_of s = Some v.
Proof.
  destruct s; simpl; try (split; intros Hx; discriminate Hx).
  destruct (dict_get "roll_no" d); split; congruence.
Qed.

Lemma roll_of_truthy s v : roll_of s = Some v -> py_truthy s = true.
Proof. destruct s; simpl; try discriminate. apply dict_get_nonempty. Qed.

Lemma fresh_other_roll roll l : fresh roll l <-> Forall (other_roll roll) l.
Proof.
  unfold fresh, keyed, rolls. split.
  - intros [Hk Hn]. induction l as [|s l IH]; constructor.
    + inversion Hk as [|? ? [v Hv] ?]; subst.
      exists v. split; [done|]. intros ->. apply Hn.
      simpl. rewrite Hv. simpl. left.
    + inversion Hk; subst. apply IH; [done|].
      intros Hin. apply Hn. simpl. destruct (roll_of s); simpl; [right|]; done.
  - intros Hall. split.
    + eapply Forall_impl; [exact Hall|]. intros s [v [Hv _]]. eauto.
    + intros Hin. apply list_elem_of_omap in Hin as [s [Hs Hr]].
      rewrite Forall_forall in Hall. destruct (Hall s Hs) as [v [Hv Hne]].
      congruence.
Qed.

Lemma search_from_none roll k l :
  search_from roll k l = Ok None <-> Forall (other_roll roll) l.
Proof.
  revert k. induction l as [|s l IH]; intros k; simpl.
  - split; [constructor | done].
  - destruct (py_getitem s "roll_no") as [v|e] eqn:Hg.
    + apply getitem_roll_of in Hg.
      destruct (py_eq v (PStr roll)) eqn:He.
      * apply py_eq_str in He. subst v. split; [discriminate|].
        intros Hall. inversion Hall as [|? ? [v [Hv Hne]] ?]; subst. congruence.
      * apply py_eq_str_false in He. rewrite IH. split.
        -- intros Hall. constructor; [exists v; done | done].
        -- intros Hall. by inversion Hall.
    + split; [discriminate|].
      intros Hall. inversion Hall as [|? ? [v [Hv Hne]] ?]; subst.
      apply getitem_roll_of in Hv. congruence.
Qed.

Lemma search_from_some roll k l i :
  search_from roll k l = Ok (Some i) <->
  exists l1 s l2,
    l = l1 ++ s :: l2 /\ i = k + length l1 /\
    Forall (other_roll roll) l1 /\ roll_of s = Some (PStr roll).
Proof.
  revert k. induction l as [|s l IH]; intros k; simpl.
  - split; [discriminate|]. intros (l1 & s & l2 & Hl & _).
    destruct l1; discriminate.
  - destruct (py_getitem s "roll_no") as [v|e] eqn:Hg.
    + apply getitem_roll_of in Hg.
      destruct (py_eq v (PStr roll)) eqn:He.
      * apply py_eq_str in He. subst v. split.
        -- intros [= <-]. exists [], s, l. simpl. repeat split; auto with lia.
        -- intros (l1 & s' & l2 & Hl & -> & Hall & Hr).
           destruct l1 as [|x l1]; simpl in *.
           ++ f_equal. f_equal. lia.
           ++ injection Hl as <- _. inversion Hall as [|? ? [v [Hv Hne]] ?]; subst.
              congruence.
      * apply py_eq_str_false in He. rewrite IH. split.
        -- intros (l1 & s' & l2 & -> & -> & Hall & Hr).
           exists (s :: l1), s', l2. simpl. repeat split; auto with lia.
           constructor; [exists v; done | done].
        -- intros (l1 & s' & l2 & Hl & -> & Hall & Hr).
           destruct l1 as [|x l1]; simpl in *.
           ++ injection Hl as <- _. congruence.
           ++ injection Hl as <- ->. exists l1, s', l2.
              repeat split; auto with lia. by inversion Hall.
    + split; [discriminate|].
      intros (l1 & s' & l2 & Hl & -> & Hall & Hr).
      destruct l1 as [|x l1]; simpl in *; injection Hl as <- _.
      * apply getitem_roll_of in Hr. congruence.
      * inversion Hall as [|? ? [v [Hv Hne]] ?]; subst.
        apply getitem_roll_of in Hv. congruence.
Qed.

(** A position returned by the search is inside the collection and holds a
    non-empty dictionary with the roll number searched for. *)
Lemma search_from_in_range roll l i :
  search_from roll 0 l = Ok (Some i) ->
  exists s, l !! i = Some s /\ roll_of s = Some (PStr roll) /\ py_truthy s = true.
Proof.
  intros Hs. apply search_from_some in Hs as (l1 & s & l2 & -> & -> & _ & Hr).
  exists s. split; [|split; [done | by eapply roll_of_truthy]].
  simpl. by rewrite list_lookup_middle.
Qed.

(** On a collection of keyed elements the search never raises. *)
Lemma search_from_keyed roll k l :
  keyed l -> exists r, search_from roll k l = Ok r.
Proof.
  intros Hk. revert k. induction Hk as [|s l [v Hv] _ IH]; intros k; simpl; eauto.
  apply getitem_roll_of in Hv. rewrite Hv.
  destruct (py_eq v (PStr roll)); eauto.
Qed.

(** ** Running the monad *)

Lemma bind_ok {A B} (m : M A) (k : A -> M B) w a w' :
  m w = (Ok a, w') -> bind m k w = k a w'.
Proof. unfold bind. by intros ->. Qed.

Lemma bind_raise {A B} (m : M A) (k : A -> M B) w e w' :
  m w = (Raise e, w') -> bind m k w = (Raise e, w').
Proof. unfold bind. by intros ->. Qed.

Lemma same_store_refl w : same_store w w.
Proof. by split. Qed.

Lemma same_store_trans w1 w2 w3 :
  same_store w1 w2 -> same_store w2 w3 -> same_store w1 w3.
Proof. intros [? ?] [? ?]. split; congruence. Qed.

(** Steps that relate the world before to the world after by a preorder [R]
    that ignores the input and output streams. *)
Section Respects.
Context `{PyLib}.
Variable R : world -> world -> Prop.
Local Abbreviation respects := (respects R).
Hypothesis R_same : forall w w', same_store w w' -> R w w'.
Hypothesis R_trans : forall w1 w2 w3, R w1 w2 -> R w2 w3 -> R w1 w3.

Lemma respects_ret {A} (a : A) : respects (ret a).
Proof. intros w. apply R_same, same_store_refl. Qed.

Lemma respects_raise {A} e : respects (@raise A e).
Proof. intros w. apply R_same, same_store_refl. Qed.

Lemma respects_lift {A} (r : result A) : respects (lift r).
Proof. intros w. apply R_same, same_store_refl. Qed.

Lemma respects_bind {A B} (m : M A) (k : A -> M B) :
  respects m -> (forall a, respects (k a)) -> respects (bind m k).
Proof.
  intros Hm Hk w. unfold bind. specialize (Hm w).
  destruct (m w) as [[a|e] w1]; simpl in *; [|done].
  eapply R_trans; [exact Hm | apply Hk].
Qed.

Lemma respects_say m : respects (say m).
Proof. intros w. by apply R_same. Qed.

Lemma respects_out e : respects (out e).
Proof. intros w. by apply R_same. Qed.

Lemma respects_get_students : respects get_students.
Proof. intros w. apply R_same, same_store_refl. Qed.

Lemma respects_input p : respects (input p).
Proof. intros w. unfold input. destruct (stdin w); by apply R_same. Qed.

Lemma prompt_nonempty_loop_same label lines w :
  same_store w (snd (prompt_nonempty_loop label lines w)).
Proof.
  revert w. induction lines as [|line rest IH]; intros w; simpl; [done|].
  destruct (nonempty (strip line)); [done|].
  eapply same_store_trans; [|apply IH]. done.
Qed.

Lemma respects_prompt_nonempty label : respects (prompt_nonempty label).
Proof. intros w. apply R_same, prompt_nonempty_loop_same. Qed.

Lemma respects_search_by_roll roll : respects (search_by_roll roll).
Proof. intros w. apply R_same, same_store_refl. Qed.

Lemma respects_deref i : respects (deref i).
Proof.
  intros w. unfold deref. destruct (students w !! i); apply R_same, same_store_refl.
Qed.

Lemma respects_getitem i k : respects (getitem i k).
Proof.
  apply respects_bind; [apply respects_deref | intros; apply respects_lift].
Qed.

Lemma respects_get_or_empty i k : respects (get_or_empty i k).
Proof.
  apply respects_bind; [apply respects_deref | intros; apply respects_lift].
Qed.

Lemma respects_is_true s : respects (is_true s).
Proof.
  destruct s; simpl; [|apply respects_ret].
  apply respects_bind; [apply respects_deref | intros; apply respects_ret].
Qed.

Lemma respects_format_cell v : respects (format_cell v).
Proof.
  unfold format_cell. destruct (formattable v);
    [apply respects_ret | apply respects_raise].
Qed.

Lemma respects_print_row s : respects (print_row s).
Proof.
  unfold print_row.
  repeat (apply respects_bind;
          [first [apply respects_lift | apply respects_format_cell] | intros]).
  apply respects_out.
Qed.

Lemma respects_print_table records : respects (print_table records).
Proof.
  unfold print_table. destruct (negb _); [apply respects_say|].
  repeat (apply respects_bind; [apply respects_out | intros]).
  apply respects_bind; [|intros; apply respects_out].
  induction records as [|s rest IH]; simpl; [apply respects_ret|].
  apply respects_bind; [apply respects_print_row | intros; apply IH].
Qed.

Lemma respects_view_students : respects view_students.
Proof.
  unfold view_students.
  apply respects_bind; [apply respects_say | intros].
  apply respects_bind; [apply respects_get_students | intros].
  apply respects_print_table.
Qed.

Lemma respects_search_student : respects search_student.
Proof.
  unfold search_student.
  apply respects_bind; [apply respects_say | intros].
  apply respects_bind; [apply respects_prompt_nonempty | intros roll].
  apply respects_bind; [apply respects_search_by_roll | intros s].
  apply respects_bind; [apply respects_is_true | intros found].
  destruct s as [i|]; [destruct found|]; try apply respects_say.
  apply respects_bind; [apply respects_say | intros].
  apply respects_bind; [apply respects_deref | intros].
  apply respects_print_table.
Qed.

End Respects.

(** ** Running the operations on given answers *)

Ltac tidy :=
  unfold emit, with_stdin, with_students, with_fs;
  cbn [students fs stdin stdout].
Tactic Notation "step" tactic3(tac) := (erewrite bind_ok; [|tac]; tidy).


Section Runs.
Context `{PyLib}.

Lemma nonempty_true s : nonempty s = true <-> s <> "".
Proof.
  unfold nonempty. destruct (String.eqb_spec s ""); simpl; split; congruence.
Qed.

Lemma validate_grade_nonempty g : validate_grade g = nonempty g.
Proof. unfold validate_grade. by destruct (nonempty g). Qed.

Lemma prompt_nonempty_loop_typed label blanks line rest w :
  Forall (fun l => strip l = "") blanks -> strip line <> "" ->
  exists out',
    prompt_nonempty_loop label (blanks ++ line :: rest) w
    = (Ok (strip line), World (students w) (fs w) rest out').
Proof.
  intros Hb Hne. revert w.
  induction Hb as [|b blanks Hb _ IH]; intros w; simpl.
  - apply nonempty_true in Hne. rewrite Hne. eexists. reflexivity.
  - rewrite Hb. simpl. edestruct IH as [o E]. rewrite E. simpl. eauto.
Qed.

Lemma prompt_nonempty_typed label l dk lines out v rest :
  typed v lines rest ->
  exists out',
    prompt_nonempty label (World l dk lines out) = (Ok v, World l dk rest out').
Proof.
  intros (blanks & line & -> & Hb & <- & Hne). unfold prompt_nonempty. simpl.
  apply (prompt_nonempty_loop_typed label blanks line rest
           (World l dk (blanks ++ line :: rest) out) Hb Hne).
Qed.

(** The answer read by [prompt_nonempty] is determined by the lines. *)
Lemma typed_functional v v' lines rest rest' :
  typed v lines rest -> typed v' lines rest' -> v = v' /\ rest = rest'.
Proof.
  intros (b1 & l1 & -> & Hb1 & <- & Hn1) (b2 & l2 & Heq & Hb2 & <- & Hn2).
  revert b2 Heq Hb2. induction Hb1 as [|x b1 Hx _ IH]; intros b2 Heq Hb2.
  - destruct b2 as [|y b2]; simpl in Heq.
    + by injection Heq as -> ->.
    + injection Heq as -> _. inversion Hb2; subst. congruence.
  - destruct b2 as [|y b2]; simpl in Heq.
    + injection Heq as -> _. congruence.
    + injection Heq as -> Heq. inversion Hb2; subst. by apply (IH b2).
Qed.

(** [save_data] leaves the collection and the input alone; the way the write
    ended decides the result. *)
Lemma save_data_run l dk lines out :
  save_data (World l dk lines out)
  = (ended (snd (store l dk)),
     World l (fst (store l dk)) lines
       (out ++ match snd (store l dk) with
               | Refused => [Say MsgCouldNotSave]
               | _ => []
               end)).
Proof.
  unfold save_data. simpl. destruct (store l dk) as [dk' [| |e]]; simpl;
    by rewrite ?app_nil_r.
Qed.

(** [save_data] followed by the closing message of an operation. *)
Lemma save_say_run l dk lines out m :
  (save_data ;;; say m) (World l dk lines out)
  = (ended (snd (store l dk)),
     World l (fst (store l dk)) lines (out ++ after_save (snd (store l dk)) m)).
Proof.
  unfold bind. rewrite save_data_run.
  destruct (snd (store l dk)) as [| |e]; simpl; unfold say; tidy;
    by rewrite <- ?app_assoc, ?app_nil_r.
Qed.

(** A write that the library can carry out does not raise. *)
Lemma store_completes l dk :
  dump_error (PList l) = None -> ended (snd (store l dk)) = Ok tt.
Proof. unfold store. intros ->. by destruct (fault dk). Qed.

(** A write raises only when the file system lets it through and the library
    gives up. *)
Lemma store_escaped l dk e :
  snd (store l dk) = Escaped e ->
  fault dk = NoFault /\
  exists f n, dump_error (PList l) = Some (f, n) /\ e = dump_exn f.
Proof.
  unfold store. destruct (fault dk); try discriminate.
  destruct (dump_error (PList l)) as [[f n]|]; [|discriminate].
  intros [= <-]. eauto.
Qed.

Lemma search_by_roll_run roll l dk lines out s :
  search_from roll 0 l = Ok s ->
  search_by_roll roll (World l dk lines out) = (Ok s, World l dk lines out).
Proof. unfold search_by_roll. simpl. by intros ->. Qed.

Lemma add_student_run l dk lines out roll name grade age_line r1 r2 rest :
  typed roll lines r1 -> typed name r1 r2 -> typed grade r2 (age_line :: rest) ->
  fresh roll l ->
  let l' := l ++ [mk_student roll name (upper grade) (strip age_line)] in
  exists out',
    add_student (World l dk lines out)
    = (ended (snd (store l' dk)), World l' (fst (store l' dk)) rest out').
Proof.
  intros Hroll Hname Hgrade Hfresh l'. unfold add_student.
  apply fresh_other_roll, (search_from_none roll 0) in Hfresh.
  step reflexivity.
  destruct (prompt_nonempty_typed AskRoll l dk lines (out ++ [Say MsgAddHeader]) roll r1 Hroll) as [o1 E1].
  step (apply E1). clear E1.
  step (apply search_by_roll_run, Hfresh).
  step reflexivity.
  destruct (prompt_nonempty_typed AskName l dk r1 o1 name r2 Hname) as [o2 E2].
  step (apply E2). clear E2.
  destruct (prompt_nonempty_typed AskGrade l dk r2 o2 grade _ Hgrade) as [o3 E3].
  step (apply E3). clear E3.
  assert (Hg : nonempty grade = true).
  { destruct Hgrade as (? & ? & _ & _ & _ & Hne). by apply nonempty_true. }
  rewrite validate_grade_nonempty, Hg. cbn [negb].
  step reflexivity. step reflexivity.
  fold l'. rewrite save_say_run.
  eexists. reflexivity.
Qed.

Lemma is_true_run i v l dk lines out :
  l !! i = Some v ->
  is_true (Some i) (World l dk lines out) = (Ok (py_truthy v), World l dk lines out).
Proof. intros Hl. unfold is_true, bind, deref. simpl. by rewrite Hl. Qed.

Lemma getitem_run i k v x l dk lines out :
  l !! i = Some v -> py_getitem v k = Ok x ->
  getitem i k (World l dk lines out) = (Ok x, World l dk lines out).
Proof. intros Hl Hg. unfold getitem, bind, deref, lift. simpl. by rewrite Hl, Hg. Qed.

Lemma get_or_empty_run i k d l dk lines out :
  l !! i = Some (PDict d) ->
  exists x, get_or_empty i k (World l dk lines out) = (Ok x, World l dk lines out).
Proof.
  intros Hl. unfold get_or_empty, bind, deref, lift. simpl. rewrite Hl. simpl.
  destruct (dict_get k d); eauto.
Qed.

Lemma setitem_run i k x d l dk lines out :
  l !! i = Some (PDict d) ->
  setitem i k x (World l dk lines out)
  = (Ok tt, World (<[i := PDict (dict_set k x d)]> l) dk lines out).
Proof. intros Hl. unfold setitem, bind, deref, lift. simpl. by rewrite Hl. Qed.

Lemma maybe_setitem_run (b : bool) i k x d l dk lines out :
  l !! i = Some (PDict d) ->
  (if b then setitem i k x else ret tt) (World l dk lines out)
  = (Ok tt, World (<[i := PDict (if b then dict_set k x d else d)]> l) dk lines out).
Proof.
  intros Hl. destruct b; [by apply setitem_run|].
  unfold ret. by rewrite list_insert_id.
Qed.

Lemma age_condition s : nonempty s || String.eqb s "" = true.
Proof. unfold nonempty. by destruct (String.eqb s ""). Qed.

Lemma update_student_run l dk lines out roll i d name_line grade_line age_line rest :
  typed roll lines (name_line :: grade_line :: age_line :: rest) ->
  search_from roll 0 l = Ok (Some i) ->
  l !! i = Some (PDict d) ->
  is_Some (dict_get "name" d) -> is_Some (dict_get "grade" d) ->
  let l' := <[i := PDict (updated d (strip name_line) (strip grade_line)
                            (strip age_line))]> l in
  exists out',
    update_student (World l dk lines out)
    = (ended (snd (store l' dk)), World l' (fst (store l' dk)) rest out').
Proof.
  intros Hroll Hs Hl [n0 Hn0] [g0 Hg0] l'. unfold update_student.
  assert (Hi : i < length l) by (by eapply lookup_lt_Some).
  step reflexivity.
  destruct (prompt_nonempty_typed AskRollUpdate l dk lines
              (out ++ [Say MsgUpdateHeader]) roll _ Hroll) as [o1 E1].
  step (apply E1). clear E1.
  step (apply search_by_roll_run, Hs).
  step (by apply is_true_run).
  rewrite (dict_get_nonempty _ _ _ Hn0).
  step reflexivity.
  step (eapply getitem_run; [exact Hl | simpl; by rewrite Hn0]).
  step reflexivity.
  step (eapply getitem_run; [exact Hl | simpl; by rewrite Hg0]).
  step reflexivity.
  edestruct (get_or_empty_run i "age" d l dk) as [a0 Ea]; [exact Hl|].
  step (apply Ea). clear Ea.
  step reflexivity.
  step (by apply maybe_setitem_run).
  set (d1 := if nonempty (strip name_line) then _ else d).
  assert (Hl1 : <[i := PDict d1]> l !! i = Some (PDict d1))
    by (by apply list_lookup_insert_eq).
  rewrite age_condition.
  assert (Hfin : forall d2 o,
    l' = <[i := PDict (dict_set "age" (PStr (strip age_line)) d2)]> l ->
    exists out',
      bind (setitem i "age" (PStr (strip age_line)))
        (fun _ => bind save_data (fun _ => say MsgUpdated))
        (World (<[i := PDict d2]> l) dk rest o)
      = (ended (snd (store l' dk)), World l' (fst (store l' dk)) rest out')).
  { intros d2 o Hl'.
    step (apply setitem_run; by apply list_lookup_insert_eq).
    rewrite list_insert_insert_eq, <- Hl'. rewrite save_say_run.
    eexists. reflexivity. }
  destruct (nonempty (strip grade_line)) eqn:Hg.
  - rewrite validate_grade_nonempty, Hg. cbn [negb].
    step (apply setitem_run, Hl1).
    rewrite list_insert_insert_eq.
    apply Hfin. subst l' d1. unfold updated. by rewrite Hg.
  - apply Hfin. subst l' d1. unfold updated. by rewrite Hg.
Qed.

(** [students.remove(s)] deletes the element found by the search itself: no
    earlier element compares equal to it. *)
Lemma list_remove_first_match roll l1 d l2 :
  Forall (other_roll roll) l1 -> dict_get "roll_no" d = Some (PStr roll) ->
  list_remove (length l1) (PDict d) (l1 ++ PDict d :: l2) = Ok (l1 ++ l2).
Proof.
  intros Hall Hd. induction Hall as [|x l1 [v [Hv Hne]] _ IH]; simpl; [done|].
  destruct (py_eq x (PDict d)) eqn:He.
  - exfalso. destruct (py_eq_dict_only _ _ He) as [dx ->]. simpl in Hv.
    destruct (py_eq_dict_get _ _ _ _ He Hv) as (v' & Hv' & Hvv).
    rewrite Hd in Hv'. injection Hv' as <-. by apply py_eq_str in Hvv.
  - by rewrite IH.
Qed.

Lemma list_remove_sublist i s l l' : list_remove i s l = Ok l' -> l' `sublist_of` l.
Proof.
  revert i l'. induction l as [|x l IH]; intros i l'; simpl; [discriminate|].
  destruct (Nat.eqb i 0 || py_eq x s).
  - intros [= <-]. by apply sublist_cons.
  - destruct (list_remove (Nat.pred i) s l) as [r|e] eqn:E; [|discriminate].
    intros [= <-]. apply sublist_skip. by eapply IH.
Qed.

Lemma remove_run i v l l' dk lines out :
  l !! i = Some v -> list_remove i v l = Ok l' ->
  remove i (World l dk lines out) = (Ok tt, World l' dk lines out).
Proof.
  intros Hl Hr. unfold remove, bind, deref, get_students, lift, put_students.
  simpl. rewrite Hl. simpl. by rewrite Hr.
Qed.

Lemma delete_student_run l1 d l2 dk lines out roll confirm rest :
  typed roll lines (confirm :: rest) ->
  lower (strip confirm) = "y" ->
  Forall (other_roll roll) l1 ->
  dict_get "roll_no" d = Some (PStr roll) ->
  is_Some (dict_get "name" d) ->
  exists out',
    delete_student (World (l1 ++ PDict d :: l2) dk lines out)
    = (ended (snd (store (l1 ++ l2) dk)),
       World (l1 ++ l2) (fst (store (l1 ++ l2) dk)) rest out').
Proof.
  intros Hroll Hy Hall Hd [n0 Hn0]. unfold delete_student.
  set (l := l1 ++ PDict d :: l2).
  assert (Hs : search_from roll 0 l = Ok (Some (length l1))).
  { apply search_from_some. exists l1, (PDict d), l2. by repeat split. }
  assert (Hl : l !! length l1 = Some (PDict d)) by (by apply list_lookup_middle).
  step reflexivity.
  destruct (prompt_nonempty_typed AskRollDelete l dk lines
              (out ++ [Say MsgDeleteHeader]) roll _ Hroll) as [o1 E1].
  step (apply E1). clear E1.
  step (apply search_by_roll_run, Hs).
  step (by apply is_true_run).
  rewrite (dict_get_nonempty _ _ _ Hn0).
  step (eapply getitem_run; [exact Hl | simpl; by rewrite Hn0]).
  step (eapply getitem_run; [exact Hl | simpl; by rewrite Hd]).
  step reflexivity.
  rewrite Hy. cbn [String.eqb Ascii.eqb Bool.eqb].
  step (eapply remove_run; [exact Hl | subst l; by eapply list_remove_first_match]).
  rewrite save_say_run. eexists. reflexivity.
Qed.

End Runs.

(** ** The reference library reads back the records it writes *)

Module RefLibFacts.
Import RefLib.

Local Abbreviation chars := list_ascii_of_string.

Lemma chars_app a b : chars (a +:+ b) = chars a ++ chars b.
Proof. induction a as [|c a IH]; simpl; [done | by rewrite IH]. Qed.

(** Reading back one escaped character. *)
Lemma read_string_escape_char c tail acc :
  read_string (chars (escape_char c) ++ tail) acc = read_string tail (c :: acc).
Proof. destruct c as [[] [] [] [] [] [] [] []]; reflexivity. Qed.

Lemma read_string_escape s tail acc :
  read_string (chars (escape s) ++ "034"%char :: tail) acc
  = Some (string_of_list_ascii (rev acc ++ chars s), tail).
Proof.
  revert acc. induction s as [|c s IH]; intros acc; simpl.
  - by rewrite app_nil_r.
  - rewrite chars_app, <- app_assoc, read_string_escape_char, IH.
    simpl. by rewrite <- app_assoc.
Qed.

Lemma chars_quote s t :
  chars (quote s +:+ t) = "034"%char :: chars (escape s) ++ "034"%char :: chars t.
Proof.
  unfold quote. simpl. f_equal. rewrite !chars_app. simpl.
  by rewrite <- app_assoc.
Qed.


Ltac flatten :=
  repeat first
    [ rewrite chars_app
    | rewrite <- app_assoc
    | progress cbn [app list_ascii_of_string spaces] ].

Lemma read_value_record fuel r n g a t :
  read_value (6 + fuel) (chars (dumps_at 1 (mk_student r n g a) +:+ t))
  = Some (mk_student r n g a, chars t).
Proof.
  unfold mk_student, student_fields. cbn [dumps_at].
  unfold quote, nl. flatten.
  simpl. rewrite read_string_escape.
  simpl. rewrite read_string_escape.
  simpl. rewrite read_string_escape.
  simpl. rewrite read_string_escape.
  simpl. by rewrite !string_of_list_ascii_of_string.
Qed.


Lemma dumps_list x xs :
  json_dumps (PList (x :: xs))
  = "[" +:+ nl +:+ spaces 1 +:+ dumps_at 1 x +:+ more_text xs +:+ nl +:+ "]".
Proof. reflexivity. Qed.

Lemma read_value_student fuel x tail :
  is_student x ->
  read_value (6 + fuel) (chars (dumps_at 1 x) ++ tail) = Some (x, tail).
Proof.
  intros (r & n & g & a & ->).
  rewrite <- (list_ascii_of_string_of_list_ascii tail), <- chars_app.
  apply read_value_record.
Qed.

Lemma skip_ws_student x tail :
  is_student x ->
  skip_ws (chars (dumps_at 1 x) ++ tail) = chars (dumps_at 1 x) ++ tail.
Proof. intros (r & n & g & a & ->). reflexivity. Qed.

Lemma read_value_open fuel x tail :
  is_student x ->
  read_value (S fuel)
    ("["%char :: "010"%char :: " "%char :: " "%char
       :: chars (dumps_at 1 x) ++ tail)
  = read_items fuel (chars (dumps_at 1 x) ++ tail) [].
Proof. intros (r & n & g & a & ->). reflexivity. Qed.

Lemma length_more_text xs : length xs <= length (chars (more_text xs)).
Proof.
  induction xs as [|y xs IH]; simpl; [lia|].
  rewrite !chars_app, !length_app. lia.
Qed.

Lemma read_items_students fuel x xs tail acc :
  Forall is_student (x :: xs) ->
  read_items (7 + length xs + fuel)
    (chars (dumps_at 1 x) ++ chars (more_text xs)
       ++ "010"%char :: "]"%char :: tail) acc
  = Some (PList (acc ++ x :: xs), tail).
Proof.
  revert x acc. induction xs as [|y ys IH]; intros x acc Hall;
    inversion Hall as [|? ? Hx Hxs]; subst.
  - change (7 + length [] + fuel) with (S (6 + fuel)). cbn [read_items].
    rewrite (read_value_student _ x _ Hx). reflexivity.
  - change (7 + length (y :: ys) + fuel) with (S (6 + (S (length ys) + fuel))).
    cbn [read_items]. rewrite (read_value_student _ x _ Hx).
    cbn [more_text]. unfold nl. flatten.
    inversion Hxs as [|? ? Hy _]; subst.
    simpl skip_ws. cbn [code nat_of_ascii]. simpl Nat.eqb. cbv iota.
    match goal with
    | |- context [skip_ws (ascii_of_nat 10 :: " "%char :: " "%char :: ?cs)] =>
        change (skip_ws (ascii_of_nat 10 :: " "%char :: " "%char :: cs))
          with (skip_ws cs)
    end.
    rewrite (skip_ws_student y _ Hy).
    change (6 + (S (length ys) + fuel)) with (7 + length ys + fuel).
    specialize (IH y (acc ++ [x]) Hxs). rewrite <- app_assoc in IH.
    exact IH.
Qed.

(** The reference reader reads back every collection of student records
    written by the reference writer. *)
Lemma read_dumps_students l :
  Forall is_student l -> read_document (json_dumps (PList l)) = Some (PList l).
Proof.
  intros Hall. destruct l as [|x xs]; [reflexivity|].
  rewrite dumps_list. unfold read_document, nl.
  set (cs := chars _).
  assert (Hcs : cs = "["%char :: "010"%char :: " "%char :: " "%char
                     :: chars (dumps_at 1 x) ++ chars (more_text xs)
                     ++ "010"%char :: "]"%char :: []).
  { subst cs. flatten. reflexivity. }
  assert (Hfuel : exists fuel, 2 * length cs + 2 = S (7 + length xs + fuel)).
  { exists (2 * length cs + 2 - S (7 + length xs)).
    pose proof (length_more_text xs) as Hm.
    rewrite Hcs. simpl length. rewrite !length_app. simpl length. lia. }
  destruct Hfuel as [fuel ->]. rewrite Hcs.
  inversion Hall as [|? ? Hx _]; subst.
  simpl skip_ws. rewrite (read_value_open _ x _ Hx).
  rewrite (read_items_students fuel x xs [] [] Hall). reflexivity.
Qed.

(** A text without the byte 255 is written to the end. *)
Lemma stops_at_none cs pos start :
  existsb is_ff cs = false -> stops_at cs pos start = None.
Proof.
  remember (length cs) as n eqn:Hn. revert cs pos start Hn.
  induction n as [n IH] using lt_wf_ind. intros cs pos start Hn Hex.
  destruct cs as [|c cs]; [done|].
  simpl in Hex. apply Bool.orb_false_iff in Hex as [Hc Hcs].
  cbn [stops_at]. rewrite Hc. simpl in Hn.
  destruct start as [q|].
  - destruct (Nat.eqb (code c) 92).
    + destruct cs as [|c' cs']; [done|].
      simpl in Hcs. apply Bool.orb_false_iff in Hcs as [_ Hcs'].
      apply (IH (length cs')); [simpl in Hn; lia | done | done].
    + destruct (Nat.eqb (code c) 34); apply (IH (length cs)); (lia || done).
  - destruct (Nat.eqb (code c) 34); apply (IH (length cs)); (lia || done).
Qed.

Lemma dump_error_none v : decodable (json_dumps v) = true -> dump_error v = None.
Proof.
  unfold decodable, dump_error. intros Hd. apply Bool.negb_true_iff in Hd.
  by rewrite stops_at_none.
Qed.

Lemma loads_dumps_students l :
  Forall is_student l -> decodable (json_dumps (PList l)) = true ->
  json_loads (json_dumps (PList l)) = Some (PList l).
Proof.
  intros Hall Hd. unfold json_loads. rewrite Hd. by apply read_dumps_students.
Qed.

End RefLibFacts.

(** ** The claims of the specification *)

Section Claims.
Context `{PyLib}.

Lemma search_by_roll_raise roll l dk lines out e :
  search_from roll 0 l = Raise e ->
  search_by_roll roll (World l dk lines out) = (Raise e, World l dk lines out).
Proof. unfold search_by_roll. simpl. by intros ->. Qed.

Lemma insert_middle (l1 l2 : list pyval) x y :
  <[length l1 := y]> (l1 ++ x :: l2) = l1 ++ y :: l2.
Proof.
  rewrite insert_app_r_alt by lia. by rewrite Nat.sub_diag.
Qed.

Lemma rolls_app l1 l2 : rolls (l1 ++ l2) = rolls l1 ++ rolls l2.
Proof. apply omap_app. Qed.

Lemma records_keyed l : records l -> keyed l.
Proof.
  intros Hrec. eapply Forall_impl; [exact Hrec|].
  intros s Hs. simpl in Hs. unfold is_record in Hs.
  destruct (roll_of s); [done | discriminate].
Qed.

(** A roll number carried by a record of a well-formed collection is found:
    the collection splits around the first record with it. *)
Lemma records_split roll l :
  records l -> PStr roll ∈ rolls l ->
  exists l1 d l2,
    l = l1 ++ PDict d :: l2 /\ Forall (other_roll roll) l1 /\
    dict_get "roll_no" d = Some (PStr roll) /\
    is_Some (dict_get "name" d) /\ is_Some (dict_get "grade" d).
Proof.
  intros Hrec Hin.
  destruct (search_from_keyed roll 0 l (records_keyed _ Hrec)) as [[i|] Hs].
  - apply search_from_some in Hs as (l1 & s & l2 & -> & _ & Hall & Hr).
    apply Forall_app in Hrec as [_ Hrec]. inversion Hrec as [|? ? Hs _]; subst.
    unfold is_record in Hs. rewrite Hr in Hs.
    destruct s as [| | | | |d]; try discriminate. simpl in *.
    exists l1, d, l2. repeat split; auto.
    + destruct (dict_get "name" d); [eauto | discriminate].
    + destruct (dict_get "name" d); [|discriminate].
      destruct (dict_get "grade" d); [eauto | discriminate].
  - apply search_from_none, fresh_other_roll in Hs as [_ Hn]. contradiction.
Qed.

(** The record appended under a roll number that was not present is what
    the search then finds. *)
Lemma search_from_appended roll l r :
  fresh roll l -> roll_of r = Some (PStr roll) ->
  search_from roll 0 (l ++ [r]) = Ok (Some (length l)).
Proof.
  intros Hfresh Hr. apply search_from_some. exists l, r, [].
  repeat split; auto. by apply fresh_other_roll.
Qed.

(** C1 (amended).  For every record whose roll number, name and grade are
    non-empty answers and whose roll number does not occur in the collection,
    in the collection that [add_student] leaves [search_by_roll] of that roll
    number returns a record with the same roll number, name and age and with
    the grade upper-cased; it is the record given exactly when its grade is
    already in upper case.  This holds however the write to the data file
    ends; when the library can write the collection, the add itself returns
    normally, so that the search can follow it. *)
Theorem add_then_find w roll name grade age_line r1 r2 rest :
  typed roll (stdin w) r1 -> typed name r1 r2 ->
  typed grade r2 (age_line :: rest) ->
  fresh roll (students w) ->
  exists i,
    search_by_roll roll (snd (add_student w))
    = (Ok (Some i), snd (add_student w)) /\
    students (snd (add_student w)) !! i
    = Some (mk_student roll name (upper grade) (strip age_line)) /\
    (dump_error (PList (students (snd (add_student w)))) = None ->
     (add_student ;;; search_by_roll roll) w
     = (Ok (Some i), snd (add_student w))).
Proof.
  destruct w as [l dk lines out]. simpl. intros Hroll Hname Hgrade Hfresh.
  destruct (add_student_run l dk lines out _ _ _ _ _ _ _ Hroll Hname Hgrade Hfresh)
    as [o E].
  set (r := mk_student roll name (upper grade) (strip age_line)) in *.
  assert (Hs : search_from roll 0 (l ++ [r]) = Ok (Some (length l)))
    by (by apply search_from_appended).
  exists (length l). unfold bind. rewrite E. cbn [snd students].
  split; [by apply search_by_roll_run|]. split; [by apply list_lookup_middle|].
  intros Hd. rewrite (store_completes _ _ Hd). by apply search_by_roll_run.
Qed.

(** Adding under a roll number that some element already carries changes
    neither the collection nor the disk, whether the search finds the element
    or stops earlier with an exception. *)
Lemma add_student_duplicate w roll r1 s :
  typed roll (stdin w) r1 -> s ∈ students w -> roll_of s = Some (PStr roll) ->
  same_store w (snd (add_student w)).
Proof.
  destruct w as [l dk lines out]. simpl. intros Hroll Hin Hr. unfold add_student.
  step reflexivity.
  destruct (prompt_nonempty_typed AskRoll l dk lines (out ++ [Say MsgAddHeader])
              roll r1 Hroll) as [o1 E1].
  step (apply E1). clear E1.
  destruct (search_from roll 0 l) as [[i|]|e] eqn:Hs.
  - step (apply search_by_roll_run, Hs).
    destruct (search_from_in_range _ _ _ Hs) as (v & Hv & _ & Ht).
    step (by apply is_true_run). rewrite Ht. done.
  - apply search_from_none in Hs. rewrite Forall_forall in Hs.
    destruct (Hs s Hin) as (v & Hv & Hne). congruence.
  - erewrite bind_raise; [|by apply search_by_roll_raise]. done.
Qed.


(** *** Fields of an updated record *)

Lemma updated_roll d n g a :
  dict_get "roll_no" (updated d n g a) = dict_get "roll_no" d.
Proof.
  unfold updated. rewrite dict_get_set_ne by done.
  destruct (nonempty g); [rewrite dict_get_set_ne by done|];
    (destruct (nonempty n); [by rewrite dict_get_set_ne|done]).
Qed.

Lemma updated_name d n g a :
  dict_get "name" (updated d n g a)
  = if nonempty n then Some (PStr n) else dict_get "name" d.
Proof.
  unfold updated. rewrite dict_get_set_ne by done.
  destruct (nonempty g); [rewrite dict_get_set_ne by done|];
    (destruct (nonempty n); [by rewrite dict_get_set_eq|done]).
Qed.

Lemma updated_grade d n g a :
  dict_get "grade" (updated d n g a)
  = if nonempty g then Some (PStr (upper g)) else dict_get "grade" d.
Proof.
  unfold updated. rewrite dict_get_set_ne by done.
  destruct (nonempty g); [by rewrite dict_get_set_eq|].
  destruct (nonempty n); [by rewrite dict_get_set_ne|done].
Qed.

Lemma updated_age d n g a : dict_get "age" (updated d n g a) = Some (PStr a).
Proof. unfold updated. apply dict_get_set_eq. Qed.

(** [update_student] on the first record with the roll number: the record is
    replaced in place by its updated version and the collection is handed to
    [save_data], whose write decides the result. *)
Lemma update_student_split w roll l1 d l2 name_line grade_line age_line rest :
  first_record roll (students w) l1 d l2 ->
  typed roll (stdin w) (name_line :: grade_line :: age_line :: rest) ->
  let d' := updated d (strip name_line) (strip grade_line) (strip age_line) in
  exists w',
    update_student w = (ended (snd (store (students w') (fs w))), w') /\
    students w' = l1 ++ PDict d' :: l2 /\
    fs w' = fst (store (students w') (fs w)) /\
    stdin w' = rest.
Proof.
  destruct w as [l dk lines out]. simpl.
  intros (-> & Hall & Hd & Hn & Hg) Hroll.
  edestruct (update_student_run (l1 ++ PDict d :: l2) dk lines out roll (length l1))
    as [o E]; eauto.
  - apply search_from_some. exists l1, (PDict d), l2. by repeat split.
  - by apply list_lookup_middle.
  - rewrite insert_middle in E. eexists (World _ _ _ _). split; [exact E|]. by simpl.
Qed.

(** C2 (behaviour of the code).  For every existing record, an update whose
    grade and age answers are blank keeps the grade, sets the name when one is
    given and keeps it otherwise, but overwrites the age with the empty
    string: the age does not keep its previous value.  The record is changed
    in the collection however the write to the data file ends: the update
    ends as that write does, and returns normally when the library can write
    the collection. *)
Theorem update_blank_clears_age w roll l1 d l2 name_line grade_line age_line rest :
  first_record roll (students w) l1 d l2 ->
  typed roll (stdin w) (name_line :: grade_line :: age_line :: rest) ->
  strip grade_line = "" -> strip age_line = "" ->
  exists w' d',
    update_student w
    = (ended (snd (store (l1 ++ PDict d' :: l2) (fs w))), w') /\
    students w' = l1 ++ PDict d' :: l2 /\
    dict_get "name" d'
    = (if nonempty (strip name_line) then Some (PStr (strip name_line))
       else dict_get "name" d) /\
    dict_get "grade" d' = dict_get "grade" d /\
    dict_get "age" d' = Some (PStr "") /\
    (dump_error (PList (l1 ++ PDict d' :: l2)) = None ->
     update_student w = (Ok tt, w')).
Proof.
  intros Hrec Hroll Hg Ha.
  destruct (update_student_split w roll l1 d l2 _ _ _ _ Hrec Hroll)
    as (w' & E & Hl & _).
  rewrite Hl in E. exists w'. eexists. split; [exact E|]. split; [exact Hl|].
  rewrite updated_name, updated_grade, updated_age, Hg, Ha.
  repeat split. intros Hd. rewrite E. f_equal. rewrite Hg, Ha.
  by apply store_completes.
Qed.

(** C3 (amended).  For every existing record, an update whose grade answer
    is empty after trimming is not aborted: the grade keeps its previous
    value, a non-empty name answer replaces the name (a blank one keeps it), a
    non-empty age answer replaces the age, and the collection so changed is
    handed to the write of the data file; the update returns normally when
    the library can write the collection. *)
Theorem update_blank_grade_keeps_grade
    w roll l1 d l2 name_line grade_line age_line rest :
  first_record roll (students w) l1 d l2 ->
  typed roll (stdin w) (name_line :: grade_line :: age_line :: rest) ->
  strip grade_line = "" ->
  exists d',
    students (snd (update_student w)) = l1 ++ PDict d' :: l2 /\
    dict_get "grade" d' = dict_get "grade" d /\
    dict_get "name" d'
    = (if nonempty (strip name_line) then Some (PStr (strip name_line))
       else dict_get "name" d) /\
    (strip age_line <> "" -> dict_get "age" d' = Some (PStr (strip age_line))) /\
    fs (snd (update_student w)) = fst (store (l1 ++ PDict d' :: l2) (fs w)) /\
    (dump_error (PList (l1 ++ PDict d' :: l2)) = None ->
     fst (update_student w) = Ok tt).
Proof.
  intros Hrec Hroll Hg.
  destruct (update_student_split w roll l1 d l2 _ _ _ _ Hrec Hroll)
    as (w' & E & Hl & Hfs & _).
  eexists. rewrite E. cbn [fst snd]. split; [exact Hl|].
  rewrite updated_name, updated_grade, updated_age, Hg.
  repeat split; [by rewrite Hfs, Hl, Hg|]. intros Hd. rewrite Hl, Hg.
  by apply store_completes.
Qed.

(** On a collection of keyed elements the duplicate is reported: the
    operation returns normally and its last message is the rejection. *)
Lemma add_student_duplicate_reported w roll r1 s :
  typed roll (stdin w) r1 -> s ∈ students w -> roll_of s = Some (PStr roll) ->
  keyed (students w) ->
  fst (add_student w) = Ok tt /\
  last (stdout (snd (add_student w))) = Some (Say MsgDuplicate).
Proof.
  destruct w as [l dk lines out]. simpl. intros Hroll Hin Hr Hk.
  unfold add_student. step reflexivity.
  destruct (prompt_nonempty_typed AskRoll l dk lines (out ++ [Say MsgAddHeader])
              roll r1 Hroll) as [o1 E1].
  step (apply E1). clear E1.
  destruct (search_from_keyed roll 0 l Hk) as [[i|] Hs].
  - step (apply search_by_roll_run, Hs).
    destruct (search_from_in_range _ _ _ Hs) as (v & Hv & _ & Ht).
    step (by apply is_true_run). rewrite Ht. unfold say. tidy.
    split; [done | apply last_snoc].
  - apply search_from_none in Hs. rewrite Forall_forall in Hs.
    destruct (Hs s Hin) as (v & Hv & Hne). congruence.
Qed.

(** C4.  For every collection and every roll number carried by some record
    of the collection, attempting to add under that roll number leaves the
    collection unchanged and writes nothing to disk; when every element of
    the collection has a roll number, the attempt ends normally with the
    message that the roll number already exists. *)
Theorem add_duplicate_rejected w roll r1 s :
  typed roll (stdin w) r1 -> s ∈ students w -> roll_of s = Some (PStr roll) ->
  students (snd (add_student w)) = students w /\
  fs (snd (add_student w)) = fs w /\
  (keyed (students w) ->
   fst (add_student w) = Ok tt /\
   last (stdout (snd (add_student w))) = Some (Say MsgDuplicate)).
Proof.
  intros Hroll Hin Hr.
  destruct (add_student_duplicate w roll r1 s Hroll Hin Hr) as [Hl Hd].
  split; [done|]. split; [done|].
  by apply (add_student_duplicate_reported w roll r1 s).
Qed.

(** C5.  In a collection of records with distinct roll numbers, after the
    confirmed deletion of the record of a roll number that is present, the
    search for that roll number in the collection left returns none, and the
    collection has exactly one record fewer.  This holds however the write to
    the data file ends; when the library can write the collection, the
    deletion itself returns normally, so that the search can follow it. *)
Theorem delete_then_find w roll confirm rest :
  records (students w) -> unique_rolls (students w) ->
  PStr roll ∈ rolls (students w) ->
  typed roll (stdin w) (confirm :: rest) -> lower (strip confirm) = "y" ->
  search_by_roll roll (snd (delete_student w))
  = (Ok None, snd (delete_student w)) /\
  S (length (students (snd (delete_student w)))) = length (students w) /\
  (dump_error (PList (students (snd (delete_student w)))) = None ->
   (delete_student ;;; search_by_roll roll) w
   = (Ok None, snd (delete_student w))).
Proof.
  destruct w as [l dk lines out]. simpl. intros Hrec Huniq Hin Hroll Hy.
  destruct (records_split roll l Hrec Hin) as (l1 & d & l2 & -> & Hall & Hd & Hn & _).
  destruct (delete_student_run l1 d l2 dk lines out roll confirm rest
              Hroll Hy Hall Hd Hn) as [o E].
  assert (Hs : search_from roll 0 (l1 ++ l2) = Ok None).
  { apply search_from_none. apply Forall_app. split; [done|].
    apply Forall_app in Hrec as [_ Hrec]. inversion Hrec as [|? ? _ Hrec2]; subst.
    unfold unique_rolls in Huniq. rewrite rolls_app in Huniq.
    apply NoDup_app in Huniq as (_ & _ & Huniq). simpl in Huniq.
    unfold rolls in Huniq. simpl in Huniq. rewrite Hd in Huniq. simpl in Huniq.
    apply NoDup_cons in Huniq as [Hnotin _].
    apply fresh_other_roll. split; [by apply records_keyed | done]. }
  unfold bind. rewrite E. cbn [snd students].
  split; [by apply search_by_roll_run|]. split.
  - rewrite !length_app. simpl. lia.
  - intros Hdump. rewrite (store_completes _ _ Hdump). by apply search_by_roll_run.
Qed.

(** C9.  The grade stored by an add, and the grade stored by an update that
    supplies a non-empty grade, is the upper-cased form of the (trimmed)
    answer: it is the grade of the record in the collection that the
    operation leaves, however the write to the data file ends. *)
Theorem grade_stored_upper_case :
  (forall w roll name grade age_line r1 r2 rest,
      typed roll (stdin w) r1 -> typed name r1 r2 ->
      typed grade r2 (age_line :: rest) -> fresh roll (students w) ->
      exists i s,
        search_by_roll roll (snd (add_student w))
        = (Ok (Some i), snd (add_student w)) /\
        students (snd (add_student w)) !! i = Some s /\
        field "grade" s = Some (PStr (upper grade))) /\
  (forall w roll l1 d l2 name_line grade_line age_line rest,
      first_record roll (students w) l1 d l2 ->
      typed roll (stdin w) (name_line :: grade_line :: age_line :: rest) ->
      strip grade_line <> "" ->
      exists d',
        students (snd (update_student w)) = l1 ++ PDict d' :: l2 /\
        dict_get "roll_no" d' = Some (PStr roll) /\
        dict_get "grade" d' = Some (PStr (upper (strip grade_line)))).
Proof.
  split.
  - intros w roll name grade age_line r1 r2 rest Hroll Hname Hgrade Hfresh.
    destruct w as [l dk lines out]. simpl in *.
    destruct (add_student_run l dk lines out _ _ _ _ _ _ _ Hroll Hname Hgrade Hfresh)
      as [o E].
    set (r := mk_student roll name (upper grade) (strip age_line)) in *.
    exists (length l), r. rewrite E. cbn [snd students]. split; [|split].
    + apply search_by_roll_run. by apply search_from_appended.
    + by apply list_lookup_middle.
    + done.
  - intros w roll l1 d l2 name_line grade_line age_line rest Hrec Hroll Hg.
    destruct (update_student_split w roll l1 d l2 _ _ _ _ Hrec Hroll)
      as (w' & E & Hl & _).
    eexists. rewrite E. cbn [snd]. split; [exact Hl|].
    rewrite updated_roll, updated_grade. apply nonempty_true in Hg. rewrite Hg.
    split; [|done]. by destruct Hrec as (_ & _ & Hd & _).
Qed.


(** *** Loading and saving *)


(** A write that completes leaves the document in a readable file. *)
Lemma store_written l dk :
  fault dk = NoFault -> dump_error (PList l) = None ->
  (forall text, data_file dk <> Present false text) ->
  store l dk = (Disk (Present true (json_dumps (PList l))) NoFault, Written).
Proof.
  intros Hf Hd Hread. unfold store. rewrite Hf, Hd.
  destruct (data_file dk) as [|[|] text]; simpl; try done. by destruct (Hread text).
Qed.

(** Saving, and then loading in any process: whatever its memory holds, what
    [load_data] returns is read from the file. *)
Lemma save_data_load_data w :
  fault (fs w) = NoFault -> dump_error (PList (students w)) = None ->
  (forall text, data_file (fs w) <> Present false text) ->
  json_loads (json_dumps (PList (students w))) = Some (PList (students w)) ->
  exists w1,
    save_data w = (Ok tt, w1) /\ students w1 = students w /\
    stdout w1 = stdout w /\
    forall memory lines scr,
      load_data (World memory (fs w1) lines scr)
      = (Ok (students w), World memory (fs w1) lines scr).
Proof.
  destruct w as [l dk lines out]. simpl. intros Hf Hd Hread Hrt.
  rewrite save_data_run, (store_written _ _ Hf Hd Hread). cbn [fst snd ended].
  rewrite app_nil_r. eexists. split; [reflexivity|]. split; [done|]. split; [done|].
  intros memory lines' scr. unfold load_data. cbn [fs data_file]. by rewrite Hrt.
Qed.


(** *** The uniqueness invariant *)

Lemma rolls_fmap l : rolls l = omap id (roll_of <$> l).
Proof.
  unfold rolls. induction l as [|s l IH]; [done|].
  rewrite fmap_cons. cbn [omap list_omap]. rewrite IH.
  by destruct (roll_of s).
Qed.

Lemma omap_sublist {A B} (f : A -> option B) (l1 l2 : list A) :
  l1 `sublist_of` l2 -> omap f l1 `sublist_of` omap f l2.
Proof.
  induction 1 as [|x l1 l2 _ IH|x l1 l2 _ IH]; simpl.
  - constructor.
  - destruct (f x); [by constructor | done].
  - destruct (f x); [by constructor | done].
Qed.

Lemma rolls_kept_same w w' : same_store w w' -> rolls_kept w w'.
Proof. intros [Hl _]. unfold rolls_kept. by rewrite Hl. Qed.

Lemma rolls_kept_trans w1 w2 w3 :
  rolls_kept w1 w2 -> rolls_kept w2 w3 -> rolls_kept w1 w3.
Proof. unfold rolls_kept. congruence. Qed.

Lemma rolls_shrink_same w w' : same_store w w' -> rolls_shrink w w'.
Proof. intros [Hl _]. unfold rolls_shrink. by rewrite Hl. Qed.

Lemma rolls_shrink_trans w1 w2 w3 :
  rolls_shrink w1 w2 -> rolls_shrink w2 w3 -> rolls_shrink w1 w3.
Proof. unfold rolls_shrink. intros H12 H23. by etrans. Qed.

Lemma save_data_students w : students (snd (save_data w)) = students w.
Proof.
  unfold save_data. destruct (store (students w) (fs w)) as [dk [| |e]]; done.
Qed.

(** Assigning a field other than the roll number keeps every roll number. *)
Lemma setitem_rolls_kept i k x :
  k <> "roll_no" -> respects rolls_kept (setitem i k x).
Proof.
  intros Hk w. unfold setitem, bind, deref, lift, get_students, put_students.
  destruct (students w !! i) as [v|] eqn:Hl; simpl; [|done].
  destruct v as [| | | | |d]; simpl; try done.
  unfold rolls_kept. simpl. rewrite list_fmap_insert. apply list_insert_id.
  rewrite list_lookup_fmap, Hl. simpl. f_equal. symmetry.
  by apply dict_get_set_ne.
Qed.

Ltac resp R_same R_trans leaf :=
  repeat first
    [ leaf
    | apply (respects_say _ R_same)
    | apply (respects_ret _ R_same)
    | apply (respects_input _ R_same)
    | apply (respects_prompt_nonempty _ R_same)
    | apply (respects_search_by_roll _ R_same)
    | apply (respects_is_true _ R_same R_trans)
    | apply (respects_getitem _ R_same R_trans)
    | apply (respects_get_or_empty _ R_same R_trans)
    | progress cbv zeta
    | match goal with
      | |- respects _ (if ?b then _ else _) => destruct b
      | |- respects _ (match ?s with _ => _ end) => destruct s
      end
    | apply (respects_bind _ R_trans); [|intros] ].

Lemma update_student_rolls_kept : respects rolls_kept update_student.
Proof.
  assert (Hsave : respects rolls_kept save_data).
  { intros w. unfold rolls_kept. by rewrite save_data_students. }
  unfold update_student.
  resp rolls_kept_same rolls_kept_trans
    ltac:(first [exact Hsave | by apply setitem_rolls_kept]).
Qed.

Lemma remove_rolls_shrink i : respects rolls_shrink (remove i).
Proof.
  intros w. unfold remove, bind, deref, lift, get_students, put_students.
  destruct (students w !! i) as [v|] eqn:Hl; simpl;
    [|apply rolls_shrink_same, same_store_refl].
  destruct (list_remove i v (students w)) as [l'|e] eqn:Hr; simpl;
    [|apply rolls_shrink_same, same_store_refl].
  unfold rolls_shrink. simpl. by eapply omap_sublist, list_remove_sublist.
Qed.

Lemma delete_student_rolls_shrink : respects rolls_shrink delete_student.
Proof.
  assert (Hsave : respects rolls_shrink save_data).
  { intros w. unfold rolls_shrink. by rewrite save_data_students. }
  unfold delete_student.
  resp rolls_shrink_same rolls_shrink_trans
    ltac:(first [exact Hsave | apply remove_rolls_shrink]).
Qed.

Lemma prompt_nonempty_cases label l dk lines out :
  exists r lines' out',
    prompt_nonempty label (World l dk lines out) = (r, World l dk lines' out').
Proof.
  pose proof (prompt_nonempty_loop_same label lines (World l dk lines out)) as Hs.
  unfold prompt_nonempty. simpl.
  destruct (prompt_nonempty_loop label lines (World l dk lines out))
    as [r [l' dk' lines' out']].
  destruct Hs as [Hl Hd]. simpl in *. subst. eauto.
Qed.

(** [add_student] leaves the collection alone or appends one record whose
    roll number the search did not find. *)
Lemma add_student_cases w :
  students (snd (add_student w)) = students w \/
  exists roll name grade age,
    search_from roll 0 (students w) = Ok None /\
    students (snd (add_student w))
    = students w ++ [mk_student roll name grade age].
Proof.
  destruct w as [l dk lines out]. unfold add_student.
  step reflexivity.
  destruct (prompt_nonempty_cases AskRoll l dk lines (out ++ [Say MsgAddHeader]))
    as ([roll|e] & lines1 & o1 & E1);
    [step (apply E1) | erewrite bind_raise by apply E1; by left]. clear E1.
  destruct (search_from roll 0 l) as [[i|]|e] eqn:Hs.
  - step (apply search_by_roll_run, Hs).
    destruct (search_from_in_range _ _ _ Hs) as (v & Hv & _ & Ht).
    step (by apply is_true_run). rewrite Ht. by left.
  - step (apply search_by_roll_run, Hs). step reflexivity.
    destruct (prompt_nonempty_cases AskName l dk lines1 o1)
      as ([name|e] & lines2 & o2 & E2);
      [step (apply E2) | erewrite bind_raise by apply E2; by left]. clear E2.
    destruct (prompt_nonempty_cases AskGrade l dk lines2 o2)
      as ([grade|e] & lines3 & o3 & E3);
      [step (apply E3) | erewrite bind_raise by apply E3; by left]. clear E3.
    destruct (negb (validate_grade grade)); [by left|].
    destruct lines3 as [|age_line lines4];
      [erewrite bind_raise by reflexivity; by left|].
    step reflexivity. step reflexivity.
    right. exists roll, name, (upper grade), (strip age_line). split; [done|].
    by rewrite save_say_run.
  - erewrite bind_raise; [|by apply search_by_roll_raise]. by left.
Qed.

(** C8.  Starting from a collection in which no two records share a roll
    number, every operation (add, list, search, update, delete) leaves a
    collection with the same property; add rejects a roll number already
    present, and update never changes the roll number of any element. *)
Theorem uniqueness_invariant :
  (forall op w,
      unique_rolls (students w) -> unique_rolls (students (snd (run op w)))) /\
  (forall w roll r1 s,
      typed roll (stdin w) r1 -> s ∈ students w ->
      roll_of s = Some (PStr roll) ->
      students (snd (add_student w)) = students w) /\
  (forall w, rolls_kept w (snd (update_student w))).
Proof.
  split; [|split].
  - intros op w Hu. unfold unique_rolls in *. destruct op; simpl.
    + destruct (add_student_cases w) as [->|(roll & name & grade & age & Hs & ->)];
        [done|].
      rewrite rolls_app. apply NoDup_app. split; [done|]. split.
      * apply search_from_none, fresh_other_roll in Hs as [_ Hn].
        intros x Hx Hin. apply list_elem_of_singleton in Hin. by subst.
      * apply NoDup_singleton.
    + by destruct (respects_view_students same_store (fun _ _ h => h)
                     same_store_trans w) as [-> _].
    + by destruct (respects_search_student same_store (fun _ _ h => h)
                     same_store_trans w) as [-> _].
    + rewrite rolls_fmap, (update_student_rolls_kept w), <- rolls_fmap. done.
    + exact (sublist_NoDup _ _ Hu (delete_student_rolls_shrink w)).
  - intros w roll r1 s Hroll Hin Hr. by eapply add_student_duplicate.
  - apply update_student_rolls_kept.
Qed.


(** *** Partiality of the search *)

Lemma search_from_raises roll k l1 s l2 :
  Forall (other_roll roll) l1 -> roll_of s = None ->
  search_from roll k (l1 ++ s :: l2) = Raise (roll_error s).
Proof.
  intros Hall Hr. revert k.
  induction Hall as [|x l1 [v [Hv Hne]] _ IH]; intros k; simpl.
  - destruct s as [| | | | |d]; simpl in *; try done. by rewrite Hr.
  - apply getitem_roll_of in Hv. rewrite Hv.
    apply py_eq_str_false in Hne. rewrite Hne. apply IH.
Qed.

Lemma unused_roll_length l :
  String.length (unused_roll l) = S (foldr Nat.max 0 (roll_length <$> l)).
Proof.
  unfold unused_roll. generalize (S (foldr Nat.max 0 (roll_length <$> l))).
  intros n. induction n as [|n IH]; simpl; [done | by rewrite IH].
Qed.

Lemma roll_length_bound s l :
  s ∈ l -> roll_length s <= foldr Nat.max 0 (roll_length <$> l).
Proof.
  induction l as [|x l IH]; intros Hin; [by apply elem_of_nil in Hin|].
  rewrite fmap_cons. cbn [foldr].
  apply elem_of_cons in Hin as [->|Hin]; [lia|].
  specialize (IH Hin). lia.
Qed.

Lemma unused_roll_other l :
  keyed l -> Forall (other_roll (unused_roll l)) l.
Proof.
  intros Hk. apply Forall_forall. intros s Hin.
  unfold keyed in Hk. rewrite Forall_forall in Hk. destruct (Hk s Hin) as [v Hv].
  exists v. split; [done|]. intros ->.
  pose proof (roll_length_bound s l Hin) as Hle.
  unfold roll_length in Hle at 1. rewrite Hv, unused_roll_length in Hle. lia.
Qed.

(** The search returns normally for every roll number exactly when every
    element of the collection is an object with a "roll_no" key. *)
Lemma search_total_iff_keyed l :
  (forall roll, exists r, search_from roll 0 l = Ok r) <-> keyed l.
Proof.
  split; [|intros Hk roll; by apply search_from_keyed].
  intros Htotal.
  assert (Hsplit : keyed l \/
            exists l1 s l2, l = l1 ++ s :: l2 /\ keyed l1 /\ roll_of s = None).
  { clear Htotal. induction l as [|s l IH]; [left; constructor|].
    destruct (roll_of s) as [v|] eqn:Hr.
    - destruct IH as [Hk|(l1 & b & l2 & -> & Hk1 & Hb)].
      + left. constructor; [eauto | done].
      + right. exists (s :: l1), b, l2. repeat split; [|done].
        constructor; [eauto | done].
    - right. exists [], s, l. repeat split; [constructor | done]. }
  destruct Hsplit as [Hk|(l1 & s & l2 & -> & Hk1 & Hs)]; [done|].
  destruct (Htotal (unused_roll l1)) as [r Hr].
  rewrite (search_from_raises _ 0 l1 s l2 (unused_roll_other l1 Hk1) Hs) in Hr.
  discriminate.
Qed.

(** C10.  [search_by_roll] returns normally for every roll number exactly on
    the collections whose elements are all objects with a "roll_no" key.  [load_data] accepts any
    JSON array, so a file whose array holds, before any match, an element that
    is not an object or has no "roll_no" key makes [search_by_roll], and with
    it search, update and delete, fail with an exception. *)
Theorem search_by_roll_partial :
  (forall w,
     keyed (students w) <->
     forall roll, exists r, search_by_roll roll w = (Ok r, w)) /\
  (forall w text data roll l1 s l2 rest,
     data_file (fs w) = Present true text ->
     json_loads text = Some (PList data) ->
     data = l1 ++ s :: l2 -> Forall (other_roll roll) l1 -> roll_of s = None ->
     typed roll (stdin w) rest ->
     exists w1,
       startup w = (Ok tt, w1) /\ students w1 = data /\
       fst (search_by_roll roll w1) = Raise (roll_error s) /\
       fst (search_student w1) = Raise (roll_error s) /\
       fst (update_student w1) = Raise (roll_error s) /\
       fst (delete_student w1) = Raise (roll_error s)).
Proof.
  split.
  - intros w. rewrite <- search_total_iff_keyed. unfold search_by_roll.
    split; intros Ht roll; destruct (Ht roll) as [r Hr]; exists r.
    + by rewrite Hr.
    + by injection Hr.
  - intros [l0 dk lines out] text data roll l1 s l2 rest Hf Hj -> Hall Hr Hroll.
    simpl in *. eexists. split; [|split].
    + unfold startup, bind, load_data, put_students. simpl. by rewrite Hf, Hj.
    + done.
    + tidy.
      pose proof (search_from_raises roll 0 l1 s l2 Hall Hr) as Hs.
      repeat split.
      * unfold search_by_roll. simpl. by rewrite Hs.
      * unfold search_student. step reflexivity.
        edestruct (prompt_nonempty_typed AskRollSearch) as [o1 E1]; [exact Hroll|].
        step (apply E1).
        erewrite bind_raise; [|by apply search_by_roll_raise]. done.
      * unfold update_student. step reflexivity.
        edestruct (prompt_nonempty_typed AskRollUpdate) as [o1 E1]; [exact Hroll|].
        step (apply E1).
        erewrite bind_raise; [|by apply search_by_roll_raise]. done.
      * unfold delete_student. step reflexivity.
        edestruct (prompt_nonempty_typed AskRollDelete) as [o1 E1]; [exact Hroll|].
        step (apply E1).
        erewrite bind_raise; [|by apply search_by_roll_raise]. done.
Qed.

End Claims.

(** ** Concrete runs with the reference library *)

Section Examples.
#[local] Existing Instance RefLib.lib.

Ltac typed_now :=
  exists []; eexists; split; [reflexivity|];
  split; [constructor|]; split; [reflexivity | discriminate].

Ltac first_record_now :=
  split; [reflexivity|]; split; [constructor|]; split; [reflexivity|];
  split; eexists; reflexivity.

Lemma fresh_nil roll : fresh roll [].
Proof. split; [constructor | apply not_elem_of_nil]. Qed.

(** C1 at the first step of the scenario. *)
Lemma add_then_find_witness :
  let w := World [] no_file ["101"; "Alice"; "a"; "15"] [] in
  exists i,
    (add_student ;;; search_by_roll "101") w
    = (Ok (Some i), snd (add_student w)) /\
    students (snd (add_student w)) !! i
    = Some (mk_student "101" "Alice" "A" "15").
Proof.
  destruct (add_then_find (World [] no_file ["101"; "Alice"; "a"; "15"] [])
              "101" "Alice" "a" "15" ["Alice"; "a"; "15"] ["a"; "15"] [])
    as (i & _ & Hl & Hseq);
    [typed_now | typed_now | typed_now | apply fresh_nil |].
  exists i. split; [apply Hseq; reflexivity | exact Hl].
Defined.

(** C1 as stated fails: the record given with grade "a" is not the record
    found. *)
Lemma add_then_find_counterexample :
  let w := World [] no_file ["101"; "Alice"; "a"; "15"] [] in
  let r := mk_student "101" "Alice" "a" "15" in
  fresh "101" (students w) /\
  ~ (exists i w',
        (add_student ;;; search_by_roll "101") w = (Ok (Some i), w') /\
        students w' !! i = Some r).
Proof.
  split; [apply fresh_nil|].
  intros (i & w' & E & Hl). vm_compute in E. injection E as <- <-.
  vm_compute in Hl. discriminate.
Qed.

(** C2: all three answers blank, and the age "15" is lost. *)
Lemma update_blank_clears_age_witness :
  let w := World [alice] no_file ["101"; ""; ""; ""] [] in
  exists w' d',
    update_student w = (Ok tt, w') /\
    students w' = [PDict d'] /\
    dict_get "name" d' = Some (PStr "Alice") /\
    dict_get "grade" d' = Some (PStr "A") /\
    dict_get "age" d' = Some (PStr "").
Proof.
  destruct (update_blank_clears_age (World [alice] no_file ["101"; ""; ""; ""] [])
              "101" [] (student_fields "101" "Alice" "A" "15") [] "" "" "" [])
    as (w' & d' & E & Hl & Hn & Hg & Ha & Hok);
    [first_record_now | typed_now | reflexivity | reflexivity |].
  exists w', d'. split; [|done].
  apply Hok. pose proof (f_equal snd E) as Hw. vm_compute in Hw. subst w'.
  injection Hl as <-. reflexivity.
Defined.

(** C3 (amended) with a new name, a blank grade and a new age. *)
Lemma update_blank_grade_keeps_grade_witness :
  let w := World [alice] no_file ["101"; "Bob"; "  "; "16"] [] in
  exists d',
    fst (update_student w) = Ok tt /\
    students (snd (update_student w)) = [PDict d'] /\
    dict_get "grade" d' = Some (PStr "A") /\
    dict_get "name" d' = Some (PStr "Bob") /\
    dict_get "age" d' = Some (PStr "16") /\
    fs (snd (update_student w)) = fst (store [PDict d'] no_file).
Proof.
  destruct (update_blank_grade_keeps_grade
              (World [alice] no_file ["101"; "Bob"; "  "; "16"] [])
              "101" [] (student_fields "101" "Alice" "A" "15") [] "Bob" "  " "16" [])
    as (d' & Hl & Hg & Hn & Ha & Hfs & Hok);
    [first_record_now | typed_now | reflexivity |].
  exists d'. split; [|repeat split; try done; by apply Ha].
  apply Hok. simpl in Hl. injection Hl as <-. reflexivity.
Defined.

(** C3 as stated fails: the grade answer is empty after trimming, yet the
    name and the age change and the collection is written to the file. *)
Lemma update_blank_grade_counterexample :
  let w := World [alice] no_file ["101"; "Bob"; "  "; "16"] [] in
  let w' := snd (update_student w) in
  validate_grade (strip "  ") = false /\
  students w !! 0 = Some (mk_student "101" "Alice" "A" "15") /\
  students w' !! 0 = Some (mk_student "101" "Bob" "A" "16") /\
  data_file (fs w) = Missing /\
  data_file (fs w') = Present true (json_dumps (PList (students w'))).
Proof. vm_compute. repeat split. Qed.

(** C4 on a collection that already holds roll number 101. *)
Lemma add_duplicate_rejected_witness :
  let w := World [alice] no_file ["101"; "Alicia"; "b"; "17"] [] in
  students (snd (add_student w)) = students w /\
  fs (snd (add_student w)) = fs w /\
  (keyed (students w) ->
   fst (add_student w) = Ok tt /\
   last (stdout (snd (add_student w))) = Some (Say MsgDuplicate)).
Proof.
  refine (add_duplicate_rejected
            (World [alice] no_file ["101"; "Alicia"; "b"; "17"] [])
            "101" ["Alicia"; "b"; "17"] alice _ _ _);
    [typed_now | apply list_elem_of_here | reflexivity].
Defined.

(** C5 on a collection of two records. *)
Lemma delete_then_find_witness :
  let w := World [alice; bob] no_file ["101"; "Y"] [] in
  (delete_student ;;; search_by_roll "101") w
  = (Ok None, snd (delete_student w)) /\
  S (length (students (snd (delete_student w)))) = length (students w).
Proof.
  destruct (delete_then_find (World [alice; bob] no_file ["101"; "Y"] [])
              "101" "Y" []) as (_ & Hlen & Hseq).
  - repeat constructor.
  - unfold unique_rolls. cbn. apply NoDup_cons. split.
    + rewrite list_elem_of_singleton. discriminate.
    + apply NoDup_singleton.
  - apply list_elem_of_here.
  - typed_now.
  - reflexivity.
  - split; [apply Hseq; reflexivity | exact Hlen].
Defined.




(** With the reference library the round trip holds for every collection of
    student records whose text can be encoded. *)
Lemma save_then_load_students w :
  Forall is_student (students w) ->
  RefLib.decodable (json_dumps (PList (students w))) = true ->
  fault (fs w) = NoFault ->
  (forall text, data_file (fs w) <> Present false text) ->
  exists w1,
    save_data w = (Ok tt, w1) /\ students w1 = students w /\
    stdout w1 = stdout w /\
    forall memory lines scr,
      load_data (World memory (fs w1) lines scr)
      = (Ok (students w), World memory (fs w1) lines scr).
Proof.
  intros Hall Hdec Hfault Hread. apply save_data_load_data; [done | | done |].
  - by apply RefLibFacts.dump_error_none.
  - by apply RefLibFacts.loads_dumps_students.
Qed.

(** C8: an add that succeeds and an add that is rejected. *)
Lemma uniqueness_invariant_witness :
  unique_rolls
    (students (snd (run OpAdd (World [alice] no_file ["102"; "Bob"; "b"; "16"] [])))) /\
  students (snd (add_student (World [alice] no_file ["101"; "Al"; "c"; ""] [])))
  = [alice].
Proof.
  split.
  - refine (proj1 uniqueness_invariant OpAdd
              (World [alice] no_file ["102"; "Bob"; "b"; "16"] []) _).
    unfold unique_rolls. cbn. apply NoDup_singleton.
  - refine (proj1 (proj2 uniqueness_invariant)
              (World [alice] no_file ["101"; "Al"; "c"; ""] [])
              "101" ["Al"; "c"; ""] alice _ _ _);
      [typed_now | apply list_elem_of_here | reflexivity].
Defined.

(** C9: grade "a" is stored as "A" by add, grade "b" as "B" by update. *)
Lemma grade_stored_upper_case_witness :
  (let w := World [] no_file ["101"; "Alice"; "a"; "15"] [] in
   exists i s,
     search_by_roll "101" (snd (add_student w))
     = (Ok (Some i), snd (add_student w)) /\
     students (snd (add_student w)) !! i = Some s /\
     field "grade" s = Some (PStr "A")) /\
  (let w := World [alice] no_file ["101"; ""; "b"; "15"] [] in
   exists d',
     students (snd (update_student w)) = [PDict d'] /\
     dict_get "roll_no" d' = Some (PStr "101") /\
     dict_get "grade" d' = Some (PStr "B")).
Proof.
  split.
  - refine (proj1 grade_stored_upper_case
              (World [] no_file ["101"; "Alice"; "a"; "15"] [])
              "101" "Alice" "a" "15" ["Alice"; "a"; "15"] ["a"; "15"] [] _ _ _ _);
      [typed_now | typed_now | typed_now | apply fresh_nil].
  - refine (proj2 grade_stored_upper_case
              (World [alice] no_file ["101"; ""; "b"; "15"] [])
              "101" [] (student_fields "101" "Alice" "A" "15") [] "" "b" "15" []
              _ _ _);
      [first_record_now | typed_now | discriminate].
Defined.

(** C10: a file whose second element is an object without "roll_no". *)
Lemma search_by_roll_partial_witness :
  let text := json_dumps (PList [alice; PDict [("name", PStr "Bob")]; PInt 7]) in
  exists w1,
    startup (World [] (file_with text) ["102"] []) = (Ok tt, w1) /\
    students w1 = [alice; PDict [("name", PStr "Bob")]; PInt 7] /\
    fst (search_by_roll "102" w1) = Raise (KeyError "roll_no") /\
    fst (search_student w1) = Raise (KeyError "roll_no") /\
    fst (update_student w1) = Raise (KeyError "roll_no") /\
    fst (delete_student w1) = Raise (KeyError "roll_no").
Proof.
  refine (proj2 search_by_roll_partial
           (World [] (file_with (json_dumps
              (PList [alice; PDict [("name", PStr "Bob")]; PInt 7]))) ["102"] [])
           (json_dumps (PList [alice; PDict [("name", PStr "Bob")]; PInt 7]))
           [alice; PDict [("name", PStr "Bob")]; PInt 7]
           "102" [alice] (PDict [("name", PStr "Bob")]) [PInt 7] [] _ _ _ _ _ _);
    [reflexivity | reflexivity | reflexivity | | reflexivity | typed_now].
  constructor; [|constructor]. exists (PStr "101"). split; [reflexivity | discriminate].
Defined.

(** A file holding an array with an element that is not an object. *)
Example search_non_object :
  json_loads "[1]" = Some (PList [PInt 1]) /\
  fst ((startup ;;; search_by_roll "101") (World [] (file_with "[1]") [] []))
  = Raise TypeError.
Proof. vm_compute. split; reflexivity. Qed.

(** Outside the uniqueness invariant (a file edited by hand), deleting removes
    only the first record with the roll number: the search finds the next. *)
Example delete_with_duplicates :
  let twin := mk_student "101" "Alicia" "C" "17" in
  let w := World [alice; twin] no_file ["101"; "y"] [] in
  (delete_student ;;; search_by_roll "101") w
  = (Ok (Some 0), snd (delete_student w)) /\
  students (snd (delete_student w)) = [twin].
Proof. vm_compute. split; reflexivity. Qed.

(** The scenario of the specification, run from an empty collection. *)
Example scenario :
  let w0 := World [] no_file
              ["101"; "Alice"; "a"; "15";      (* add *)
               "101";                          (* search *)
               "101"; ""; ""; "16";            (* update the age *)
               "101"; "y";                     (* delete *)
               "101"] [] in                    (* search again *)
  let w1 := snd (add_student w0) in
  let w2 := snd (search_student w1) in
  let w3 := snd (update_student w2) in
  let w4 := snd (delete_student w3) in
  students w1 = [mk_student "101" "Alice" "A" "15"] /\
  search_from "101" 0 (students w2) = Ok (Some 0) /\
  students w3 = [mk_student "101" "Alice" "A" "16"] /\
  students w4 = [] /\
  search_from "101" 0 (students w4) = Ok None /\
  fst ((save_data ;;; load_data) w4) = Ok [].
Proof. vm_compute. repeat split. Qed.

End Examples.

(** ** The rest of the program: what every operation guarantees, and whole
       sessions of the menu loop *)

Section Behaviour.
Context `{PyLib}.

Lemma typed_length v lines rest : typed v lines rest -> length rest < length lines.
Proof.
  intros (blanks & line & -> & _). rewrite length_app. simpl. lia.
Qed.

Lemma calm_say m :
  m <> MsgInvalidGradeAdd -> m <> MsgInvalidGradeUpdate -> calm (Say m).
Proof. intros H1 H2. split; congruence. Qed.

Lemma calm_ask p : calm (Ask p).
Proof. split; discriminate. Qed.

Lemma after_save_calm how m :
  m <> MsgInvalidGradeAdd -> m <> MsgInvalidGradeUpdate ->
  Forall calm (after_save how m).
Proof.
  intros H1 H2. destruct how; simpl; repeat constructor;
    (by apply calm_say) || discriminate.
Qed.

Ltac calm_now :=
  repeat first
    [ assumption
    | apply Forall_nil
    | apply Forall_app; split
    | apply Forall_cons; split
    | apply calm_ask
    | apply calm_say; discriminate
    | apply after_save_calm; discriminate
    | split; discriminate ].

(** Outcome of the prompt loop: the first line that is not blank, stripped;
    or [EOFError] when every pending line is blank. *)
Lemma prompt_nonempty_loop_outcome label lines w :
  stdin w = lines ->
  exists r lines' new,
    prompt_nonempty_loop label lines w
    = (r, World (students w) (fs w) lines' (stdout w ++ new)) /\
    Forall calm new /\
    match r with
    | Ok v => typed v lines lines'
    | Raise e =>
        e = EOFError /\ lines' = [] /\ Forall (fun l => strip l = "") lines
    end.
Proof.
  revert w. induction lines as [|line rest IH]; intros w Hw; simpl.
  - exists (Raise EOFError), [], [Ask label]. unfold emit. rewrite Hw.
    repeat split; [calm_now | constructor].
  - destruct (nonempty (strip line)) eqn:Hn.
    + exists (Ok (strip line)), rest, [Ask label]. repeat split; [calm_now|].
      exists [], line. apply nonempty_true in Hn. repeat split; auto.
    + apply Bool.negb_false_iff, String.eqb_eq in Hn.
      destruct (IH (emit (Say MsgFieldEmpty) (with_stdin rest (emit (Ask label) w))))
        as (r & lines' & new & E & Hc & Hr); [done|].
      exists r, lines', ([Ask label; Say MsgFieldEmpty] ++ new).
      rewrite E. simpl. rewrite <- !app_assoc. simpl. repeat split; [calm_now|].
      destruct r as [v|e].
      * destruct Hr as (blanks & l & -> & Hb & Hv & Hne).
        exists (line :: blanks), l. repeat split; auto.
      * destruct Hr as (-> & -> & Hb). repeat split; auto.
Qed.

Lemma prompt_nonempty_outcome label l dk lines out :
  exists r lines' new,
    prompt_nonempty label (World l dk lines out)
    = (r, World l dk lines' (out ++ new)) /\
    Forall calm new /\
    match r with
    | Ok v => typed v lines lines'
    | Raise e =>
        e = EOFError /\ lines' = [] /\ Forall (fun l => strip l = "") lines
    end.
Proof.
  apply (prompt_nonempty_loop_outcome label lines (World l dk lines out) eq_refl).
Qed.

(** *** The table *)

Lemma print_row_printable s l dk lines scr :
  printable s = true ->
  print_row s (World l dk lines scr) = (Ok tt, World l dk lines (scr ++ [row_of s])).
Proof.
  destruct s as [| | | | |d]; try discriminate. unfold printable, row_of, cell.
  intros Hp. apply andb_prop in Hp as [Hp Ha]. apply andb_prop in Hp as [Hp Hg].
  apply andb_prop in Hp as [Hr Hn].
  unfold print_row, bind, lift, format_cell, py_get, out, ret.
  destruct (dict_get "roll_no" d), (dict_get "name" d), (dict_get "grade" d),
    (dict_get "age" d); simpl in *; rewrite ?Hr, ?Hn, ?Hg, ?Ha; reflexivity.
Qed.

Lemma print_row_outcome s l dk lines scr :
  exists r new,
    print_row s (World l dk lines scr) = (r, World l dk lines (scr ++ new)) /\
    Forall calm new.
Proof.
  unfold print_row, bind, lift, format_cell, py_get, out, ret, raise.
  destruct s as [| | | | |d]; simpl;
    try (exists (Raise AttributeError), []; by rewrite app_nil_r).
  repeat match goal with
         | |- context [dict_get ?k d] => destruct (dict_get k d)
         end;
    repeat match goal with
           | |- context [formattable ?v] => destruct (formattable v)
           end;
    simpl;
    first [ eexists _, []; split; [by rewrite app_nil_r | calm_now]
          | eexists _, [_]; split; [reflexivity | calm_now] ].
Qed.

Lemma print_rows_printable records l dk lines scr :
  Forall (fun s => printable s = true) records ->
  print_rows records (World l dk lines scr)
  = (Ok tt, World l dk lines (scr ++ (row_of <$> records))).
Proof.
  intros Hall. revert scr.
  induction Hall as [|s records Hs _ IH]; intros scr; simpl.
  - by rewrite app_nil_r.
  - erewrite bind_ok by (by apply print_row_printable).
    rewrite IH. by rewrite <- app_assoc.
Qed.

Lemma print_rows_outcome records l dk lines scr :
  exists r new,
    print_rows records (World l dk lines scr) = (r, World l dk lines (scr ++ new)) /\
    Forall calm new.
Proof.
  revert scr. induction records as [|s records IH]; intros scr; simpl.
  - exists (Ok tt), []. by rewrite app_nil_r.
  - destruct (print_row_outcome s l dk lines scr) as ([[]|e] & n1 & E1 & Hc1).
    + erewrite bind_ok by apply E1.
      destruct (IH (scr ++ n1)) as (r & n2 & E2 & Hc2).
      exists r, (n1 ++ n2). rewrite E2, <- app_assoc. split; [done | calm_now].
    + erewrite bind_raise by apply E1. exists (Raise e), n1. done.
Qed.

Lemma print_table_printable records l dk lines scr :
  Forall (fun s => printable s = true) records ->
  print_table records (World l dk lines scr)
  = (Ok tt, World l dk lines (scr ++ table records)).
Proof.
  intros Hall. unfold print_table, table.
  destruct records as [|s records]; [reflexivity|].
  cbn [py_truthy length Nat.eqb negb].
  step reflexivity. step reflexivity. step reflexivity.
  step (by apply print_rows_printable).
  unfold out. tidy. by rewrite <- !app_assoc.
Qed.

Lemma table_calm records : Forall calm (table records).
Proof.
  unfold table. destruct records as [|s records]; [calm_now|].
  apply Forall_app. split; [calm_now|].
  apply Forall_app. split; [|calm_now].
  apply Forall_fmap, Forall_true. intros x. split; discriminate.
Qed.

Lemma print_table_outcome records l dk lines scr :
  exists r new,
    print_table records (World l dk lines scr) = (r, World l dk lines (scr ++ new)) /\
    Forall calm new /\
    (Forall (fun s => printable s = true) records -> r = Ok tt).
Proof.
  destruct (decide (Forall (fun s => printable s = true) records)) as [Hall|Hn].
  - exists (Ok tt), (table records). split; [by apply print_table_printable|].
    split; [apply table_calm | done].
  - unfold print_table. destruct records as [|s records].
    + destruct Hn. constructor.
    + cbn [py_truthy length Nat.eqb negb].
      step reflexivity. step reflexivity. step reflexivity.
      destruct (print_rows_outcome (s :: records) l dk lines
                  (((scr ++ [BlankLine]) ++ [TableHeader]) ++ [TableRule]))
        as ([[]|e] & n1 & E1 & Hc1).
      * step (apply E1). unfold out. tidy. rewrite <- !app_assoc.
        eexists _, _. split; [reflexivity|]. split; [|done]. simpl. calm_now.
      * erewrite bind_raise by apply E1. rewrite <- !app_assoc.
        eexists _, _. split; [reflexivity|]. split; [|done]. simpl. calm_now.
Qed.


(** *** Every operation is well behaved *)

Lemma store_fault l dk : fault (fst (store l dk)) = fault dk.
Proof.
  unfold store. destruct (fault dk) eqn:E; try done.
  by destruct (dump_error (PList l)) as [[f n]|].
Qed.

Lemma save_data_outcome l dk lines scr :
  exists new,
    save_data (World l dk lines scr)
    = (ended (snd (store l dk)), World l (fst (store l dk)) lines (scr ++ new)) /\
    Forall calm new.
Proof.
  rewrite save_data_run. eexists. split; [reflexivity|].
  destruct (snd (store l dk)); calm_now.
Qed.

(** What the write raises is not the end of the input. *)
Lemma escaped_not_eof l dk e : snd (store l dk) = Escaped e -> e <> EOFError.
Proof.
  intros Hs. apply store_escaped in Hs as (_ & f & n & _ & ->). by destruct f.
Qed.

Lemma escaped_write_failure l dk e :
  snd (store l dk) = Escaped e -> write_failure e.
Proof.
  intros Hs. apply store_escaped in Hs as (_ & f & n & Hd & ->).
  exists l, f, n. done.
Qed.

Lemma wb_same l dk lines scr r lines' new :
  length lines' <= length lines -> Forall calm new ->
  (sound l -> r = Ok tt \/ (r = Raise EOFError /\ lines' = [])) ->
  well_behaved (World l dk lines scr) r (World l dk lines' (scr ++ new)).
Proof.
  intros Hlen Hc Hr. unfold well_behaved. simpl.
  split; [done|]. split; [done|]. split; [eauto|]. split; [by left|].
  intros Hs. split; [done|]. destruct (Hr Hs) as [Hok|Heof]; auto.
Qed.

Lemma wb_saved l dk lines scr l' lines' new :
  length lines' <= length lines -> Forall calm new ->
  (sound l -> sound l') ->
  well_behaved (World l dk lines scr) (ended (snd (store l' dk)))
    (World l' (fst (store l' dk)) lines' (scr ++ new)).
Proof.
  intros Hlen Hc Hs. unfold well_behaved. simpl.
  split; [done|]. split; [apply store_fault|]. split; [eauto|].
  split; [by right|]. intros Hl. split; [auto|].
  destruct (snd (store l' dk)) as [| |e]; simpl; eauto.
Qed.

Lemma sound_lookup l i s :
  sound l -> l !! i = Some s ->
  exists d, s = PDict d /\ is_Some (dict_get "name" d) /\
            is_Some (dict_get "grade" d) /\ printable s = true.
Proof.
  intros Hs Hl. pose proof (Forall_lookup_1 _ _ _ _ Hs Hl) as Hx. simpl in Hx.
  apply andb_prop in Hx as [Hr Hp]. unfold is_record in Hr.
  destruct s as [| | | | |d]; try discriminate. simpl in Hr.
  exists d. destruct (dict_get "roll_no" d) as [[]|]; try discriminate.
  destruct (dict_get "name" d); [|discriminate].
  destruct (dict_get "grade" d); [|discriminate]. eauto.
Qed.

Lemma sound_records l : sound l -> records l.
Proof.
  intros Hs. eapply Forall_impl; [exact Hs|]. simpl.
  intros s Hx. by apply andb_prop in Hx as [Hr _].
Qed.

Lemma sound_printable l : sound l -> Forall (fun s => printable s = true) l.
Proof.
  intros Hs. eapply Forall_impl; [exact Hs|]. simpl.
  intros s Hx. by apply andb_prop in Hx as [_ Hp].
Qed.

Lemma sound_search roll l e : sound l -> search_from roll 0 l <> Raise e.
Proof.
  intros Hs Hr.
  destruct (search_from_keyed roll 0 l (records_keyed l (sound_records l Hs))) as [r E].
  congruence.
Qed.

Lemma sound_snoc l roll name grade age :
  sound l -> sound (l ++ [mk_student roll name grade age]).
Proof. intros Hs. apply Forall_app. split; [done|]. by constructor. Qed.

Lemma sound_updated l i d n g a :
  sound l -> l !! i = Some (PDict d) ->
  sound (<[i := PDict (updated d n g a)]> l).
Proof.
  intros Hs Hl. apply Forall_insert; [done|].
  pose proof (Forall_lookup_1 _ _ _ _ Hs Hl) as Hx. simpl in Hx.
  apply andb_prop in Hx as [Hr Hp]. apply andb_true_intro. split.
  - unfold is_record in *. simpl in *.
    rewrite updated_roll, updated_name, updated_grade.
    destruct (dict_get "roll_no" d) as [[]|]; try discriminate.
    destruct (dict_get "name" d); [|discriminate].
    destruct (dict_get "grade" d); [|discriminate].
    by destruct (nonempty n), (nonempty g).
  - unfold printable, cell in *.
    rewrite updated_roll, updated_name, updated_grade, updated_age.
    apply andb_prop in Hp as [Hp Ha]. apply andb_prop in Hp as [Hp Hg].
    apply andb_prop in Hp as [Hro Hn]. rewrite Hro. simpl.
    destruct (nonempty n), (nonempty g); simpl; rewrite ?Hn, ?Hg; done.
Qed.

Lemma Forall_sublist_of {A} (P : A -> Prop) (l1 l2 : list A) :
  l1 `sublist_of` l2 -> Forall P l2 -> Forall P l1.
Proof.
  induction 1 as [|x l1 l2 _ IH|x l1 l2 _ IH]; intros Hall; [done| |];
    inversion Hall; subst; [constructor|]; auto.
Qed.

Lemma list_remove_total i s l :
  l !! i = Some s -> exists l', list_remove i s l = Ok l'.
Proof.
  revert i. induction l as [|x l IH]; intros i Hl; [done|]. simpl.
  destruct i as [|i]; simpl; [eauto|].
  destruct (py_eq x s); [eauto|].
  destruct (IH i Hl) as [l' ->]. eauto.
Qed.

Lemma getitem_raise i k v e l dk lines scr :
  l !! i = Some v -> py_getitem v k = Raise e ->
  getitem i k (World l dk lines scr) = (Raise e, World l dk lines scr).
Proof. intros Hl Hg. unfold getitem, bind, deref, lift. simpl. by rewrite Hl, Hg. Qed.

Ltac lengths :=
  repeat match goal with
         | H : typed _ _ _ |- _ => apply typed_length in H
         end;
  simpl in *; lia.

Ltac leaf_same :=
  rewrite <- ?app_assoc;
  apply wb_same; [lengths | calm_now | try (by auto)].

Lemma add_student_well_behaved w :
  well_behaved w (fst (add_student w)) (snd (add_student w)).
Proof.
  destruct w as [l dk lines scr]. unfold add_student.
  step reflexivity.
  destruct (prompt_nonempty_outcome AskRoll l dk lines (scr ++ [Say MsgAddHeader]))
    as ([roll|e] & lines1 & n1 & E1 & Hc1 & R1).
  2: { erewrite bind_raise by apply E1. destruct R1 as (-> & -> & _).
       simpl. leaf_same. }
  step (apply E1). clear E1.
  destruct (search_from roll 0 l) as [[i|]|e] eqn:Hs.
  - step (apply search_by_roll_run, Hs).
    destruct (search_from_in_range _ _ _ Hs) as (v & Hv & _ & Ht).
    step (by apply is_true_run). rewrite Ht. unfold say. tidy. simpl. leaf_same.
  - step (apply search_by_roll_run, Hs). step reflexivity.
    destruct (prompt_nonempty_outcome AskName l dk lines1
                ((scr ++ [Say MsgAddHeader]) ++ n1))
      as ([name|e] & lines2 & n2 & E2 & Hc2 & R2).
    2: { erewrite bind_raise by apply E2. destruct R2 as (-> & -> & _).
         simpl. leaf_same. }
    step (apply E2). clear E2.
    destruct (prompt_nonempty_outcome AskGrade l dk lines2
                (((scr ++ [Say MsgAddHeader]) ++ n1) ++ n2))
      as ([grade|e] & lines3 & n3 & E3 & Hc3 & R3).
    2: { erewrite bind_raise by apply E3. destruct R3 as (-> & -> & _).
         simpl. leaf_same. }
    step (apply E3). clear E3.
    assert (Hg : nonempty grade = true).
    { destruct R3 as (? & ? & _ & _ & _ & Hne). by apply nonempty_true. }
    rewrite validate_grade_nonempty, Hg. cbn [negb].
    destruct lines3 as [|age_line lines4].
    { erewrite bind_raise by reflexivity. tidy. simpl. leaf_same. }
    step reflexivity. step reflexivity.
    rewrite save_say_run. cbn [fst snd].
    rewrite <- ?app_assoc. apply wb_saved; [lengths | calm_now |].
    apply sound_snoc.
  - erewrite bind_raise; [|by apply search_by_roll_raise]. simpl.
    rewrite <- ?app_assoc. apply wb_same; [lengths | calm_now |].
    intros Hsound. by destruct (sound_search roll l e).
Qed.


Ltac leaf_crash Hcontra :=
  rewrite <- ?app_assoc;
  apply wb_same; [lengths | calm_now | intros Hsound; exfalso; Hcontra Hsound].

Lemma view_students_well_behaved w :
  well_behaved w (fst (view_students w)) (snd (view_students w)).
Proof.
  destruct w as [l dk lines scr]. unfold view_students.
  step reflexivity. step reflexivity.
  destruct (print_table_outcome l l dk lines (scr ++ [Say MsgViewHeader]))
    as (r & n1 & E1 & Hc1 & R1).
  rewrite E1. simpl. rewrite <- ?app_assoc.
  apply wb_same; [lengths | calm_now |].
  intros Hs. left. by apply R1, sound_printable.
Qed.

Lemma search_student_well_behaved w :
  well_behaved w (fst (search_student w)) (snd (search_student w)).
Proof.
  destruct w as [l dk lines scr]. unfold search_student.
  step reflexivity.
  destruct (prompt_nonempty_outcome AskRollSearch l dk lines
              (scr ++ [Say MsgSearchHeader]))
    as ([roll|e] & lines1 & n1 & E1 & Hc1 & R1).
  2: { erewrite bind_raise by apply E1. destruct R1 as (-> & -> & _).
       simpl. leaf_same. }
  step (apply E1). clear E1.
  destruct (search_from roll 0 l) as [[i|]|e] eqn:Hs.
  - step (apply search_by_roll_run, Hs).
    destruct (search_from_in_range _ _ _ Hs) as (v & Hv & _ & Ht).
    step (by apply is_true_run). rewrite Ht.
    step reflexivity.
    erewrite bind_ok; [|unfold deref; simpl; rewrite Hv; reflexivity].
    match goal with
    | |- context [print_table _ (World ?l' ?dk' ?li ?o)] =>
        destruct (print_table_outcome [v] l' dk' li o) as (r & n2 & E2 & Hc2 & R2)
    end.
    rewrite E2. simpl. rewrite <- ?app_assoc.
    apply wb_same; [lengths | calm_now |].
    intros Hsd. left. apply R2. constructor; [|constructor].
    by destruct (sound_lookup l i v Hsd Hv) as (d & _ & _ & _ & Hp).
  - step (apply search_by_roll_run, Hs). step reflexivity.
    unfold say. tidy. simpl. leaf_same.
  - erewrite bind_raise; [|by apply search_by_roll_raise]. simpl.
    leaf_crash ltac:(fun Hsd => by destruct (sound_search roll l e Hsd)).
Qed.

Lemma update_student_well_behaved w :
  well_behaved w (fst (update_student w)) (snd (update_student w)).
Proof.
  destruct w as [l dk lines scr]. unfold update_student.
  step reflexivity.
  destruct (prompt_nonempty_outcome AskRollUpdate l dk lines
              (scr ++ [Say MsgUpdateHeader]))
    as ([roll|e] & lines1 & n1 & E1 & Hc1 & R1).
  2: { erewrite bind_raise by apply E1. destruct R1 as (-> & -> & _).
       simpl. leaf_same. }
  step (apply E1). clear E1.
  destruct (search_from roll 0 l) as [[i|]|e] eqn:Hs.
  - step (apply search_by_roll_run, Hs).
    destruct (search_from_in_range _ _ _ Hs) as (v & Hv & Hr & Ht).
    step (by apply is_true_run). rewrite Ht.
    step reflexivity.
    destruct v as [| | | | |d]; try discriminate. simpl in Hr.
    assert (Hi : i < length l) by (by eapply lookup_lt_Some).
    destruct (dict_get "name" d) as [n0|] eqn:Hn0.
    2: { erewrite bind_raise;
           [|eapply getitem_raise; [exact Hv | simpl; by rewrite Hn0]].
         simpl.
         leaf_crash ltac:(fun Hsd =>
           destruct (sound_lookup l i _ Hsd Hv) as (d' & [= <-] & [? Hx] & _);
           congruence). }
    step (eapply getitem_run; [exact Hv | simpl; by rewrite Hn0]).
    destruct lines1 as [|name_line lines2].
    { erewrite bind_raise by reflexivity. tidy. simpl. leaf_same. }
    step reflexivity.
    destruct (dict_get "grade" d) as [g0|] eqn:Hg0.
    2: { erewrite bind_raise;
           [|eapply getitem_raise; [exact Hv | simpl; by rewrite Hg0]].
         simpl.
         leaf_crash ltac:(fun Hsd =>
           destruct (sound_lookup l i _ Hsd Hv) as (d' & [= <-] & _ & [? Hx] & _);
           congruence). }
    step (eapply getitem_run; [exact Hv | simpl; by rewrite Hg0]).
    destruct lines2 as [|grade_line lines3].
    { erewrite bind_raise by reflexivity. tidy. simpl. leaf_same. }
    step reflexivity.
    edestruct (get_or_empty_run i "age" d l dk) as [a0 Ea]; [exact Hv|].
    step (apply Ea). clear Ea.
    destruct lines3 as [|age_line lines4].
    { erewrite bind_raise by reflexivity. tidy. simpl. leaf_same. }
    step reflexivity.
    step (by apply maybe_setitem_run).
    set (d1 := if nonempty (strip name_line) then _ else d).
    assert (Hl1 : <[i := PDict d1]> l !! i = Some (PDict d1))
      by (by apply list_lookup_insert_eq).
    rewrite age_condition.
    set (l' := <[i := PDict (updated d (strip name_line) (strip grade_line)
                               (strip age_line))]> l).
    assert (Hfin : forall d2 o new0,
      l' = <[i := PDict (dict_set "age" (PStr (strip age_line)) d2)]> l ->
      Forall calm new0 -> o = scr ++ new0 ->
      let m := bind (setitem i "age" (PStr (strip age_line)))
                 (fun _ => bind save_data (fun _ => say MsgUpdated)) in
      well_behaved (World l dk (name_line :: grade_line :: age_line :: lines4) scr)
        (fst (m (World (<[i := PDict d2]> l) dk lines4 o)))
        (snd (m (World (<[i := PDict d2]> l) dk lines4 o)))).
    { intros d2 o new0 Hl' Hc0 -> m. subst m.
      step (apply setitem_run; by apply list_lookup_insert_eq).
      rewrite list_insert_insert_eq, <- Hl'.
      rewrite save_say_run. cbn [fst snd]. rewrite <- ?app_assoc.
      apply wb_saved; [simpl; lia | calm_now |].
      intros Hsd. by apply sound_updated. }
    assert (Hlen : length lines4 + 3 <= length lines).
    { apply typed_length in R1. simpl in R1. lia. }
    assert (Hwiden : forall r w',
      well_behaved (World l dk (name_line :: grade_line :: age_line :: lines4) scr)
        r w' ->
      well_behaved (World l dk lines scr) r w').
    { intros r w' (H1 & H2 & H3 & H4 & H5). unfold well_behaved in *.
      simpl in *. repeat split; auto; try lia; by apply H5. }
    apply Hwiden.
    destruct (nonempty (strip grade_line)) eqn:Hg.
    + rewrite validate_grade_nonempty, Hg. cbn [negb].
      step (apply setitem_run, Hl1).
      rewrite list_insert_insert_eq.
      eapply Hfin; [|shelve|rewrite <- ?app_assoc; reflexivity].
      subst l' d1. unfold updated. by rewrite Hg.
    + eapply Hfin; [|shelve|rewrite <- ?app_assoc; reflexivity].
      subst l' d1. unfold updated. by rewrite Hg.
    Unshelve. all: simpl; calm_now.
  - step (apply search_by_roll_run, Hs). step reflexivity.
    unfold say. tidy. simpl. leaf_same.
  - erewrite bind_raise; [|by apply search_by_roll_raise]. simpl.
    leaf_crash ltac:(fun Hsd => by destruct (sound_search roll l e Hsd)).
Qed.


Lemma delete_student_well_behaved w :
  well_behaved w (fst (delete_student w)) (snd (delete_student w)).
Proof.
  destruct w as [l dk lines scr]. unfold delete_student.
  step reflexivity.
  destruct (prompt_nonempty_outcome AskRollDelete l dk lines
              (scr ++ [Say MsgDeleteHeader]))
    as ([roll|e] & lines1 & n1 & E1 & Hc1 & R1).
  2: { erewrite bind_raise by apply E1. destruct R1 as (-> & -> & _).
       simpl. leaf_same. }
  step (apply E1). clear E1.
  destruct (search_from roll 0 l) as [[i|]|e] eqn:Hs.
  - step (apply search_by_roll_run, Hs).
    destruct (search_from_in_range _ _ _ Hs) as (v & Hv & Hr & Ht).
    step (by apply is_true_run). rewrite Ht.
    destruct v as [| | | | |d]; try discriminate. simpl in Hr.
    destruct (dict_get "name" d) as [n0|] eqn:Hn0.
    2: { erewrite bind_raise;
           [|eapply getitem_raise; [exact Hv | simpl; by rewrite Hn0]].
         simpl.
         leaf_crash ltac:(fun Hsd =>
           destruct (sound_lookup l i _ Hsd Hv) as (d' & [= <-] & [? Hx] & _);
           congruence). }
    step (eapply getitem_run; [exact Hv | simpl; by rewrite Hn0]).
    step (eapply getitem_run; [exact Hv | simpl; by rewrite Hr]).
    destruct lines1 as [|confirm lines2].
    { erewrite bind_raise by reflexivity. tidy. simpl. leaf_same. }
    step reflexivity.
    destruct (String.eqb (lower (strip confirm)) "y").
    + destruct (list_remove_total i _ l Hv) as [l' Hrm].
      step (eapply remove_run; [exact Hv | exact Hrm]).
      rewrite save_say_run. cbn [fst snd]. rewrite <- ?app_assoc.
      apply wb_saved; [lengths | calm_now |].
      intros Hsd. eapply Forall_sublist_of; [|exact Hsd].
      by eapply list_remove_sublist.
    + unfold say. tidy. simpl. leaf_same.
  - step (apply search_by_roll_run, Hs). step reflexivity.
    unfold say. tidy. simpl. leaf_same.
  - erewrite bind_raise; [|by apply search_by_roll_raise]. simpl.
    leaf_crash ltac:(fun Hsd => by destruct (sound_search roll l e Hsd)).
Qed.

Lemma run_well_behaved op w : well_behaved w (fst (run op w)) (snd (run op w)).
Proof.
  destruct op; simpl.
  - apply add_student_well_behaved.
  - apply view_students_well_behaved.
  - apply search_student_well_behaved.
  - apply update_student_well_behaved.
  - apply delete_student_well_behaved.
Qed.


(** *** The menu loop *)

Lemma main_bind_ok {A B} (m : Main A) (k : A -> Main B) s a s' :
  m s = (Ok a, s') -> main_bind m k s = k a s'.
Proof. unfold main_bind. by intros ->. Qed.

Lemma main_bind_raise {A B} (m : Main A) (k : A -> Main B) s e s' :
  m s = (Raise e, s') -> main_bind m k s = (Raise e, s').
Proof. unfold main_bind. by intros ->. Qed.

Lemma call_run {A} (m : M A) s r w' :
  m (state s) = (r, w') -> call m s = (r, Session w' (marks s)).
Proof. unfold call. by intros ->. Qed.

Lemma pause_run s :
  pause s =
  let mk := marks s ++ [(length (stdout (state s)), AskPause)] in
  match stdin (state s) with
  | [] => (Raise EOFError, Session (state s) mk)
  | _ :: rest => (Ok tt, Session (with_stdin rest (state s)) mk)
  end.
Proof. unfold pause, main_bind, ask, main_ret. by destruct (stdin (state s)). Qed.

Lemma menu_body_run w mk :
  menu_body (Session w mk) =
  let mk2 := (mk ++ [(length (stdout w), MenuText)])
               ++ [(length (stdout w), AskChoice)] in
  match stdin w with
  | [] => (Raise EOFError, Session w mk2)
  | line :: rest =>
      let s1 := Session (with_stdin rest w) mk2 in
      let after (op : operation) :=
        main_bind (call (run op))
          (fun _ => main_bind pause (fun _ => main_ret false)) s1 in
      if String.eqb (strip line) "1" then after OpAdd
      else if String.eqb (strip line) "2" then after OpView
      else if String.eqb (strip line) "3" then after OpSearch
      else if String.eqb (strip line) "4" then after OpUpdate
      else if String.eqb (strip line) "5" then after OpDelete
      else if String.eqb (strip line) "6" then
        main_bind (note SayGoodbye)
          (fun _ => main_bind (call save_data) (fun _ => main_ret true)) s1
      else main_bind (note SayInvalidChoice) (fun _ => main_ret false) s1
  end.
Proof.
  unfold menu_body, print_menu. unfold main_bind at 1, note at 1.
  unfold main_bind at 1, ask at 1. cbn [state marks].
  destruct (stdin w) as [|line rest]; [reflexivity|]. cbv zeta.
  repeat (destruct (String.eqb (strip line) _); [reflexivity|]).
  reflexivity.
Qed.

(** [load_data] returns the empty list or the array held by the file, and
    changes nothing but the screen; or it raises what the reader raised and
    changes nothing. *)
Lemma load_data_cases w :
  (exists l new,
     load_data w = (Ok l, World (students w) (fs w) (stdin w) (stdout w ++ new)) /\
     (l = [] \/
      exists text, data_file (fs w) = Present true text /\
                   json_loads text = Some (PList l))) \/
  (exists e, load_data w = (Raise e, w) /\ read_failure (fs w) e).
Proof.
  destruct w as [l0 dk lines scr]. unfold load_data, read_failure. tidy.
  destruct (data_file dk) as [|[|] text] eqn:Ef.
  - left. exists [], []. rewrite app_nil_r. split; [done | by left].
  - destruct (json_loads text) as [[]|] eqn:Ej;
      try (left; eexists [], [_]; split; [reflexivity | by left]).
    + left. exists items, []. rewrite app_nil_r. split; [done|]. right. eauto.
    + destruct (load_error text) as [f|] eqn:El.
      * right. eexists. split; [reflexivity|]. exists text, f. done.
      * left. eexists [], [_]. split; [reflexivity | by left].
  - left. eexists [], [_]. split; [reflexivity | by left].
Qed.

Lemma read_failure_not_eof dk e : read_failure dk e -> e <> EOFError.
Proof. intros (text & f & _ & _ & _ & ->). by destruct f. Qed.

Section Turn.
Variable Inv : world -> Prop.
Hypothesis Inv_input : forall w rest, Inv w -> Inv (with_stdin rest w).
Hypothesis Inv_run : forall op w, Inv w -> Inv (snd (run op w)).
Hypothesis Inv_save : forall w, Inv w -> Inv (snd (save_data w)).

(** The save that ends the loop: it returns, or the exception of the write
    leaves [main]. *)
Lemma closing_save_spec s0 w mk :
  Inv w ->
  let x := main_bind (call save_data) (fun _ => main_ret true) (Session w mk) in
  turn_spec Inv s0 (fst x) (snd x).
Proof.
  intros Hi x. subst x. unfold main_bind, call, main_ret. cbn [state marks].
  pose proof (Inv_save _ Hi) as Hi'. destruct w as [l dk lines scr].
  destruct (save_data_outcome l dk lines scr) as (n & E & _).
  rewrite E in Hi' |- *. cbn [snd] in Hi'.
  destruct (snd (store l dk)) as [| |e] eqn:Hs; cbn [ended fst snd state].
  - split; [done|]. eexists. split; [exact Hi|]. by rewrite E.
  - split; [done|]. eexists. split; [exact Hi|]. by rewrite E.
  - split; [done|]. split; [by eapply escaped_not_eof|].
    right. by eapply escaped_write_failure.
Qed.

Lemma handler_spec s0 s :
  Inv (state s) ->
  turn_spec Inv s0 (fst (handled (Raise EOFError, s))) (snd (handled (Raise EOFError, s))).
Proof.
  intros Hi. unfold handled.
  change (main_bind (note SayInputEnded)
            (fun _ => main_bind (call save_data) (fun _ => main_ret true)) s)
    with (main_bind (call save_data) (fun _ => main_ret true)
            (Session (state s)
               (marks s ++ [(length (stdout (state s)), SayInputEnded)]))).
  by apply closing_save_spec.
Qed.

Lemma op_branch_spec op w mk rest :
  Inv w -> length rest < length (stdin w) ->
  let s1 := Session (with_stdin rest w) mk in
  let x := handled
             (main_bind (call (run op))
                (fun _ => main_bind pause (fun _ => main_ret false)) s1) in
  turn_spec Inv (Session w mk) (fst x) (snd x).
Proof.
  intros Hi Hlen s1 x. subst x s1.
  pose proof (run_well_behaved op (with_stdin rest w)) as (Hl & _ & _ & _ & Hsd).
  pose proof (Inv_run op _ (Inv_input w rest Hi)) as Hi2.
  destruct (run op (with_stdin rest w)) as [[[]|e] w2] eqn:E; simpl in *.
  - erewrite main_bind_ok by (by apply call_run). cbn [marks].
    pose proof (pause_run (Session w2 mk)) as Hp. cbn [state marks] in Hp.
    destruct (stdin w2) as [|line rest2] eqn:E2.
    + erewrite main_bind_raise by exact Hp.
      apply (handler_spec (Session w mk)). done.
    + erewrite main_bind_ok by exact Hp. unfold main_ret. simpl.
      split; [by apply Inv_input|]. simpl in *. lia.
  - erewrite main_bind_raise by (by apply call_run). cbn [marks].
    assert (He : e = EOFError \/
                 (e <> EOFError /\
                  handled (Raise e, Session w2 mk) = (Raise e, Session w2 mk)))
      by (destruct e; (by left) || (right; split; [discriminate | reflexivity])).
    destruct He as [->|[Hne ->]].
    + apply (handler_spec (Session w mk)). done.
    + simpl. split; [done|]. split; [done|].
      destruct (decide (Forall (fun s => is_record s && printable s = true)
                          (students w))) as [Hsound|Hn]; [|by left].
      right. destruct (Hsd Hsound) as [_ [Hx|[[Hx _]|(e' & Hx & Hs)]]];
        try congruence.
      injection Hx as <-. by eapply escaped_write_failure.
Qed.

Lemma menu_turn_spec s :
  Inv (state s) -> turn_spec Inv s (fst (menu_turn s)) (snd (menu_turn s)).
Proof.
  assert (Hh : menu_turn s = handled (menu_body s)).
  { unfold menu_turn, handled. by destruct (menu_body s) as [[b|[]] s']. }
  rewrite Hh. clear Hh. destruct s as [w mk]. cbn [state]. intros Hi.
  rewrite menu_body_run. cbv zeta.
  destruct (stdin w) as [|line rest] eqn:Ew.
  { apply (handler_spec (Session w mk)). done. }
  assert (Hlen : length rest < length (stdin w)) by (rewrite Ew; simpl; lia).
  destruct (String.eqb (strip line) "1");
    [exact (op_branch_spec OpAdd w _ rest Hi Hlen)|].
  destruct (String.eqb (strip line) "2");
    [exact (op_branch_spec OpView w _ rest Hi Hlen)|].
  destruct (String.eqb (strip line) "3");
    [exact (op_branch_spec OpSearch w _ rest Hi Hlen)|].
  destruct (String.eqb (strip line) "4");
    [exact (op_branch_spec OpUpdate w _ rest Hi Hlen)|].
  destruct (String.eqb (strip line) "5");
    [exact (op_branch_spec OpDelete w _ rest Hi Hlen)|].
  destruct (String.eqb (strip line) "6").
  - assert (Hn : forall t (k : unit -> Main bool) (s : session),
               main_bind (note t) k s
               = k tt (Session (state s)
                         (marks s ++ [(length (stdout (state s)), t)])))
      by reflexivity.
    rewrite Hn. cbn [state marks].
    match goal with
    | |- turn_spec _ _ (fst (handled ?x)) _ =>
        assert (Hx : turn_spec Inv (Session w mk) (fst x) (snd x))
          by (apply closing_save_spec; by apply Inv_input);
        assert (Hh : handled x = x);
        [ destruct Hx as [_ Hx]; destruct x as [[b|e] s']; [done|];
          simpl in Hx; destruct Hx as [Hne _]; by destruct e
        | rewrite Hh; exact Hx ]
    end.
  - unfold main_bind, note, main_ret. simpl. split; [by apply Inv_input | done].
Qed.

(** The loop ends within as many turns as there are pending lines, plus
    one. *)
Lemma main_loop_spec fuel s :
  Inv (state s) -> length (stdin (state s)) < fuel ->
  exists r s',
    main_loop fuel s = Some (r, s') /\ Inv (state s') /\
    match r with
    | Ok _ => exists w0, Inv w0 /\ save_data w0 = (Ok tt, state s')
    | Raise e =>
        e <> EOFError /\
        ((exists w0, Inv w0 /\ ~ sound (students w0)) \/ write_failure e)
    end.
Proof.
  revert s. induction fuel as [|fuel IH]; intros s Hi Hlen; [lia|].
  simpl. destruct (menu_turn_spec s Hi) as [Hi' Hr].
  destruct (menu_turn s) as [[[|]|e] s']; simpl in *.
  - exists (Ok tt), s'. auto.
  - apply IH; [done | lia].
  - exists (Raise e), s'. split; [done|]. split; [done|].
    destruct Hr as [Hne [Hns|Hw]]; (split; [done|]); [left | by right].
    exists (state s). auto.
Qed.

(** [main]: a failure of the reader leaves it at once; otherwise the loop
    runs from the loaded collection. *)
Lemma main_spec fuel s :
  (forall l new,
      l = [] \/
      (exists text, data_file (fs (state s)) = Present true text /\
                    json_loads text = Some (PList l)) ->
      Inv (World l (fs (state s)) (stdin (state s)) (stdout (state s) ++ new))) ->
  length (stdin (state s)) < fuel ->
  exists r s',
    main fuel s = Some (r, s') /\
    ((exists e, r = Raise e /\ read_failure (fs (state s)) e /\ s' = s) \/
     (Inv (state s') /\
      match r with
      | Ok _ => exists w0, Inv w0 /\ save_data w0 = (Ok tt, state s')
      | Raise e =>
          e <> EOFError /\
          ((exists w0, Inv w0 /\ ~ sound (students w0)) \/ write_failure e)
      end)).
Proof.
  intros Hload Hlen. unfold main, call, startup, bind, put_students.
  destruct s as [w mk]. cbn [state marks] in *.
  destruct (load_data_cases w) as [(l & new & E & Hl)|(e & E & Hrf)]; rewrite E.
  - tidy.
    destruct (main_loop_spec fuel
                (Session (World l (fs w) (stdin w) (stdout w ++ new)) mk))
      as (r & s' & Em & Hi & Hr); [by apply Hload | done |].
    exists r, s'. split; [done|]. by right.
  - exists (Raise e), (Session w mk). split; [done|]. left. eauto.
Qed.

End Turn.

(** *** Answers of [prompt_nonempty] *)

Lemma retries_cons label b blanks :
  retries label (b :: blanks) = Ask label :: Say MsgFieldEmpty :: retries label blanks.
Proof. reflexivity. Qed.

(** Blank lines are consumed one by one, each answered by the complaint. *)
Lemma prompt_nonempty_loop_blanks label blanks tail w :
  Forall (fun l => strip l = "") blanks ->
  prompt_nonempty_loop label (blanks ++ tail) w =
  match blanks with
  | [] => prompt_nonempty_loop label tail w
  | _ => prompt_nonempty_loop label tail
           (World (students w) (fs w) tail (stdout w ++ retries label blanks))
  end.
Proof.
  intros Hb. revert w. induction Hb as [|b blanks Hb Hbs IH]; intros w; [done|].
  cbn [app prompt_nonempty_loop]. rewrite Hb. cbn [nonempty String.eqb negb].
  rewrite IH. rewrite retries_cons. tidy.
  destruct blanks as [|b' blanks].
  - destruct tail as [|line rest]; simpl; rewrite <- ?app_assoc; done.
  - rewrite <- !app_assoc. done.
Qed.

Lemma split_blanks lines :
  exists blanks tail,
    lines = blanks ++ tail /\ Forall (fun l => strip l = "") blanks /\
    (tail = [] \/ exists line rest, tail = line :: rest /\ strip line <> "").
Proof.
  induction lines as [|x lines (blanks & tail & -> & Hb & Ht)].
  - exists [], []. auto.
  - destruct (String.eqb_spec (strip x) "") as [Hx|Hx].
    + exists (x :: blanks), tail. auto.
    + exists [], (x :: blanks ++ tail). split; [done|]. split; [done|]. eauto.
Qed.

Lemma prompt_nonempty_answer label l dk blanks line rest scr :
  Forall (fun l => strip l = "") blanks -> strip line <> "" ->
  prompt_nonempty label (World l dk (blanks ++ line :: rest) scr)
  = (Ok (strip line),
     World l dk rest (scr ++ retries label blanks ++ [Ask label])).
Proof.
  intros Hb Hne. unfold prompt_nonempty. cbn [stdin].
  rewrite prompt_nonempty_loop_blanks by done.
  apply nonempty_true in Hne.
  destruct blanks as [|b blanks]; cbn [prompt_nonempty_loop]; rewrite Hne; tidy.
  - done.
  - by rewrite <- app_assoc.
Qed.

Lemma prompt_nonempty_exhausted label l dk blanks scr :
  Forall (fun l => strip l = "") blanks ->
  prompt_nonempty label (World l dk blanks scr)
  = (Raise EOFError,
     World l dk [] (scr ++ retries label blanks ++ [Ask label])).
Proof.
  intros Hb. unfold prompt_nonempty. cbn [stdin].
  rewrite <- (app_nil_r blanks) at 1.
  rewrite prompt_nonempty_loop_blanks by done.
  destruct blanks as [|b blanks]; cbn [prompt_nonempty_loop]; tidy.
  - done.
  - by rewrite <- app_assoc.
Qed.

(** X1.  [prompt_nonempty] returns the first pending line that is not empty
    after trimming, trimmed; it consumes that line and the blank lines before
    it, showing the prompt once per line read and the complaint once per
    blank line.  When every pending line is blank it raises [EOFError] with
    the input used up.  The collection and the disk are untouched. *)
Theorem prompt_nonempty_first_answer label w :
  (exists blanks line rest,
     stdin w = blanks ++ line :: rest /\
     Forall (fun l => strip l = "") blanks /\ strip line <> "" /\
     prompt_nonempty label w
     = (Ok (strip line),
        World (students w) (fs w) rest
          (stdout w ++ retries label blanks ++ [Ask label]))) \/
  (Forall (fun l => strip l = "") (stdin w) /\
   prompt_nonempty label w
   = (Raise EOFError,
      World (students w) (fs w) []
        (stdout w ++ retries label (stdin w) ++ [Ask label]))).
Proof.
  destruct w as [l dk lines scr]. cbn [students fs stdin stdout].
  destruct (split_blanks lines) as (blanks & tail & -> & Hb & [->|(line & rest & -> & Hne)]).
  - right. rewrite app_nil_r. split; [done|]. by apply prompt_nonempty_exhausted.
  - left. exists blanks, line, rest. repeat split; try done.
    by apply prompt_nonempty_answer.
Qed.

Lemma prompt_nonempty_typed_shown label l dk lines scr v rest :
  typed v lines rest ->
  exists shown,
    prompt_nonempty label (World l dk lines scr)
    = (Ok v, World l dk rest (scr ++ shown)).
Proof.
  intros (blanks & line & -> & Hb & <- & Hne).
  eexists. by apply prompt_nonempty_answer.
Qed.


(** *** Searching *)

(** X2.  [search_by_roll] changes nothing.  It returns none exactly when
    every element carries a roll number other than the string searched for,
    and the element at position [i] exactly when that element carries the
    string and every element before it carries another value (a roll number
    stored as a number is another value). *)
Theorem search_by_roll_first_match roll w :
  snd (search_by_roll roll w) = w /\
  (fst (search_by_roll roll w) = Ok None <->
   Forall (other_roll roll) (students w)) /\
  (forall i,
     fst (search_by_roll roll w) = Ok (Some i) <->
     exists s, students w !! i = Some s /\ roll_of s = Some (PStr roll) /\
               Forall (other_roll roll) (take i (students w))).
Proof.
  unfold search_by_roll. cbn [fst snd]. split; [done|]. split.
  - apply search_from_none.
  - intros i. rewrite search_from_some. split.
    + intros (l1 & s & l2 & -> & -> & Hall & Hr). exists s. simpl.
      rewrite list_lookup_middle by done. rewrite take_app_length. done.
    + intros (s & Hl & Hr & Hall).
      exists (take i (students w)), s, (drop (S i) (students w)).
      pose proof (lookup_lt_Some _ _ _ Hl) as Hlt.
      rewrite length_take_le by lia. repeat split; try done.
      by rewrite <- (take_drop_middle _ _ _ Hl) at 1.
Qed.

(** *** The table *)

Lemma print_row_unprintable s l dk lines scr :
  printable s = false ->
  print_row s (World l dk lines scr) = (Raise (row_error s), World l dk lines scr).
Proof.
  destruct s as [| | | | |d]; try reflexivity.
  unfold printable, cell, print_row, bind, lift, format_cell, py_get, out, ret, raise.
  destruct (dict_get "roll_no" d), (dict_get "name" d), (dict_get "grade" d),
    (dict_get "age" d); simpl;
    repeat match goal with
           | |- context [formattable ?v] => destruct (formattable v) eqn:?
           end; simpl; intros Hp; try discriminate; reflexivity.
Qed.

Lemma print_rows_stop pre s post l dk lines scr :
  Forall (fun s => printable s = true) pre -> printable s = false ->
  print_rows (pre ++ s :: post) (World l dk lines scr)
  = (Raise (row_error s), World l dk lines (scr ++ (row_of <$> pre))).
Proof.
  intros Hall Hs. revert scr.
  induction Hall as [|x pre Hx _ IH]; intros scr; simpl.
  - erewrite bind_raise by (by apply print_row_unprintable). by rewrite app_nil_r.
  - erewrite bind_ok by (by apply print_row_printable).
    rewrite IH. by rewrite <- app_assoc.
Qed.

(** X3.  On a collection whose elements can all be shown, [view_students]
    prints its heading and then the table: "No records found." for the empty
    collection, otherwise the header, one row per record in the order of the
    collection, and the total.  It reads no input and changes neither the
    collection nor the disk. *)
Theorem view_students_prints_table w :
  Forall (fun s => printable s = true) (students w) ->
  view_students w
  = (Ok tt, World (students w) (fs w) (stdin w)
              (stdout w ++ Say MsgViewHeader :: table (students w))).
Proof.
  destruct w as [l dk lines scr]. cbn [students fs stdin stdout].
  intros Hall. unfold view_students.
  step reflexivity. step reflexivity.
  rewrite print_table_printable by done. by rewrite <- app_assoc.
Qed.

(** X4.  When an element of the collection cannot be shown,
    [view_students] prints the rows of the elements before it and then fails,
    with [AttributeError] for an element that is not a dictionary and with
    [TypeError] for a cell that rejects the format: no row is printed for the
    element and no total. *)
Theorem view_students_stops_at_bad_row w pre s post :
  students w = pre ++ s :: post ->
  Forall (fun s => printable s = true) pre -> printable s = false ->
  view_students w
  = (Raise (row_error s),
     World (students w) (fs w) (stdin w)
       (stdout w ++ [Say MsgViewHeader; BlankLine; TableHeader; TableRule]
          ++ (row_of <$> pre))).
Proof.
  destruct w as [l dk lines scr]. cbn [students fs stdin stdout].
  intros -> Hall Hs. unfold view_students.
  step reflexivity. step reflexivity. unfold print_table.
  replace (negb (py_truthy (PList (pre ++ s :: post)))) with false
    by (by destruct pre).
  step reflexivity. step reflexivity. step reflexivity.
  erewrite bind_raise by (by apply print_rows_stop).
  by rewrite <- !app_assoc.
Qed.

(** *** What the operations show and leave *)

Lemma world_shown {A} (r : result A) l dk rest (scr full tail : list event) :
  (exists mid, full = scr ++ mid) ->
  exists shown,
    (r, World l dk rest (full ++ tail)) = (r, World l dk rest (scr ++ shown ++ tail)).
Proof. intros [mid ->]. exists mid. by rewrite <- app_assoc. Qed.

Ltac shown_now :=
  apply world_shown; rewrite <- ?app_assoc; eexists; reflexivity.

Lemma first_record_found roll l l1 d l2 :
  first_record roll l l1 d l2 ->
  search_from roll 0 l = Ok (Some (length l1)) /\
  l !! length l1 = Some (PDict d) /\ py_truthy (PDict d) = true.
Proof.
  intros (-> & Hall & Hd & [n Hn] & _). split; [|split].
  - apply search_from_some. exists l1, (PDict d), l2. by repeat split.
  - by apply list_lookup_middle.
  - by eapply dict_get_nonempty.
Qed.

(** X5.  [search_student] on a roll number that is present shows "Found:"
    and the one-row table of the first record with that roll number; the
    collection and the disk are unchanged and only the answer to the prompt is
    consumed. *)
Theorem search_student_shows_record w roll rest l1 d l2 :
  typed roll (stdin w) rest -> first_record roll (students w) l1 d l2 ->
  printable (PDict d) = true ->
  exists shown,
    search_student w
    = (Ok tt, World (students w) (fs w) rest
                (stdout w ++ shown ++ Say MsgFound :: table [PDict d])).
Proof.
  destruct w as [l dk lines scr]. cbn [students fs stdin stdout].
  intros Hroll Hrec Hp.
  destruct (first_record_found _ _ _ _ _ Hrec) as (Hs & Hl & Ht).
  unfold search_student. step reflexivity.
  destruct (prompt_nonempty_typed_shown AskRollSearch l dk lines
              (scr ++ [Say MsgSearchHeader]) roll rest Hroll) as [s1 E1].
  step (apply E1). clear E1.
  step (apply search_by_roll_run, Hs).
  step (by apply is_true_run). rewrite Ht.
  step reflexivity.
  erewrite bind_ok by (unfold deref; cbn [students]; rewrite Hl; reflexivity).
  rewrite print_table_printable by (by constructor).
  rewrite <- (app_assoc _ [Say MsgFound]).
  shown_now.
Qed.

(** X6.  Search, update and delete on a roll number that no element carries
    end normally with "No student found" as their last message; they consume
    only the answer to the roll number prompt and change neither the
    collection nor the disk. *)
Theorem unknown_roll_changes_nothing op w roll rest :
  op = OpSearch \/ op = OpUpdate \/ op = OpDelete ->
  typed roll (stdin w) rest -> fresh roll (students w) ->
  exists shown,
    run op w
    = (Ok tt, World (students w) (fs w) rest
                (stdout w ++ shown ++ [Say MsgNotFound])).
Proof.
  destruct w as [l dk lines scr]. cbn [students fs stdin stdout].
  intros Hop Hroll Hfresh.
  apply fresh_other_roll, (search_from_none roll 0) in Hfresh.
  destruct Hop as [-> | [-> | ->]]; cbn [run].
  - unfold search_student. step reflexivity.
    destruct (prompt_nonempty_typed_shown AskRollSearch l dk lines
                (scr ++ [Say MsgSearchHeader]) roll rest Hroll) as [s1 E1].
    step (apply E1). clear E1.
    step (apply search_by_roll_run, Hfresh). step reflexivity.
    unfold say. tidy. shown_now.
  - unfold update_student. step reflexivity.
    destruct (prompt_nonempty_typed_shown AskRollUpdate l dk lines
                (scr ++ [Say MsgUpdateHeader]) roll rest Hroll) as [s1 E1].
    step (apply E1). clear E1.
    step (apply search_by_roll_run, Hfresh). step reflexivity.
    unfold say. tidy. shown_now.
  - unfold delete_student. step reflexivity.
    destruct (prompt_nonempty_typed_shown AskRollDelete l dk lines
                (scr ++ [Say MsgDeleteHeader]) roll rest Hroll) as [s1 E1].
    step (apply E1). clear E1.
    step (apply search_by_roll_run, Hfresh). step reflexivity.
    unfold say. tidy. shown_now.
Qed.

(** The steps of [delete_student] up to the answer to the confirmation. *)
Lemma delete_student_asked w roll confirm rest l1 d l2 :
  typed roll (stdin w) (confirm :: rest) ->
  first_record roll (students w) l1 d l2 ->
  exists shown,
    delete_student w
    = (if String.eqb (lower (strip confirm)) "y"
       then remove (length l1) ;;; save_data ;;; say MsgDeleted
       else say MsgDeleteCanceled)
        (World (students w) (fs w) rest (stdout w ++ shown)).
Proof.
  destruct w as [l dk lines scr]. cbn [students fs stdin stdout].
  intros Hroll Hrec.
  destruct (first_record_found _ _ _ _ _ Hrec) as (Hs & Hl & Ht).
  destruct Hrec as (_ & _ & Hd & [n0 Hn0] & _).
  unfold delete_student. step reflexivity.
  destruct (prompt_nonempty_typed_shown AskRollDelete l dk lines
              (scr ++ [Say MsgDeleteHeader]) roll _ Hroll) as [s1 E1].
  step (apply E1). clear E1.
  step (apply search_by_roll_run, Hs).
  step (by apply is_true_run). rewrite Ht.
  step (eapply getitem_run; [exact Hl | simpl; by rewrite Hn0]).
  step (eapply getitem_run; [exact Hl | simpl; by rewrite Hd]).
  step reflexivity.
  rewrite <- !app_assoc. eexists. reflexivity.
Qed.

(** X7.  A deletion that is not confirmed (the answer, trimmed and in lower
    case, is not "y") removes nothing and writes nothing: the last message is
    "Deletion canceled." *)
Theorem delete_student_declined w roll confirm rest l1 d l2 :
  typed roll (stdin w) (confirm :: rest) ->
  first_record roll (students w) l1 d l2 ->
  lower (strip confirm) <> "y" ->
  exists shown,
    delete_student w
    = (Ok tt, World (students w) (fs w) rest
                (stdout w ++ shown ++ [Say MsgDeleteCanceled])).
Proof.
  intros Hroll Hrec Hn.
  destruct (delete_student_asked w roll confirm rest l1 d l2 Hroll Hrec)
    as [s1 ->].
  apply String.eqb_neq in Hn. rewrite Hn. unfold say. tidy.
  exists s1. by rewrite <- app_assoc.
Qed.

(** When the library can write the collection, the operation that ends
    with its save returns normally and its closing message comes last. *)
Lemma completes_last l dk m (scr : list event) :
  dump_error (PList l) = None ->
  ended (snd (store l dk)) = Ok tt /\
  last (scr ++ after_save (snd (store l dk)) m) = Some (Say m).
Proof.
  intros Hd. unfold store. rewrite Hd.
  destruct (fault dk); cbn [fst snd ended after_save]; (split; [done|]).
  - apply last_snoc.
  - replace (scr ++ [Say MsgCouldNotSave; Say m])
      with ((scr ++ [Say MsgCouldNotSave]) ++ [Say m]) by (by rewrite <- app_assoc).
    apply last_snoc.
  - replace (scr ++ [Say MsgCouldNotSave; Say m])
      with ((scr ++ [Say MsgCouldNotSave]) ++ [Say m]) by (by rewrite <- app_assoc).
    apply last_snoc.
Qed.

(** X8.  A confirmed deletion removes exactly the first record with the
    roll number: the elements before and after it stay, in their order (also
    later records with the same roll number), and the resulting collection
    is handed to the write of the data file, which decides how the deletion
    ends.  When the library can write the collection, the deletion returns
    normally and its last message is "Student deleted." *)
Theorem delete_student_removes_first w roll confirm rest l1 d l2 :
  typed roll (stdin w) (confirm :: rest) ->
  first_record roll (students w) l1 d l2 ->
  lower (strip confirm) = "y" ->
  exists shown,
    delete_student w
    = (ended (snd (store (l1 ++ l2) (fs w))),
       World (l1 ++ l2) (fst (store (l1 ++ l2) (fs w))) rest
         (stdout w ++ shown
            ++ after_save (snd (store (l1 ++ l2) (fs w))) MsgDeleted)) /\
    (dump_error (PList (l1 ++ l2)) = None ->
     fst (delete_student w) = Ok tt /\
     last (stdout (snd (delete_student w))) = Some (Say MsgDeleted)).
Proof.
  intros Hroll Hrec Hy.
  cut (exists shown,
         delete_student w
         = (ended (snd (store (l1 ++ l2) (fs w))),
            World (l1 ++ l2) (fst (store (l1 ++ l2) (fs w))) rest
              (stdout w ++ shown
                 ++ after_save (snd (store (l1 ++ l2) (fs w))) MsgDeleted))).
  { intros [shown E]. exists shown. split; [exact E|]. intros Hdump.
    rewrite E. cbn [fst snd stdout]. rewrite app_assoc.
    by apply completes_last. }
  destruct (delete_student_asked w roll confirm rest l1 d l2 Hroll Hrec)
    as [s1 ->].
  rewrite Hy. cbn [String.eqb Ascii.eqb Bool.eqb].
  destruct (first_record_found _ _ _ _ _ Hrec) as (_ & Hl & _).
  destruct Hrec as (El & Hall & Hd & _).
  step (eapply remove_run; [exact Hl | rewrite El; by eapply list_remove_first_match]).
  rewrite save_say_run. shown_now.
Qed.

(** X9.  An add under a roll number that is not present appends the new
    record after the existing ones, which keep their order; the age is the
    trimmed answer, possibly empty; the whole collection is handed to the
    write of the data file, which decides how the add ends.  When the library
    can write the collection, the add returns normally and its last message
    is the success message. *)
Theorem add_student_appends w roll name grade age_line r1 r2 rest :
  typed roll (stdin w) r1 -> typed name r1 r2 ->
  typed grade r2 (age_line :: rest) -> fresh roll (students w) ->
  let l' := students w ++ [mk_student roll name (upper grade) (strip age_line)] in
  exists shown,
    add_student w
    = (ended (snd (store l' (fs w))),
       World l' (fst (store l' (fs w))) rest
         (stdout w ++ shown ++ after_save (snd (store l' (fs w))) MsgAdded)) /\
    (dump_error (PList l') = None ->
     fst (add_student w) = Ok tt /\
     last (stdout (snd (add_student w))) = Some (Say MsgAdded)).
Proof.
  intros Hroll Hname Hgrade Hfresh l'.
  cut (exists shown,
         add_student w
         = (ended (snd (store l' (fs w))),
            World l' (fst (store l' (fs w))) rest
              (stdout w ++ shown ++ after_save (snd (store l' (fs w))) MsgAdded))).
  { intros [shown E]. exists shown. split; [exact E|]. intros Hdump.
    rewrite E. cbn [fst snd stdout]. rewrite app_assoc.
    by apply completes_last. }
  subst l'. destruct w as [l dk lines scr]. cbn [students fs stdin stdout] in *.
  unfold add_student.
  apply fresh_other_roll, (search_from_none roll 0) in Hfresh.
  step reflexivity.
  destruct (prompt_nonempty_typed_shown AskRoll l dk lines (scr ++ [Say MsgAddHeader])
              roll r1 Hroll) as [s1 E1].
  step (apply E1). clear E1.
  step (apply search_by_roll_run, Hfresh).
  step reflexivity.
  destruct (prompt_nonempty_typed_shown AskName l dk r1
              ((scr ++ [Say MsgAddHeader]) ++ s1) name r2 Hname) as [s2 E2].
  step (apply E2). clear E2.
  destruct (prompt_nonempty_typed_shown AskGrade l dk r2
              (((scr ++ [Say MsgAddHeader]) ++ s1) ++ s2) grade _ Hgrade) as [s3 E3].
  step (apply E3). clear E3.
  assert (Hg : nonempty grade = true).
  { destruct Hgrade as (? & ? & _ & _ & _ & Hne). by apply nonempty_true. }
  rewrite validate_grade_nonempty, Hg. cbn [negb].
  step reflexivity. step reflexivity.
  rewrite save_say_run. shown_now.
Qed.


Lemma dict_get_set k k' v d :
  dict_get k' (dict_set k v d)
  = if String.eqb k' k then Some v else dict_get k' d.
Proof.
  destruct (String.eqb_spec k' k) as [->|Hne];
    [apply dict_get_set_eq | apply dict_get_set_ne; congruence].
Qed.

(** Every field of an updated record. *)
Lemma updated_field d n g a k :
  dict_get k (updated d n g a)
  = if String.eqb k "age" then Some (PStr a)
    else if String.eqb k "grade"
    then (if nonempty g then Some (PStr (upper g)) else dict_get k d)
    else if String.eqb k "name"
    then (if nonempty n then Some (PStr n) else dict_get k d)
    else dict_get k d.
Proof.
  unfold updated. rewrite dict_get_set.
  destruct (String.eqb k "age"); [done|].
  destruct (nonempty g), (nonempty n); rewrite ?dict_get_set;
    destruct (String.eqb_spec k "grade") as [->|_]; simpl; try done;
    by destruct (String.eqb k "name").
Qed.

(** X10.  An update of the first record with the roll number replaces that
    record in place; in the record the age is the trimmed answer, the grade
    and the name change only for a non-empty answer, and every other key (the
    roll number included) keeps its value.  The other records are untouched,
    and the collection is handed to the write of the data file, which decides
    how the update ends.  When the library can write the collection, the
    update returns normally and its last message is the success message. *)
Theorem update_student_fields w roll l1 d l2 name_line grade_line age_line rest :
  first_record roll (students w) l1 d l2 ->
  typed roll (stdin w) (name_line :: grade_line :: age_line :: rest) ->
  exists d' shown,
    update_student w
    = (ended (snd (store (l1 ++ PDict d' :: l2) (fs w))),
       World (l1 ++ PDict d' :: l2)
         (fst (store (l1 ++ PDict d' :: l2) (fs w))) rest
         (stdout w ++ shown
            ++ after_save (snd (store (l1 ++ PDict d' :: l2) (fs w))) MsgUpdated)) /\
    (forall k,
       dict_get k d'
       = if String.eqb k "age" then Some (PStr (strip age_line))
         else if String.eqb k "grade"
         then (if nonempty (strip grade_line)
               then Some (PStr (upper (strip grade_line))) else dict_get k d)
         else if String.eqb k "name"
         then (if nonempty (strip name_line)
               then Some (PStr (strip name_line)) else dict_get k d)
         else dict_get k d) /\
    (dump_error (PList (l1 ++ PDict d' :: l2)) = None ->
     fst (update_student w) = Ok tt /\
     last (stdout (snd (update_student w))) = Some (Say MsgUpdated)).
Proof.
  destruct w as [l dk lines scr]. cbn [students fs stdin stdout].
  intros Hrec Hroll.
  destruct (first_record_found _ _ _ _ _ Hrec) as (Hs & Hl & Ht).
  destruct Hrec as (El & _ & _ & [n0 Hn0] & [g0 Hg0]).
  exists (updated d (strip name_line) (strip grade_line) (strip age_line)).
  cut (exists shown,
         update_student (World l dk lines scr)
         = (ended (snd (store (<[length l1 := PDict (updated d (strip name_line)
                                           (strip grade_line) (strip age_line))]> l)
                      dk)),
            World (<[length l1 := PDict (updated d (strip name_line)
                                           (strip grade_line) (strip age_line))]> l)
              (fst (store (<[length l1 := PDict (updated d (strip name_line)
                                           (strip grade_line) (strip age_line))]> l)
                      dk))
              rest
              (scr ++ shown
                 ++ after_save
                      (snd (store (<[length l1 := PDict (updated d (strip name_line)
                                           (strip grade_line) (strip age_line))]> l)
                              dk)) MsgUpdated))).
  { intros [shown E]. exists shown. rewrite E, El, insert_middle.
    split; [done|]. split; [apply updated_field|]. intros Hdump.
    cbn [fst snd stdout]. rewrite app_assoc. by apply completes_last. }
  set (i := length l1) in *. clearbody i. clear El.
  set (l' := <[i := _]> l).
  unfold update_student. step reflexivity.
  destruct (prompt_nonempty_typed_shown AskRollUpdate l dk lines
              (scr ++ [Say MsgUpdateHeader]) roll _ Hroll) as [s1 E1].
  step (apply E1). clear E1.
  step (apply search_by_roll_run, Hs).
  step (by apply is_true_run). rewrite Ht.
  step reflexivity.
  step (eapply getitem_run; [exact Hl | simpl; by rewrite Hn0]).
  step reflexivity.
  step (eapply getitem_run; [exact Hl | simpl; by rewrite Hg0]).
  step reflexivity.
  edestruct (get_or_empty_run i "age" d l dk) as [a0 Ea]; [exact Hl|].
  step (apply Ea). clear Ea.
  step reflexivity.
  step (by apply maybe_setitem_run).
  set (d1 := if nonempty (strip name_line) then _ else d).
  assert (Hl1 : <[i := PDict d1]> l !! i = Some (PDict d1))
    by (apply list_lookup_insert_eq; by eapply lookup_lt_Some).
  rewrite age_condition.
  assert (Hfin : forall d2 o,
    (exists mid, o = scr ++ mid) ->
    l' = <[i := PDict (dict_set "age" (PStr (strip age_line)) d2)]> l ->
    exists shown,
      bind (setitem i "age" (PStr (strip age_line)))
        (fun _ => bind save_data (fun _ => say MsgUpdated))
        (World (<[i := PDict d2]> l) dk rest o)
      = (ended (snd (store l' dk)),
         World l' (fst (store l' dk)) rest
           (scr ++ shown ++ after_save (snd (store l' dk)) MsgUpdated))).
  { intros d2 o [mid ->] Hl'.
    step (apply setitem_run; apply list_lookup_insert_eq; by eapply lookup_lt_Some).
    rewrite list_insert_insert_eq, <- Hl'.
    rewrite save_say_run. shown_now. }
  destruct (nonempty (strip grade_line)) eqn:Hg.
  - rewrite validate_grade_nonempty, Hg. cbn [negb].
    step (apply setitem_run, Hl1).
    rewrite list_insert_insert_eq.
    apply Hfin; [rewrite <- !app_assoc; eexists; reflexivity|].
    subst l' d1. unfold updated. by rewrite Hg.
  - apply Hfin; [rewrite <- !app_assoc; eexists; reflexivity|].
    subst l' d1. unfold updated. by rewrite Hg.
Qed.

(** *** Guarantees of every operation *)

(** X11.  Every operation either leaves the collection and the disk as they
    were, or ends with the write of the collection it leaves, which decides
    its result: it returns normally, or it raises the exception of the write
    when the library gives up on that collection (the change is then in
    memory, and the file holds what was written so far).  An operation that
    raises any other exception has changed nothing. *)
Theorem operation_saves_or_keeps op w :
  (same_store w (snd (run op w)) \/
   (fs (snd (run op w)) = fst (store (students (snd (run op w))) (fs w)) /\
    fst (run op w) = ended (snd (store (students (snd (run op w))) (fs w))))) /\
  (forall e,
     fst (run op w) = Raise e ->
     same_store w (snd (run op w)) \/
     (exists f n,
        dump_error (PList (students (snd (run op w)))) = Some (f, n) /\
        e = dump_exn f)).
Proof.
  destruct (run_well_behaved op w) as (_ & _ & _ & Hst & _).
  split; [done|]. intros e He. destruct Hst as [Hs|[_ Hr]]; [by left|].
  right. rewrite He in Hr. apply (store_escaped _ (fs w)).
  destruct (snd (store _ _)); simpl in Hr; congruence.
Qed.

Lemma synced_kept w r w' :
  well_behaved w r w' -> fault (fs w) = NoFault -> synced w ->
  dump_error (PList (students w')) = None -> synced w'.
Proof.
  intros (_ & _ & _ & Hst & _) Hf [rd Hsync] Hdump. unfold synced.
  destruct Hst as [[Hl Hd]|[Hd _]].
  - exists rd. by rewrite Hl, Hd.
  - rewrite Hd. unfold store. rewrite Hf, Hdump. cbn [fst data_file].
    destruct (data_file (fs w)) as [|rd' text]; simpl; eauto.
Qed.

(** X12.  While the file system raises no error and the library can write
    the collection that is left, every operation keeps the data file in step
    with memory: if the file held the collection before the operation, it
    holds the collection after it, whatever was typed and whether or not the
    operation raised. *)
Theorem operations_keep_file_in_sync op w :
  fault (fs w) = NoFault -> synced w ->
  dump_error (PList (students (snd (run op w)))) = None ->
  synced (snd (run op w)) /\ fault (fs (snd (run op w))) = NoFault.
Proof.
  intros Hf Hs Hdump. pose proof (run_well_behaved op w) as Hwb. split.
  - by eapply synced_kept.
  - destruct Hwb as (_ & Hfault & _). congruence.
Qed.

(** X13.  No operation ever prints one of the two "Invalid grade" messages:
    [validate_grade] is only consulted for a non-empty grade, which it
    accepts.  What an operation prints is appended to the screen. *)
Theorem invalid_grade_never_reported op w :
  exists new,
    stdout (snd (run op w)) = stdout w ++ new /\
    (Say MsgInvalidGradeAdd ∉ new) /\ (Say MsgInvalidGradeUpdate ∉ new).
Proof.
  destruct (run_well_behaved op w) as (_ & _ & (new & E & Hc) & _).
  exists new. split; [done|]. rewrite Forall_forall in Hc.
  split; intros Hin; destruct (Hc _ Hin) as [H1 H2]; congruence.
Qed.

(** X14.  On a collection of records that can be shown, no operation fails
    on a record: it returns normally, or stops with [EOFError] at the end of
    the input, or raises the exception of the write when the library gives up
    on the collection; and it leaves a collection of such records. *)
Theorem sound_collection_never_crashes op w :
  sound (students w) ->
  sound (students (snd (run op w))) /\
  (fst (run op w) = Ok tt \/
   (fst (run op w) = Raise EOFError /\ stdin (snd (run op w)) = []) \/
   (exists f n,
      dump_error (PList (students (snd (run op w)))) = Some (f, n) /\
      fst (run op w) = Raise (dump_exn f))).
Proof.
  intros Hs. destruct (run_well_behaved op w) as (_ & _ & _ & _ & Hsd).
  destruct (Hsd Hs) as [Hs' [Hok|[Heof|(e & He & Hesc)]]]; split; auto.
  right. right. apply store_escaped in Hesc as (_ & f & n & Hd & ->). eauto.
Qed.

(** X15.  The record returned by [search_by_roll] is the stored one: a
    field other than the roll number assigned through it is seen by the next
    search for the same roll number, which returns the same record; the other
    elements and the disk are unchanged. *)
Theorem write_through_found_record roll w i k x :
  fst (search_by_roll roll w) = Ok (Some i) -> k <> "roll_no" ->
  exists w',
    setitem i k x w = (Ok tt, w') /\
    search_by_roll roll w' = (Ok (Some i), w') /\
    getitem i k w' = (Ok x, w') /\
    length (students w') = length (students w) /\
    (forall j, j <> i -> students w' !! j = students w !! j) /\
    fs w' = fs w.
Proof.
  destruct w as [l dk lines scr]. unfold search_by_roll. cbn [fst students].
  intros Hs Hk.
  apply search_from_some in Hs as (l1 & s & l2 & -> & -> & Hall & Hr).
  destruct s as [| | | | |d]; try discriminate. simpl in Hr.
  eexists. split; [apply setitem_run; by apply list_lookup_middle|].
  cbn [Nat.add]. rewrite insert_middle. cbn [students fs].
  split; [|split; [|split; [|split]]].
  - f_equal. apply search_from_some.
    exists l1, (PDict (dict_set k x d)), l2. repeat split; try done.
    simpl. rewrite dict_get_set_ne by done. done.
  - eapply getitem_run; [by apply list_lookup_middle|].
    simpl. by rewrite dict_get_set_eq.
  - rewrite !length_app. done.
  - intros j Hj. destruct (decide (j < length l1)) as [Hlt|Hge].
    + by rewrite !lookup_app_l by done.
    + rewrite !lookup_app_r by lia.
      destruct (j - length l1) as [|n] eqn:E; [lia | done].
  - done.
Qed.


(** *** Whole sessions *)

Lemma main_loop_more fuel k s x :
  main_loop fuel s = Some x -> main_loop (fuel + k) s = Some x.
Proof.
  revert s. induction fuel as [|fuel IH]; intros s; simpl; [discriminate|].
  destruct (menu_turn s) as [[[|]|e] s']; auto.
Qed.

Lemma main_more fuel fuel' s x :
  main fuel s = Some x -> fuel <= fuel' -> main fuel' s = Some x.
Proof.
  unfold main. intros Hm Hle. destruct (call startup s) as [[u|e] s1]; [|done].
  replace fuel' with (fuel + (fuel' - fuel)) by lia. by apply main_loop_more.
Qed.

(** X16.  [main] ends on every finite input, within one turn of the menu
    per pending line plus one; more turns allowed give the same outcome.  It
    ends normally or with an exception other than [EOFError]: the end of the
    input is always handled. *)
Theorem main_terminates fuel s :
  length (stdin (state s)) < fuel ->
  exists r s',
    (forall fuel', fuel <= fuel' -> main fuel' s = Some (r, s')) /\
    (r = Ok tt \/ exists e, r = Raise e /\ e <> EOFError).
Proof.
  intros Hlen.
  destruct (main_spec (fun _ => True) (fun _ _ _ => I) (fun _ _ _ => I)
              (fun _ _ => I) fuel s)
    as (r & s' & E & [(e & -> & Hrf & _)|[_ Hr]]); [done | done | |].
  - exists (Raise e), s'. split; [intros fuel' Hle; by eapply main_more|].
    right. exists e. split; [done|]. by eapply read_failure_not_eof.
  - exists r, s'. split; [intros fuel' Hle; by eapply main_more|].
    destruct r as [[]|e]; [by left|]. right. exists e. by destruct Hr.
Qed.

(** A save that returns, on a file system that raises no error, has written
    the whole document. *)
Lemma save_data_written w w' :
  fault (fs w) = NoFault -> save_data w = (Ok tt, w') ->
  students w' = students w /\
  fs w' = Disk (written (data_file (fs w)) (json_dumps (PList (students w))))
            NoFault.
Proof.
  destruct w as [l [file flt] lines scr]. simpl. intros ->.
  rewrite save_data_run. unfold store. simpl.
  destruct (dump_error (PList l)) as [[f n]|]; simpl; [discriminate|].
  by intros [= <-].
Qed.

Lemma save_data_synced w w' :
  fault (fs w) = NoFault -> save_data w = (Ok tt, w') -> synced w'.
Proof.
  intros Hf Hs. destruct (save_data_written w w' Hf Hs) as [Hl Hd].
  unfold synced. rewrite Hd, Hl. simpl. destruct (data_file (fs w)); simpl; eauto.
Qed.

Lemma save_data_fault w : fault (fs (snd (save_data w))) = fault (fs w).
Proof.
  destruct w as [l dk lines scr].
  destruct (save_data_outcome l dk lines scr) as (n & -> & _). apply store_fault.
Qed.

(** X17.  While writes succeed, a session that ends normally (by choice 6 or
    at the end of the input) leaves the data file holding the collection as it
    is in memory. *)
Theorem main_saves_on_exit fuel s :
  fault (fs (state s)) = NoFault -> length (stdin (state s)) < fuel ->
  exists r s',
    main fuel s = Some (r, s') /\
    ((r = Ok tt /\ synced (state s')) \/ exists e, r = Raise e /\ e <> EOFError).
Proof.
  intros Hf Hlen.
  destruct (main_spec (fun w => fault (fs w) = NoFault)) with (fuel := fuel) (s := s)
    as (r & s' & E & [(e & -> & Hrf & _)|[_ Hr]]); try done.
  - intros op w Hw. destruct (run_well_behaved op w) as (_ & Hfault & _). congruence.
  - intros w Hw. by rewrite save_data_fault.
  - exists (Raise e), s'. split; [done|]. right. exists e.
    split; [done|]. by eapply read_failure_not_eof.
  - exists r, s'. split; [done|]. destruct r as [[]|e].
    + left. split; [done|]. destruct Hr as (w0 & Hw0 & Hs).
      by eapply save_data_synced.
    + right. exists e. by destruct Hr.
Qed.

(** X18.  When the data file is absent, unreadable, not JSON, not an array,
    or an array of records that can be shown, the session never fails on a
    record, whatever is typed: it ends normally, leaving such records, unless
    the library fails to read the file or to write a collection, whose
    exception then leaves [main]. *)
Theorem sound_session_ends_normally fuel s :
  (forall text l, data_file (fs (state s)) = Present true text ->
                  json_loads text = Some (PList l) -> sound l) ->
  length (stdin (state s)) < fuel ->
  exists r s',
    main fuel s = Some (r, s') /\
    ((r = Ok tt /\ sound (students (state s'))) \/
     (exists e, r = Raise e /\
                (read_failure (fs (state s)) e \/ write_failure e))).
Proof.
  intros Hfile Hlen.
  destruct (main_spec (fun w => sound (students w))) with (fuel := fuel) (s := s)
    as (r & s' & E & [(e & -> & Hrf & _)|[Hs Hr]]); try done.
  - intros op w Hw. by destruct (run_well_behaved op w) as (_ & _ & _ & _ & [? _]).
  - intros w Hw. by rewrite save_data_students.
  - intros l new [->|(text & Ef & Ej)]; [constructor | by eapply Hfile].
  - exists (Raise e), s'. split; [done|]. right. eauto.
  - exists r, s'. split; [done|]. destruct r as [[]|e]; [by left|].
    destruct Hr as (_ & [(w0 & Hw0 & Hn)|Hw]); [contradiction|]. right. eauto.
Qed.

Lemma run_unique op w :
  unique_rolls (students w) -> unique_rolls (students (snd (run op w))).
Proof.
  intros Hu. unfold unique_rolls in *. destruct op; simpl.
  - destruct (add_student_cases w) as [->|(roll & name & grade & age & Hs & ->)];
      [done|].
    rewrite rolls_app. apply NoDup_app. split; [done|]. split.
    + apply search_from_none, fresh_other_roll in Hs as [_ Hn].
      intros x Hx Hin. apply list_elem_of_singleton in Hin. by subst.
    + apply NoDup_singleton.
  - by destruct (respects_view_students same_store (fun _ _ h => h)
                   same_store_trans w) as [-> _].
  - by destruct (respects_search_student same_store (fun _ _ h => h)
                   same_store_trans w) as [-> _].
  - rewrite rolls_fmap, (update_student_rolls_kept w), <- rolls_fmap. done.
  - exact (sublist_NoDup _ _ Hu (delete_student_rolls_shrink w)).
Qed.

(** X19.  A session started from a file in which no two records share a
    roll number ends with a collection in which no two records share a roll
    number, whatever is typed and however it ends.  The collection in memory
    when [main] starts, the empty list of the module, is what is left when
    the load raises. *)
Theorem session_keeps_rolls_unique fuel s :
  unique_rolls (students (state s)) ->
  (forall text l, data_file (fs (state s)) = Present true text ->
                  json_loads text = Some (PList l) -> unique_rolls l) ->
  length (stdin (state s)) < fuel ->
  exists r s', main fuel s = Some (r, s') /\ unique_rolls (students (state s')).
Proof.
  intros Hmem Hfile Hlen.
  destruct (main_spec (fun w => unique_rolls (students w))) with (fuel := fuel) (s := s)
    as (r & s' & E & [(e & -> & Hrf & ->)|[Hs Hr]]); try done.
  - intros op w Hw. by apply run_unique.
  - intros w Hw. by rewrite save_data_students.
  - intros l new [->|(text & Ef & Ej)]; [constructor | by eapply Hfile].
  - eauto.
  - eauto.
Qed.

Lemma store_open_fails l dk : fault dk = OpenFails -> fst (store l dk) = dk.
Proof. unfold store. by intros ->. Qed.

(** X20.  When the data file cannot be opened for writing, a whole session
    leaves the file exactly as it was, whatever is typed. *)
Theorem unwritable_file_is_untouched fuel s :
  fault (fs (state s)) = OpenFails -> length (stdin (state s)) < fuel ->
  exists r s', main fuel s = Some (r, s') /\ fs (state s') = fs (state s).
Proof.
  intros Hf Hlen.
  destruct (main_spec (fun w => fs w = fs (state s))) with (fuel := fuel) (s := s)
    as (r & s' & E & [(e & -> & Hrf & ->)|[Hs Hr]]); try done.
  - intros op w Hw.
    destruct (run_well_behaved op w) as (_ & _ & _ & [[_ Hd]|[Hd _]] & _);
      [congruence|].
    rewrite Hd, store_open_fails; congruence.
  - intros w Hw. destruct w as [l dk lines scr].
    destruct (save_data_outcome l dk lines scr) as (n & -> & _). simpl in *.
    rewrite store_open_fails; congruence.
  - eauto.
  - eauto.
Qed.

(** A turn whose choice is an operation that returns normally, followed by
    the line that answers [pause]. *)
Lemma menu_turn_choice op w mk line rest w2 enter rest2 :
  stdin w = line :: rest -> strip line = choice op ->
  run op (with_stdin rest w) = (Ok tt, w2) -> stdin w2 = enter :: rest2 ->
  menu_turn (Session w mk)
  = (Ok false,
     Session (with_stdin rest2 w2)
       (mk ++ [(length (stdout w), MenuText); (length (stdout w), AskChoice);
               (length (stdout w2), AskPause)])).
Proof.
  intros Hin Hc Hrun Hin2. unfold menu_turn. rewrite menu_body_run, Hin. cbv zeta.
  assert (Hgo : main_bind (call (run op))
                  (fun _ => main_bind pause (fun _ => main_ret false))
                  (Session (with_stdin rest w)
                     ((mk ++ [(length (stdout w), MenuText)])
                        ++ [(length (stdout w), AskChoice)]))
                = (Ok false,
                   Session (with_stdin rest2 w2)
                     (mk ++ [(length (stdout w), MenuText);
                             (length (stdout w), AskChoice);
                             (length (stdout w2), AskPause)]))).
  { erewrite main_bind_ok by (by apply call_run). cbn [marks].
    erewrite main_bind_ok
      by (rewrite pause_run; cbn [state marks]; rewrite Hin2; reflexivity).
    unfold main_ret. by rewrite <- !app_assoc. }
  rewrite Hc. destruct op; cbn [choice String.eqb Ascii.eqb Bool.eqb];
    by rewrite Hgo.
Qed.

(** The turn that chooses to leave, when the library can write the
    collection. *)
Lemma menu_turn_exit w mk line rest :
  stdin w = line :: rest -> strip line = "6" ->
  dump_error (PList (students w)) = None ->
  menu_turn (Session w mk)
  = (Ok true,
     Session (snd (save_data (with_stdin rest w)))
       (mk ++ [(length (stdout w), MenuText); (length (stdout w), AskChoice);
               (length (stdout w), SayGoodbye)])) /\
  fst (save_data (with_stdin rest w)) = Ok tt.
Proof.
  intros Hin Hc Hdump. unfold menu_turn. rewrite menu_body_run, Hin. cbv zeta.
  rewrite Hc. cbn [String.eqb Ascii.eqb Bool.eqb].
  unfold main_bind, note, call, main_ret. cbn [state marks].
  destruct w as [l dk lines scr].
  destruct (save_data_outcome l dk rest scr) as (n & E & _).
  unfold with_stdin. cbn [students fs stdin stdout] in *. rewrite E.
  rewrite (store_completes _ _ Hdump). by rewrite <- !app_assoc.
Qed.

(** X21.  With a file system that raises no error and a library that can
    write the new collection, a session in which the user chooses 1, gives a
    new roll number, a name, a grade and an age, presses Enter at the pause
    and chooses 6 ends normally within two turns: the collection is the
    loaded one followed by the new record, the data file holds it, and the
    lines typed after the 6 are not read. *)
Theorem session_add_and_exit
    fuel s l c1 r0 roll name grade age_line r1 r2 enter c6 rest :
  fst (load_data (state s)) = Ok l -> fault (fs (state s)) = NoFault ->
  stdin (state s) = c1 :: r0 -> strip c1 = "1" ->
  typed roll r0 r1 -> typed name r1 r2 ->
  typed grade r2 (age_line :: enter :: c6 :: rest) -> fresh roll l ->
  dump_error (PList (l ++ [mk_student roll name (upper grade) (strip age_line)]))
  = None ->
  strip c6 = "6" -> 2 <= fuel ->
  exists s',
    main fuel s = Some (Ok tt, s') /\
    students (state s')
    = l ++ [mk_student roll name (upper grade) (strip age_line)] /\
    synced (state s') /\ stdin (state s') = rest.
Proof.
  intros Hload Hf Hin Hc1 Hroll Hname Hgrade Hfresh Hdump Hc6 Hfuel.
  destruct s as [w mk]. cbn [state] in *.
  destruct (load_data_cases w) as [(l0 & new & E & _)|(e & E & _)];
    rewrite E in Hload; [|discriminate].
  injection Hload as ->.
  set (l' := l ++ [mk_student roll name (upper grade) (strip age_line)]) in *.
  destruct (add_student_run l (fs w) r0 (stdout w ++ new) _ _ _ _ _ _ _
              Hroll Hname Hgrade Hfresh) as [o Eadd]. fold l' in Eadd.
  rewrite (store_completes _ _ Hdump) in Eadd.
  destruct fuel as [|[|fuel]]; [lia | lia |].
  unfold main, call, startup, bind, put_students. cbn [state marks].
  rewrite E. tidy. cbn [main_loop].
  erewrite (menu_turn_choice OpAdd) by (done || exact Eadd).
  edestruct (menu_turn_exit
               (with_stdin (c6 :: rest) (World l' (fst (store l' (fs w)))
                                           (enter :: c6 :: rest) o)))
    as [Eexit Hok]; [reflexivity | exact Hc6 | exact Hdump |].
  rewrite Eexit. eexists. split; [reflexivity|]. cbn [state]. tidy.
  split; [by rewrite save_data_students|]. split.
  - eapply save_data_synced; [|by erewrite <- Hok, <- surjective_pairing].
    simpl. by rewrite store_fault.
  - destruct (save_data_outcome l' (fst (store l' (fs w))) rest o) as (n & -> & _).
    done.
Qed.

Lemma store_keeps_readable l dk :
  (forall t, data_file dk <> Present false t) ->
  forall t, data_file (fst (store l dk)) <> Present false t.
Proof.
  intros Hr t. unfold store.
  destruct (fault dk); [destruct (dump_error (PList l)) as [[f n]|]| |];
    cbn [fst data_file]; try done;
    destruct (data_file dk) as [|[|] t0] eqn:Ed; simpl; try done;
    by destruct (Hr t0).
Qed.

(** X22.  What a session saves is what the next one starts with: after a
    session that ended normally, on a file system that raises no error and
    with a data file that was absent or readable, [load_data] in any process,
    whatever its memory holds, returns from the file the collection that the
    session left, unchanged and without a warning, for any JSON library that
    reads back the document it wrote for that collection. *)
Theorem restart_loads_saved fuel s s' :
  main fuel s = Some (Ok tt, s') ->
  fault (fs (state s)) = NoFault ->
  (forall text, data_file (fs (state s)) <> Present false text) ->
  json_loads (json_dumps (PList (students (state s'))))
  = Some (PList (students (state s'))) ->
  forall memory lines scr,
    load_data (World memory (fs (state s')) lines scr)
    = (Ok (students (state s')), World memory (fs (state s')) lines scr).
Proof.
  intros Hmain Hf Hr Hlib memory lines scr.
  set (Inv := fun w : world =>
                fault (fs w) = NoFault /\ forall t, data_file (fs w) <> Present false t).
  destruct (main_spec Inv) with (fuel := fuel + S (length (stdin (state s)))) (s := s)
    as (r & s2 & E & Hcases).
  - intros w rest Hw. exact Hw.
  - intros op w [Hf' Hr'].
    destruct (run_well_behaved op w) as (_ & Hfault & _ & [[_ Hd]|[Hd _]] & _);
      (split; [congruence|]); rewrite Hd; [done|]. by apply store_keeps_readable.
  - intros w [Hf' Hr']. destruct w as [l dk lines' scr'].
    destruct (save_data_outcome l dk lines' scr') as (n & -> & _).
    split; [by rewrite <- Hf'; apply store_fault | by apply store_keeps_readable].
  - intros l new _. done.
  - lia.
  - rewrite (main_more fuel _ s _ Hmain) in E by lia. injection E as <- <-.
    destruct Hcases as [(e & He & _)|[_ (w0 & [Hf0 Hr0] & Hs)]]; [discriminate|].
    destruct (save_data_written w0 (state s') Hf0 Hs) as [Hl Hd].
    unfold load_data. cbn [fs]. rewrite Hd. cbn [data_file].
    destruct (data_file (fs w0)) as [|[|] t0] eqn:Ed; simpl;
      try (by destruct (Hr0 t0)); rewrite <- Hl, Hlib; done.
Qed.

End Behaviour.

(** ** More concrete runs with the reference library *)

Section MoreExamples.
#[local] Existing Instance RefLib.lib.

Ltac typed_now :=
  exists []; eexists; split; [reflexivity|];
  split; [constructor|]; split; [reflexivity | discriminate].

Ltac other_now :=
  repeat first
    [ apply Forall_nil_2
    | apply Forall_cons_2; [eexists; split; [reflexivity | discriminate]|] ].

Ltac record_now :=
  split; [reflexivity|]; split; [other_now|]; split; [reflexivity|];
  split; eexists; reflexivity.

(** X3 on two records. *)
Lemma view_students_prints_table_witness :
  view_students (World [alice; bob] no_file [] [])
  = (Ok tt, World [alice; bob] no_file []
              [Say MsgViewHeader; BlankLine; TableHeader; TableRule;
               TableRow (PStr "101") (PStr "Alice") (PStr "A") (PStr "15");
               TableRow (PStr "102") (PStr "Bob") (PStr "B") (PStr "16");
               TableTotal 2]).
Proof.
  refine (view_students_prints_table (World [alice; bob] no_file [] []) _).
  repeat constructor.
Defined.

(** X4: the second element has [None] as its name. *)
Lemma view_students_stops_at_bad_row_witness :
  let nameless := PDict [("roll_no", PStr "102"); ("name", PNone)] in
  view_students (World [alice; nameless; bob] no_file [] [])
  = (Raise TypeError,
     World [alice; nameless; bob] no_file []
       [Say MsgViewHeader; BlankLine; TableHeader; TableRule;
        TableRow (PStr "101") (PStr "Alice") (PStr "A") (PStr "15")]).
Proof.
  refine (view_students_stops_at_bad_row
            (World [alice; PDict [("roll_no", PStr "102"); ("name", PNone)]; bob]
               no_file [] [])
            [alice] (PDict [("roll_no", PStr "102"); ("name", PNone)]) [bob] _ _ _);
    [reflexivity | repeat constructor | reflexivity].
Defined.

(** X5: the roll number is typed with spaces around it. *)
Lemma search_student_shows_record_witness :
  exists shown,
    search_student (World [alice; bob] no_file [" 102 "] [])
    = (Ok tt, World [alice; bob] no_file []
                (shown ++
                 [Say MsgFound; BlankLine; TableHeader; TableRule;
                  TableRow (PStr "102") (PStr "Bob") (PStr "B") (PStr "16");
                  TableTotal 1])).
Proof.
  refine (search_student_shows_record (World [alice; bob] no_file [" 102 "] [])
            "102" [] [alice] (student_fields "102" "Bob" "B" "16") [] _ _ _);
    [typed_now | record_now | reflexivity].
Defined.

(** X6: a deletion under a roll number that is not present. *)
Lemma unknown_roll_changes_nothing_witness :
  exists shown,
    delete_student (World [alice] no_file ["999"; "y"] [])
    = (Ok tt, World [alice] no_file ["y"] (shown ++ [Say MsgNotFound])).
Proof.
  refine (unknown_roll_changes_nothing OpDelete
            (World [alice] no_file ["999"; "y"] []) "999" ["y"] _ _ _);
    [right; right; reflexivity | typed_now | apply fresh_other_roll; other_now].
Defined.

(** X7: the answer "yes" is not a confirmation. *)
Lemma delete_student_declined_witness :
  exists shown,
    delete_student (World [alice] no_file ["101"; "yes"] [])
    = (Ok tt, World [alice] no_file [] (shown ++ [Say MsgDeleteCanceled])).
Proof.
  refine (delete_student_declined (World [alice] no_file ["101"; "yes"] [])
            "101" "yes" [] [] (student_fields "101" "Alice" "A" "15") [] _ _ _);
    [typed_now | record_now | discriminate].
Defined.

(** X8: two records share roll number 101; the second stays. *)
Lemma delete_student_removes_first_witness :
  let w := World [bob; alice; twin] no_file ["101"; " Y "] [] in
  exists shown,
    delete_student w
    = (Ok tt,
       World [bob; twin]
         (Disk (Present true (json_dumps (PList [bob; twin]))) NoFault) []
         (shown ++ [Say MsgDeleted])) /\
    fst (delete_student w) = Ok tt /\
    last (stdout (snd (delete_student w))) = Some (Say MsgDeleted).
Proof.
  destruct (delete_student_removes_first
              (World [bob; alice; twin] no_file ["101"; " Y "] [])
              "101" " Y " [] [bob] (student_fields "101" "Alice" "A" "15") [twin])
    as (shown & E & Hlast);
    [typed_now | record_now | reflexivity |].
  exists shown. split; [rewrite E; reflexivity | apply Hlast; reflexivity].
Defined.

(** X9: a blank line before the roll number, and no age. *)
Lemma add_student_appends_witness :
  let w := World [alice] no_file [""; "102"; "Bob"; "b"; ""; "next"] [] in
  exists shown,
    add_student w
    = (Ok tt,
       World [alice; mk_student "102" "Bob" "B" ""]
         (Disk (Present true
                  (json_dumps (PList [alice; mk_student "102" "Bob" "B" ""])))
            NoFault)
         ["next"] (shown ++ [Say MsgAdded])) /\
    fst (add_student w) = Ok tt /\
    last (stdout (snd (add_student w))) = Some (Say MsgAdded).
Proof.
  destruct (add_student_appends
              (World [alice] no_file [""; "102"; "Bob"; "b"; ""; "next"] [])
              "102" "Bob" "b" "" ["Bob"; "b"; ""; "next"] ["b"; ""; "next"] ["next"])
    as (shown & E & Hlast);
    [|typed_now | typed_now | apply fresh_other_roll; other_now |].
  - exists [""], "102". split; [reflexivity|].
    split; [repeat constructor|]. split; [reflexivity | discriminate].
  - exists shown. split; [rewrite E; reflexivity | apply Hlast; reflexivity].
Defined.

(** X10: a record with a key of its own, and a new name only. *)
Lemma update_student_fields_witness :
  let d := student_fields "101" "Alice" "A" "15" ++ [("house", PStr "Red")] in
  let w := World [PDict d; bob] no_file ["101"; "Alicia"; ""; ""] [] in
  exists d' shown,
    update_student w
    = (ended (snd (store [PDict d'; bob] no_file)),
       World [PDict d'; bob]
         (fst (store [PDict d'; bob] no_file)) []
         (shown ++ after_save (snd (store [PDict d'; bob] no_file)) MsgUpdated)) /\
    (forall k,
       dict_get k d'
       = if String.eqb k "age" then Some (PStr "")
         else if String.eqb k "grade" then dict_get k d
         else if String.eqb k "name" then Some (PStr "Alicia")
         else dict_get k d) /\
    (dump_error (PList [PDict d'; bob]) = None ->
     fst (update_student w) = Ok tt /\
     last (stdout (snd (update_student w))) = Some (Say MsgUpdated)).
Proof.
  refine (update_student_fields
            (World [PDict (student_fields "101" "Alice" "A" "15"
                             ++ [("house", PStr "Red")]); bob]
               no_file ["101"; "Alicia"; ""; ""] [])
            "101" []
            (student_fields "101" "Alice" "A" "15" ++ [("house", PStr "Red")])
            [bob] "Alicia" "" "" [] _ _);
    [record_now | typed_now].
Defined.

(** X12 for an add. *)
Lemma operations_keep_file_in_sync_witness :
  let w := World [alice] (file_with (json_dumps (PList [alice])))
             ["102"; "Bob"; "b"; "16"] [] in
  synced (snd (run OpAdd w)) /\ fault (fs (snd (run OpAdd w))) = NoFault.
Proof.
  refine (operations_keep_file_in_sync OpAdd
            (World [alice] (file_with (json_dumps (PList [alice])))
               ["102"; "Bob"; "b"; "16"] []) _ _ _);
    [reflexivity | exists true; reflexivity | reflexivity].
Defined.

(** X14: the input ends in the middle of an update. *)
Lemma sound_collection_never_crashes_witness :
  let w := World [alice; bob] no_file ["101"; "Alicia"] [] in
  sound (students (snd (run OpUpdate w))) /\
  (fst (run OpUpdate w) = Ok tt \/
   (fst (run OpUpdate w) = Raise EOFError /\ stdin (snd (run OpUpdate w)) = []) \/
   (exists f n,
      dump_error (PList (students (snd (run OpUpdate w)))) = Some (f, n) /\
      fst (run OpUpdate w) = Raise (dump_exn f))).
Proof.
  refine (sound_collection_never_crashes OpUpdate
            (World [alice; bob] no_file ["101"; "Alicia"] []) _).
  repeat constructor.
Defined.

(** X15: the update of the test suite. *)
Lemma write_through_found_record_witness :
  let w := World [alice; bob] no_file [] [] in
  exists w',
    setitem 1 "name" (PStr "Bobby") w = (Ok tt, w') /\
    search_by_roll "102" w' = (Ok (Some 1), w') /\
    getitem 1 "name" w' = (Ok (PStr "Bobby"), w') /\
    length (students w') = 2 /\
    (forall j, j <> 1 -> students w' !! j = [alice; bob] !! j) /\
    fs w' = no_file.
Proof.
  refine (write_through_found_record "102" (World [alice; bob] no_file [] [])
            1 "name" (PStr "Bobby") _ _);
    [reflexivity | discriminate].
Defined.

(** X16: view, an invalid choice, then the end of the input. *)
Lemma main_terminates_witness :
  let s := Session (World [] no_file ["2"; ""; "7"] []) [] in
  exists r s',
    (forall fuel', 4 <= fuel' -> main fuel' s = Some (r, s')) /\
    (r = Ok tt \/ exists e, r = Raise e /\ e <> EOFError).
Proof.
  refine (main_terminates 4 (Session (World [] no_file ["2"; ""; "7"] []) []) _).
  simpl. lia.
Defined.

(** X17: the input ends in the middle of an add. *)
Lemma main_saves_on_exit_witness :
  let s := Session (World [] no_file ["1"; "101"; "Alice"; "a"] []) [] in
  exists r s',
    main 5 s = Some (r, s') /\
    ((r = Ok tt /\ synced (state s')) \/ exists e, r = Raise e /\ e <> EOFError).
Proof.
  refine (main_saves_on_exit 5
            (Session (World [] no_file ["1"; "101"; "Alice"; "a"] []) []) _ _);
    [reflexivity | simpl; lia].
Defined.

(** X18: a deletion, then the input ends in an update. *)
Lemma sound_session_ends_normally_witness :
  let s := Session (World [] (file_with (json_dumps (PList [alice; bob])))
                      ["5"; "101"; "y"; ""; "4"; "102"] []) [] in
  exists r s',
    main 7 s = Some (r, s') /\
    ((r = Ok tt /\ sound (students (state s'))) \/
     (exists e, r = Raise e /\
                (read_failure (fs (state s)) e \/ write_failure e))).
Proof.
  refine (sound_session_ends_normally 7
            (Session (World [] (file_with (json_dumps (PList [alice; bob])))
                        ["5"; "101"; "y"; ""; "4"; "102"] []) []) _ _);
    [|simpl; lia].
  intros text l [= <-] E. vm_compute in E. injection E as <-. repeat constructor.
Defined.

(** X19: a rejected add, an accepted add, and leave. *)
Lemma session_keeps_rolls_unique_witness :
  let s := Session (World [] (file_with (json_dumps (PList [alice; bob])))
                      ["1"; "101"; ""; "1"; "103"; "Cara"; "a"; "17"; ""; "6"] [])
             [] in
  exists r s', main 11 s = Some (r, s') /\ unique_rolls (students (state s')).
Proof.
  refine (session_keeps_rolls_unique 11
            (Session (World [] (file_with (json_dumps (PList [alice; bob])))
                        ["1"; "101"; ""; "1"; "103"; "Cara"; "a"; "17"; ""; "6"] [])
               []) _ _ _);
    [apply NoDup_nil_2 | |simpl; lia].
  intros text l [= <-] E. vm_compute in E. injection E as <-.
  unfold unique_rolls. cbn. apply NoDup_cons. split.
  - rewrite list_elem_of_singleton. discriminate.
  - apply NoDup_singleton.
Defined.

(** X20: an add and leave, on a file that cannot be opened for writing. *)
Lemma unwritable_file_is_untouched_witness :
  let dk := Disk (Present true "[]") OpenFails in
  let s := Session (World [] dk ["1"; "101"; "Alice"; "a"; "15"; ""; "6"] []) [] in
  exists r s', main 8 s = Some (r, s') /\ fs (state s') = dk.
Proof.
  refine (unwritable_file_is_untouched 8
            (Session (World [] (Disk (Present true "[]") OpenFails)
                        ["1"; "101"; "Alice"; "a"; "15"; ""; "6"] []) []) _ _);
    [reflexivity | simpl; lia].
Defined.

(** X21 from a missing file. *)
Lemma session_add_and_exit_witness :
  let s := Session (World [] no_file
                      [" 1"; "101"; "Alice"; "a"; "15"; "go on"; "6 "; "left"] [])
             [] in
  exists s',
    main 2 s = Some (Ok tt, s') /\
    students (state s') = [mk_student "101" "Alice" "A" "15"] /\
    synced (state s') /\ stdin (state s') = ["left"].
Proof.
  refine (session_add_and_exit 2
            (Session (World [] no_file
                        [" 1"; "101"; "Alice"; "a"; "15"; "go on"; "6 "; "left"] [])
               [])
            [] " 1" ["101"; "Alice"; "a"; "15"; "go on"; "6 "; "left"]
            "101" "Alice" "a" "15"
            ["Alice"; "a"; "15"; "go on"; "6 "; "left"]
            ["a"; "15"; "go on"; "6 "; "left"]
            "go on" "6 " ["left"] _ _ _ _ _ _ _ _ _ _ _);
    [reflexivity | reflexivity | reflexivity | reflexivity
    | typed_now | typed_now | typed_now | apply fresh_nil | reflexivity
    | reflexivity | lia].
Defined.

(** X22 after a session that adds one record: a process that starts with
    other records in memory loads the saved one. *)
Lemma restart_loads_saved_witness :
  let s := Session (World [] no_file ["1"; "101"; "Alice"; "a"; "15"; ""; "6"] []) [] in
  exists s',
    main 2 s = Some (Ok tt, s') /\
    students (state s') = [alice] /\
    load_data (World [bob; twin] (fs (state s')) ["2"] [])
    = (Ok [alice], World [bob; twin] (fs (state s')) ["2"] []).
Proof.
  eexists. split; [vm_compute; reflexivity|]. split; [reflexivity|].
  refine (restart_loads_saved 2
            (Session (World [] no_file ["1"; "101"; "Alice"; "a"; "15"; ""; "6"] []) [])
            _ _ _ _ _ [bob; twin] ["2"] []);
    [vm_compute; reflexivity | reflexivity | discriminate | vm_compute; reflexivity].
Defined.

(** A short session, run: the table of the empty collection, the pause, and
    the exit; the marks place the texts of the menu loop among the events. *)
Example session_run :
  main 2 (Session (World [] no_file ["2"; ""; "6"] []) [])
  = Some (Ok tt,
          Session (World [] (Disk (Present true "[]") NoFault) []
                     [Say MsgViewHeader; Say MsgNoRecords])
            [(0, MenuText); (0, AskChoice); (2, AskPause);
             (2, MenuText); (2, AskChoice); (2, SayGoodbye)]).
Proof. vm_compute. reflexivity. Qed.

(** An add whose name the library cannot write: the exception of the write
    leaves [add_student] after the record was appended, and the file holds
    the start of the document. *)
Example add_student_write_raises :
  let l := [mk_student "101" stray_byte "A" ""] in
  add_student (World [] no_file ["101"; stray_byte; "a"; ""] [])
  = (Raise UnicodeEncodeError,
     World l
       (Disk (Present true (String.substring 0 40 (json_dumps (PList l)))) NoFault)
       [] [Say MsgAddHeader; Ask AskRoll; Ask AskName; Ask AskGrade; Ask AskAge]).
Proof. vm_compute. reflexivity. Qed.

(** The same add in a session: the exception leaves [main], the lines that
    follow are not read and there is no closing save. *)
Example main_write_raises :
  let l := [mk_student "101" stray_byte "A" ""] in
  main 3 (Session (World [] (file_with "[]")
                     ["1"; "101"; stray_byte; "a"; ""; ""; "6"] []) [])
  = Some (Raise UnicodeEncodeError,
          Session
            (World l
               (Disk (Present true (String.substring 0 40 (json_dumps (PList l))))
                  NoFault)
               [""; "6"]
               [Say MsgAddHeader; Ask AskRoll; Ask AskName; Ask AskGrade; Ask AskAge])
            [(0, MenuText); (0, AskChoice)]).
Proof. vm_compute. reflexivity. Qed.

(** A data file that is not UTF-8: the exception of the load leaves [main]
    before the first menu, and nothing is changed. *)
Example main_load_raises :
  let s := Session (World [bob] (file_with stray_byte) ["6"] []) [] in
  main 1 s = Some (Raise UnicodeDecodeError, s).
Proof. vm_compute. reflexivity. Qed.

End MoreExamples.
